(** * Vwire IOT client: connection state machine, scheduler and command router

    A shallow embedding of [Vwire.cpp] (with the declarations of [Vwire.h]
    and [VwireConfig.h]) and the properties of its connection life cycle,
    its heartbeat / reconnect scheduling and its handler dispatch.

    Conventions of the embedding:
    - the [VwireClass] object and the file-level auto-registration globals
      are one explicit [World] value, threaded through a small
      state-and-trace monad [M];
    - every call that leaves the object (PubSubClient, [yield], a user
      callback) is recorded as an [Event] of the trace, in program order;
    - what the collaborators answer ([millis()], [WiFi.status()],
      [_mqttClient.connected()], [_mqttClient.connect(..)], the messages
      that [_mqttClient.loop()] delivers) is read from an [Env] record;
    - function pointers are opaque code addresses ([nat]); [nullptr] is
      [None].  The body of a user callback is outside the library, so a
      callback only shows up as a call event;
    - [unsigned long] is 32 bits wide (ESP32, ESP8266, RP2040, SAMD) and
      its subtraction wraps around;
    - the debug stream ([_debugPrint], [_debugPrintf]) and the set-up of
      the transport object ([_setupClient]) are left out: they neither
      read nor write what the properties below speak about. *)

From Stdlib Require Import ZArith Lia Bool List String Ascii.
From stdpp Require Import base list strings pretty.

Local Open Scope string_scope.
Local Open Scope Z_scope.
Local Open Scope list_scope.

(** ** Constants of VwireConfig.h and Vwire.h *)

Definition VWIRE_MAX_VIRTUAL_PINS : Z := 128.
Definition VWIRE_MAX_HANDLERS : nat := 32.
Definition VWIRE_MAX_AUTO_HANDLERS : nat := 32.
Definition VWIRE_MAX_TOKEN_LENGTH : nat := 64.
Definition VWIRE_MAX_SERVER_LENGTH : nat := 64.
Definition VWIRE_DEFAULT_HEARTBEAT_INTERVAL : Z := 30000.
Definition VWIRE_DEFAULT_RECONNECT_INTERVAL : Z := 5000.
Definition VWIRE_DEFAULT_WIFI_TIMEOUT : Z := 30000.
Definition VWIRE_DEFAULT_MQTT_TIMEOUT : Z := 10000.
Definition VWIRE_DEFAULT_SERVER : string := "mqtt.vwire.io".
Definition VWIRE_DEFAULT_PORT_TLS : Z := 8883.

Inductive VwireTransport := VWIRE_TRANSPORT_TCP | VWIRE_TRANSPORT_TCP_SSL.

Inductive VwireState :=
| VWIRE_STATE_IDLE
| VWIRE_STATE_CONNECTING_WIFI
| VWIRE_STATE_CONNECTING_MQTT
| VWIRE_STATE_CONNECTED
| VWIRE_STATE_DISCONNECTED
| VWIRE_STATE_ERROR.

Inductive VwireError :=
| VWIRE_ERR_NONE
| VWIRE_ERR_NO_TOKEN
| VWIRE_ERR_WIFI_FAILED
| VWIRE_ERR_MQTT_FAILED
| VWIRE_ERR_NOT_CONNECTED
| VWIRE_ERR_INVALID_PIN
| VWIRE_ERR_BUFFER_FULL
| VWIRE_ERR_HANDLER_FULL
| VWIRE_ERR_TIMEOUT
| VWIRE_ERR_SSL_FAILED.

Definition VwireState_eqb (a b : VwireState) : bool :=
  match a, b with
  | VWIRE_STATE_IDLE, VWIRE_STATE_IDLE
  | VWIRE_STATE_CONNECTING_WIFI, VWIRE_STATE_CONNECTING_WIFI
  | VWIRE_STATE_CONNECTING_MQTT, VWIRE_STATE_CONNECTING_MQTT
  | VWIRE_STATE_CONNECTED, VWIRE_STATE_CONNECTED
  | VWIRE_STATE_DISCONNECTED, VWIRE_STATE_DISCONNECTED
  | VWIRE_STATE_ERROR, VWIRE_STATE_ERROR => true
  | _, _ => false
  end.

(** ** Machine integers *)

Definition ULONG_MODULUS : Z := 2 ^ 32.
Definition LONG_MAX : Z := 2 ^ 31 - 1.
Definition LONG_MIN : Z := - 2 ^ 31.

(** [a - b] on [unsigned long]. *)
Definition ulong_sub (a b : Z) : Z := (a - b) mod ULONG_MODULUS.

(** Conversion of an argument to [uint8_t]. *)
Definition to_uint8 (z : Z) : Z := z mod 256.

(** [_vwireAutoWriteCount++] on [uint8_t]. *)
Definition uint8_incr (n : nat) : nat := ((n + 1) mod 256)%nat.

(** ** Callback types and records *)

Definition PinHandler := nat.
Definition ConnectionHandler := nat.
Definition RawMessageHandler := nat.

Record VwireSettings := mkSettings {
  authToken : string;
  server : string;
  port : Z;
  transport : VwireTransport;
  autoReconnect : bool;
  reconnectInterval : Z;
  heartbeatInterval : Z;
  wifiTimeout : Z;
  mqttTimeout : Z;
  dataQoS : Z;
  dataRetain : bool
}.

(** [VwireClass::PinHandlerEntry]. *)
Record PinHandlerEntry := mkPinEntry {
  pe_pin : Z;
  pe_handler : option PinHandler;
  pe_active : bool
}.

(** [VwireAutoHandler]. *)
Record VwireAutoHandler := mkAutoEntry {
  ah_pin : Z;
  ah_handler : option PinHandler
}.

(** The data members of [VwireClass] that the modelled methods touch. *)
Record VwireClass := mkVwire {
  _settings : VwireSettings;
  _state : VwireState;
  _lastError : VwireError;
  _deviceId : string;
  _startTime : Z;
  _lastHeartbeat : Z;
  _lastReconnectAttempt : Z;
  _pinHandlers : list PinHandlerEntry;
  _pinHandlerCount : nat;
  _connectHandler : option ConnectionHandler;
  _disconnectHandler : option ConnectionHandler;
  _messageHandler : option RawMessageHandler;
  _otaEnabled : bool
}.

(** The object together with the globals of the auto-registration system. *)
Record World := mkWorld {
  vwire : VwireClass;
  _vwireAutoWriteHandlers : list VwireAutoHandler;
  _vwireAutoWriteCount : nat;
  _vwireAutoConnectHandler : option ConnectionHandler;
  _vwireAutoDisconnectHandler : option ConnectionHandler
}.

(** Calls that leave the object, in the order the code makes them. *)
Inductive Event :=
| MqttConnect (clientId user pass willTopic : string)
              (willQos : Z) (willRetain : bool) (willMessage : string)
| MqttPublish (topic payload : string) (retained : bool)
| MqttSubscribe (topic : string)
| MqttDisconnect
| Yield
| OtaSetHostname (hostname : string)
| OtaSetPassword (password : string)
| OtaBegin
| OtaHandle
| CallPin (h : PinHandler) (param : string)
| CallConnection (h : ConnectionHandler)
| CallRaw (h : RawMessageHandler) (topic payload : string).

(** Answers of the collaborators during one call into the library. *)
Record Env := mkEnv {
  mqtt_connected : bool;        (* _mqttClient.connected() on entry *)
  inbound : list (string * list ascii);
                                (* messages handed over by _mqttClient.loop() *)
  mqtt_connected_after : bool;  (* _mqttClient.connected() after loop() *)
  wifi_connected : bool;        (* WiFi.status() == WL_CONNECTED *)
  millis : Z;                   (* first millis() of the call *)
  millis_later : Z;             (* a later millis() of the same call *)
  connect_result : bool;        (* what _mqttClient.connect(..) returns *)
  free_heap : Z;                (* ESP.getFreeHeap() *)
  wifi_rssi : Z                 (* WiFi.RSSI() *)
}.

(** ** The state-and-trace monad *)

Definition M (A : Type) : Type := World -> A * World * list Event.

Definition ret {A} (a : A) : M A := fun w => (a, w, []).

Definition bind {A B} (m : M A) (k : A -> M B) : M B :=
  fun w =>
    let '(a, w1, t1) := m w in
    let '(b, w2, t2) := k a w1 in
    (b, w2, t1 ++ t2).

Definition get : M World := fun w => (w, w, []).
Definition modify (f : World -> World) : M unit := fun w => (tt, f w, []).
Definition emit (e : Event) : M unit := fun w => (tt, w, [e]).

Declare Scope vw_scope.
Delimit Scope vw_scope with vw.
Notation "'let*' x ':=' m 'in' k" := (bind m (fun x => k))
  (at level 10, x name, m at level 100, k at level 200) : vw_scope.
Local Open Scope vw_scope.

Definition result {A} (r : A * World * list Event) : A := fst (fst r).
Definition world_of {A} (r : A * World * list Event) : World := snd (fst r).
Definition trace {A} (r : A * World * list Event) : list Event := snd r.

(** Field updates. *)
Definition with_vwire (f : VwireClass -> VwireClass) (w : World) : World :=
  mkWorld (f (vwire w)) (_vwireAutoWriteHandlers w) (_vwireAutoWriteCount w)
          (_vwireAutoConnectHandler w) (_vwireAutoDisconnectHandler w).

Definition set_state (s : VwireState) (v : VwireClass) : VwireClass :=
  mkVwire (_settings v) s (_lastError v) (_deviceId v) (_startTime v)
          (_lastHeartbeat v) (_lastReconnectAttempt v) (_pinHandlers v)
          (_pinHandlerCount v) (_connectHandler v) (_disconnectHandler v)
          (_messageHandler v) (_otaEnabled v).

Definition set_lastError (e : VwireError) (v : VwireClass) : VwireClass :=
  mkVwire (_settings v) (_state v) e (_deviceId v) (_startTime v)
          (_lastHeartbeat v) (_lastReconnectAttempt v) (_pinHandlers v)
          (_pinHandlerCount v) (_connectHandler v) (_disconnectHandler v)
          (_messageHandler v) (_otaEnabled v).

Definition set_startTime (t : Z) (v : VwireClass) : VwireClass :=
  mkVwire (_settings v) (_state v) (_lastError v) (_deviceId v) t
          (_lastHeartbeat v) (_lastReconnectAttempt v) (_pinHandlers v)
          (_pinHandlerCount v) (_connectHandler v) (_disconnectHandler v)
          (_messageHandler v) (_otaEnabled v).

Definition set_lastHeartbeat (t : Z) (v : VwireClass) : VwireClass :=
  mkVwire (_settings v) (_state v) (_lastError v) (_deviceId v) (_startTime v)
          t (_lastReconnectAttempt v) (_pinHandlers v)
          (_pinHandlerCount v) (_connectHandler v) (_disconnectHandler v)
          (_messageHandler v) (_otaEnabled v).

Definition set_lastReconnectAttempt (t : Z) (v : VwireClass) : VwireClass :=
  mkVwire (_settings v) (_state v) (_lastError v) (_deviceId v) (_startTime v)
          (_lastHeartbeat v) t (_pinHandlers v)
          (_pinHandlerCount v) (_connectHandler v) (_disconnectHandler v)
          (_messageHandler v) (_otaEnabled v).

Definition set_pinHandlers (l : list PinHandlerEntry) (n : nat)
    (v : VwireClass) : VwireClass :=
  mkVwire (_settings v) (_state v) (_lastError v) (_deviceId v) (_startTime v)
          (_lastHeartbeat v) (_lastReconnectAttempt v) l n
          (_connectHandler v) (_disconnectHandler v) (_messageHandler v)
          (_otaEnabled v).

(** ** State query *)

(** [VwireClass::connected], as a function of the state and of what
    [_mqttClient.connected()] answers. *)
Definition connected_view (s : VwireState) (t : bool) : bool :=
  VwireState_eqb s VWIRE_STATE_CONNECTED && t.

Definition connected (t : bool) : M bool :=
  let* w := get in ret (connected_view (_state (vwire w)) t).

(** [VwireClass::_setError]. *)
Definition _setError (e : VwireError) : M unit :=
  modify (with_vwire (set_lastError e)).


(** ** C strings and the C library *)

Definition dquote : ascii := "034"%char.
Definition quoted (s : string) : string := String dquote (s +:+ String dquote "").

(** The JSON status payloads of the source, [{"status":"offline"}] and
    [{"status":"online"}]. *)
Definition status_payload (v : string) : string :=
  "{" +:+ quoted "status" +:+ ":" +:+ quoted v +:+ "}".

(** What a [char] buffer holds when read as a C string: the bytes before
    the first NUL. *)
Fixpoint c_string (bytes : list ascii) : string :=
  match bytes with
  | [] => ""
  | c :: rest => if Ascii.eqb c zero then "" else String c (c_string rest)
  end.

(** [snprintf(buf, size, ..)] keeps at most [size - 1] characters of the
    formatted text. *)
Definition snprintf (size : nat) (formatted : string) : string :=
  substring 0 (size - 1) formatted.

(** [strncpy(dst, src, n)] into a buffer of [n + 1] bytes whose last
    byte is NUL: zero-filled before, or terminated right after the copy. *)
Definition strncpy (n : nat) (src : string) : string := substring 0 n src.

(** [strstr]: the suffix of [hay] that starts at the first occurrence of
    [needle]. *)
Fixpoint strstr (hay needle : string) : option string :=
  if String.prefix needle hay then Some hay
  else match hay with
       | EmptyString => None
       | String _ rest => strstr rest needle
       end.

(** Pointer arithmetic [p + n] on a C string. *)
Fixpoint string_drop (n : nat) (s : string) : string :=
  match n, s with
  | O, _ => s
  | S n', String _ rest => string_drop n' rest
  | S _, EmptyString => EmptyString
  end.

Definition isspace (c : ascii) : bool :=
  let n := nat_of_ascii c in
  (n =? 32)%nat || ((9 <=? n)%nat && (n <=? 13)%nat).

Definition isdigit (c : ascii) : bool :=
  let n := nat_of_ascii c in (48 <=? n)%nat && (n <=? 57)%nat.

Definition digit_value (c : ascii) : Z := Z.of_nat (nat_of_ascii c) - 48.

Fixpoint skip_spaces (s : string) : string :=
  match s with
  | String c rest => if isspace c then skip_spaces rest else s
  | EmptyString => EmptyString
  end.

Fixpoint digits_value (acc : Z) (s : string) : Z :=
  match s with
  | String c rest =>
      if isdigit c then digits_value (acc * 10 + digit_value c) rest else acc
  | EmptyString => acc
  end.

(** The sign that [strtol] reads, and what follows it. *)
Definition read_sign (s : string) : bool * string :=
  match s with
  | String c rest =>
      if Ascii.eqb c "-" then (true, rest)
      else if Ascii.eqb c "+" then (false, rest)
      else (false, s)
  | EmptyString => (false, s)
  end.

(** [atoi(s)] of the C library, that is [(int) strtol(s, NULL, 10)]:
    leading white space, an optional sign, then the longest run of
    decimal digits (value 0 when there is none); [strtol] saturates at
    [LONG_MIN] / [LONG_MAX], and [long] and [int] have the same width. *)
Definition atoi (s : string) : Z :=
  let '(neg, body) := read_sign (skip_spaces s) in
  let v := digits_value 0 body in
  Z.max LONG_MIN (Z.min LONG_MAX (if neg then - v else v)).

(** ** Board configuration (VwireConfig.h) *)

Inductive Board :=
| BOARD_ESP32 | BOARD_ESP8266 | BOARD_RP2040 | BOARD_SAMD | BOARD_GENERIC.

Definition VWIRE_MAX_PAYLOAD_LENGTH (b : Board) : nat :=
  match b with
  | BOARD_ESP32 => 2048
  | BOARD_ESP8266 => 1024
  | BOARD_RP2040 => 1024
  | BOARD_SAMD => 512
  | BOARD_GENERIC => 512
  end%nat.

Definition VWIRE_HAS_OTA (b : Board) : bool :=
  match b with
  | BOARD_ESP32 | BOARD_ESP8266 => true
  | _ => false
  end.

(** ** Construction and configuration *)

(** [VwireSettings::VwireSettings]. *)
Definition default_settings : VwireSettings :=
  mkSettings "" (strncpy (VWIRE_MAX_SERVER_LENGTH - 1) VWIRE_DEFAULT_SERVER)
             VWIRE_DEFAULT_PORT_TLS VWIRE_TRANSPORT_TCP_SSL true
             VWIRE_DEFAULT_RECONNECT_INTERVAL VWIRE_DEFAULT_HEARTBEAT_INTERVAL
             VWIRE_DEFAULT_WIFI_TIMEOUT VWIRE_DEFAULT_MQTT_TIMEOUT 1 false.

(** [VwireClass::VwireClass]: both tables are zero-filled. *)
Definition initial_vwire : VwireClass :=
  mkVwire default_settings VWIRE_STATE_IDLE VWIRE_ERR_NONE "" 0 0 0
          (replicate VWIRE_MAX_HANDLERS (mkPinEntry 0 None false)) 0
          None None None false.

Definition initial_world : World :=
  mkWorld initial_vwire
          (replicate VWIRE_MAX_AUTO_HANDLERS (mkAutoEntry 0 None)) 0 None None.

Definition set_settings (st : VwireSettings) (id : string)
    (v : VwireClass) : VwireClass :=
  mkVwire st (_state v) (_lastError v) id (_startTime v)
          (_lastHeartbeat v) (_lastReconnectAttempt v) (_pinHandlers v)
          (_pinHandlerCount v) (_connectHandler v) (_disconnectHandler v)
          (_messageHandler v) (_otaEnabled v).

(** Conversion of an argument to [uint16_t]. *)
Definition to_uint16 (z : Z) : Z := z mod 65536.

(** [strncpy(field, src, n)] into a [char] array of [n + 1] bytes that
    holds the C string [old], when nothing writes the last byte
    afterwards.  A source shorter than [n] is copied with its terminator
    (and zero padding).  A longer one fills the first [n] bytes and
    leaves byte [n] as it was: the terminator when [old] ended inside the
    array, as it does from construction on (the settings of the global
    object start zeroed and every write pads with zeros), and otherwise
    the rest of [old]. *)
Definition strncpy_field (n : nat) (old src : string) : string :=
  if (String.length src <? n)%nat then src
  else substring 0 n src +:+ string_drop n old.

(** [VwireClass::config(authToken, server, port)]; [port] is a
    [uint16_t], and only the device identity gets its terminator
    written. *)
Definition config (token srv : string) (prt : Z) : M unit :=
  modify (with_vwire (fun v =>
    let st := _settings v in
    let port16 := to_uint16 prt in
    let tr := if (port16 =? 8883) || (port16 =? 443)
              then VWIRE_TRANSPORT_TCP_SSL else VWIRE_TRANSPORT_TCP in
    set_settings
      (mkSettings (strncpy_field (VWIRE_MAX_TOKEN_LENGTH - 1)
                                 (authToken st) token)
                  (strncpy_field (VWIRE_MAX_SERVER_LENGTH - 1)
                                 (server st) srv)
                  port16 tr (autoReconnect st) (reconnectInterval st)
                  (heartbeatInterval st) (wifiTimeout st) (mqttTimeout st)
                  (dataQoS st) (dataRetain st))
      (strncpy (VWIRE_MAX_TOKEN_LENGTH - 1) token) v)).

Definition set_connectHandler (h : option ConnectionHandler)
    (v : VwireClass) : VwireClass :=
  mkVwire (_settings v) (_state v) (_lastError v) (_deviceId v) (_startTime v)
          (_lastHeartbeat v) (_lastReconnectAttempt v) (_pinHandlers v)
          (_pinHandlerCount v) h (_disconnectHandler v) (_messageHandler v)
          (_otaEnabled v).

Definition set_disconnectHandler (h : option ConnectionHandler)
    (v : VwireClass) : VwireClass :=
  mkVwire (_settings v) (_state v) (_lastError v) (_deviceId v) (_startTime v)
          (_lastHeartbeat v) (_lastReconnectAttempt v) (_pinHandlers v)
          (_pinHandlerCount v) (_connectHandler v) h (_messageHandler v)
          (_otaEnabled v).

Definition set_messageHandler (h : option RawMessageHandler)
    (v : VwireClass) : VwireClass :=
  mkVwire (_settings v) (_state v) (_lastError v) (_deviceId v) (_startTime v)
          (_lastHeartbeat v) (_lastReconnectAttempt v) (_pinHandlers v)
          (_pinHandlerCount v) (_connectHandler v) (_disconnectHandler v) h
          (_otaEnabled v).

Definition onConnect (h : option ConnectionHandler) : M unit :=
  modify (with_vwire (set_connectHandler h)).
Definition onDisconnect (h : option ConnectionHandler) : M unit :=
  modify (with_vwire (set_disconnectHandler h)).
Definition onMessage (h : option RawMessageHandler) : M unit :=
  modify (with_vwire (set_messageHandler h)).

Definition set_otaEnabled (on : bool) (v : VwireClass) : VwireClass :=
  mkVwire (_settings v) (_state v) (_lastError v) (_deviceId v) (_startTime v)
          (_lastHeartbeat v) (_lastReconnectAttempt v) (_pinHandlers v)
          (_pinHandlerCount v) (_connectHandler v) (_disconnectHandler v)
          (_messageHandler v) on.

(** [VwireClass::enableOTA(hostname, password)], compiled only where
    [VWIRE_HAS_OTA] is set; the four progress callbacks it installs only
    print. *)
Definition enableOTA (hostname password : option string) : M unit :=
  let* w := get in
  let* _ := emit (OtaSetHostname
                    match hostname with
                    | Some h => h
                    | None => "vwire-" +:+ substring 0 8 (_deviceId (vwire w))
                    end) in
  let* _ := match password with
            | Some p => emit (OtaSetPassword p)
            | None => ret tt
            end in
  let* _ := emit OtaBegin in
  modify (with_vwire (set_otaEnabled true)).

(** The OTA hook of [run]: [#if VWIRE_HAS_OTA] on the board,
    [if (_otaEnabled)] on the object. *)
Definition ota_hook (b : Board) : M unit :=
  let* w := get in
  if VWIRE_HAS_OTA b && _otaEnabled (vwire w) then emit OtaHandle else ret tt.

(** ** Handler registry *)

Definition set_auto_table (l : list VwireAutoHandler) (n : nat)
    (w : World) : World :=
  mkWorld (vwire w) l n
          (_vwireAutoConnectHandler w) (_vwireAutoDisconnectHandler w).

(** [_vwireRegisterWriteHandler], called by the VWIRE_WRITE macro. *)
Definition _vwireRegisterWriteHandler (pin : Z) (handler : option PinHandler)
    : M unit :=
  let* w := get in
  let n := _vwireAutoWriteCount w in
  if (n <? VWIRE_MAX_AUTO_HANDLERS)%nat then
    modify (set_auto_table
              (<[n := mkAutoEntry (to_uint8 pin) handler]>
                 (_vwireAutoWriteHandlers w))
              (uint8_incr n))
  else ret tt.

Definition _vwireRegisterConnectHandler (h : option ConnectionHandler)
    : M unit :=
  modify (fun w => mkWorld (vwire w) (_vwireAutoWriteHandlers w)
                           (_vwireAutoWriteCount w) h
                           (_vwireAutoDisconnectHandler w)).

Definition _vwireRegisterDisconnectHandler (h : option ConnectionHandler)
    : M unit :=
  modify (fun w => mkWorld (vwire w) (_vwireAutoWriteHandlers w)
                           (_vwireAutoWriteCount w)
                           (_vwireAutoConnectHandler w) h).

(** [VwireClass::onVirtualWrite].  The guard keeps the count below 32, so
    the [int] increment cannot overflow. *)
Definition onVirtualWrite (pin : Z) (handler : option PinHandler) : M unit :=
  let* w := get in
  let n := _pinHandlerCount (vwire w) in
  if (VWIRE_MAX_HANDLERS <=? n)%nat then
    _setError VWIRE_ERR_HANDLER_FULL
  else
    modify (with_vwire (fun v =>
      set_pinHandlers
        (<[n := mkPinEntry (to_uint8 pin) handler true]> (_pinHandlers v))
        (S n) v)).

(** The first loop of [_handleMessage]:
    [for (i = 0; i < _pinHandlerCount; i++)], started at index [i] with
    [n] iterations to go; the answer is the entry at which the loop
    returns. *)
Fixpoint scan_pinHandlers (tbl : list PinHandlerEntry) (pin : Z)
    (i n : nat) : option PinHandlerEntry :=
  match n with
  | O => None
  | S n' =>
      match tbl !! i with
      | Some en =>
          if pe_active en && (pe_pin en =? pin) then Some en
          else scan_pinHandlers tbl pin (S i) n'
      | None => scan_pinHandlers tbl pin (S i) n'
      end
  end.

(** The second loop: [for (i = 0; i < _vwireAutoWriteCount; i++)]. *)
Fixpoint scan_autoHandlers (tbl : list VwireAutoHandler) (pin : Z)
    (i n : nat) : option VwireAutoHandler :=
  match n with
  | O => None
  | S n' =>
      match tbl !! i with
      | Some en =>
          if ah_pin en =? pin then Some en
          else scan_autoHandlers tbl pin (S i) n'
      | None => scan_autoHandlers tbl pin (S i) n'
      end
  end.

(** [if (handler) handler(vpin);] *)
Definition call_pin (h : option PinHandler) (param : string) : M unit :=
  match h with
  | Some f => emit (CallPin f param)
  | None => ret tt
  end.

(** [if (handler) handler();] *)
Definition call_connection (h : option ConnectionHandler) : M unit :=
  match h with
  | Some f => emit (CallConnection f)
  | None => ret tt
  end.

(** The block of [_handleMessage] that the range test guards: both
    scans, each leaving at its first match. *)
Definition dispatch (pin : Z) (payloadStr : string) : M unit :=
  let* w := get in
  match scan_pinHandlers (_pinHandlers (vwire w)) pin 0
                         (_pinHandlerCount (vwire w)) with
  | Some en => call_pin (pe_handler en) payloadStr
  | None =>
      match scan_autoHandlers (_vwireAutoWriteHandlers w) pin 0
                              (_vwireAutoWriteCount w) with
      | Some en => call_pin (ah_handler en) payloadStr
      | None => ret tt
      end
  end.

(** ** Message router *)

Definition is_V (c : ascii) : bool := Ascii.eqb c "V" || Ascii.eqb c "v".

(** The pin number read from the text after the marker. *)
Definition parse_pin (pinStr : string) : Z :=
  match pinStr with
  | String c rest => if is_V c then atoi rest else atoi pinStr
  | EmptyString => atoi pinStr
  end.

(** The bounded, NUL-terminated copy of the payload. *)
Definition payload_copy (b : Board) (payload : list ascii) : string :=
  let copyLen := Nat.min (VWIRE_MAX_PAYLOAD_LENGTH b - 1) (length payload) in
  c_string (take copyLen payload).

(** [VwireClass::_handleMessage(topic, payload, length)], where [payload]
    lists the [length] bytes handed over. *)
Definition _handleMessage (b : Board) (topic : string)
    (payload : list ascii) : M unit :=
  let payloadStr := payload_copy b payload in
  let* w := get in
  let* _ := match _messageHandler (vwire w) with
            | Some h => emit (CallRaw h topic payloadStr)
            | None => ret tt
            end in
  match strstr topic "/cmd/" with
  | None => ret tt
  | Some cmdPos =>
      let pinStr := string_drop 5 cmdPos in
      match pinStr with
      | EmptyString => ret tt
      | String _ _ =>
          let pin := parse_pin pinStr in
          if (0 <=? pin) && (pin <? VWIRE_MAX_VIRTUAL_PINS)
          then dispatch pin payloadStr
          else ret tt
      end
  end.

(** ** Connection *)

(** [VwireClass::_buildTopic(type)] with the default [pin = -1]. *)
Definition _buildTopic (w : World) (type : string) : string :=
  "vwire/" +:+ _deviceId (vwire w) +:+ "/" +:+ type.

(** [VwireClass::_connectMQTT]. *)
Definition _connectMQTT (e : Env) : M bool :=
  let* w := get in
  let token := authToken (_settings (vwire w)) in
  if (String.length token =? 0)%nat then
    let* _ := _setError VWIRE_ERR_NO_TOKEN in
    ret false
  else
    let* _ := modify (with_vwire (set_state VWIRE_STATE_CONNECTING_MQTT)) in
    let clientId := "vwire-" +:+ _deviceId (vwire w) in
    let willTopic := _buildTopic w "status" in
    let willMessage := status_payload "offline" in
    let* _ := emit (MqttConnect clientId token token willTopic 1 true
                                willMessage) in
    if connect_result e then
      let* _ := modify (with_vwire (set_state VWIRE_STATE_CONNECTED)) in
      let* _ := emit (MqttPublish willTopic (status_payload "online") true) in
      let* _ := emit (MqttSubscribe (_buildTopic w "cmd" +:+ "/#")) in
      let* _ := modify (with_vwire (set_startTime (millis_later e))) in
      let* _ := call_connection (_connectHandler (vwire w)) in
      let* _ := call_connection (_vwireAutoConnectHandler w) in
      ret true
    else
      let* _ := _setError VWIRE_ERR_MQTT_FAILED in
      let* _ := modify (with_vwire (set_state VWIRE_STATE_ERROR)) in
      ret false.

(** [VwireClass::begin()], for a network joined by the caller; the client
    set-up only configures the transport object. *)
Definition begin (e : Env) : M bool :=
  if negb (wifi_connected e) then
    let* _ := _setError VWIRE_ERR_WIFI_FAILED in
    ret false
  else _connectMQTT e.

(** [VwireClass::disconnect]. *)
Definition disconnect (e : Env) : M unit :=
  let* w := get in
  let* _ :=
    if mqtt_connected e then
      let topic := snprintf 96 ("vwire/" +:+ _deviceId (vwire w) +:+ "/status") in
      let* _ := emit (MqttPublish topic (status_payload "offline") true) in
      emit MqttDisconnect
    else ret tt in
  modify (with_vwire (set_state VWIRE_STATE_DISCONNECTED)).

(** [VwireClass::getUptime], on [unsigned long]. *)
Definition getUptime (w : World) (now : Z) : Z :=
  ulong_sub now (_startTime (vwire w)) / 1000.

Definition heartbeat_topic (w : World) : string :=
  snprintf 96 ("vwire/" +:+ _deviceId (vwire w) +:+ "/heartbeat").

(** [VwireClass::getFreeHeap]: the heap of the ESP boards, 0 elsewhere. *)
Definition getFreeHeap (b : Board) (e : Env) : Z :=
  match b with
  | BOARD_ESP32 | BOARD_ESP8266 => free_heap e
  | _ => 0
  end.

Definition heartbeat_payload (b : Board) (e : Env) (w : World) : string :=
  snprintf 96
    ("{" +:+ quoted "uptime" +:+ ":" +:+ pretty (getUptime w (millis_later e))
     +:+ "," +:+ quoted "heap" +:+ ":" +:+ pretty (getFreeHeap b e)
     +:+ "," +:+ quoted "rssi" +:+ ":" +:+ pretty (wifi_rssi e) +:+ "}").

(** [VwireClass::_sendHeartbeat], reached from [run] after [loop()]; the
    two-argument [publish] does not retain. *)
Definition _sendHeartbeat (b : Board) (e : Env) : M unit :=
  let* up := connected (mqtt_connected_after e) in
  if negb up then ret tt
  else
    let* w := get in
    emit (MqttPublish (heartbeat_topic w) (heartbeat_payload b e w) false).

(** [_mqttClient.loop()]: every message it receives goes through
    [_mqttCallbackWrapper] to [_handleMessage]. *)
Fixpoint mqtt_loop (b : Board) (msgs : list (string * list ascii)) : M unit :=
  match msgs with
  | [] => ret tt
  | (topic, payload) :: rest =>
      let* _ := _handleMessage b topic payload in
      mqtt_loop b rest
  end.

(** The state change and the two notifications of a detected drop. *)
Definition notice_drop : M unit :=
  let* w := get in
  if VwireState_eqb (_state (vwire w)) VWIRE_STATE_CONNECTED then
    let* _ := modify (with_vwire (set_state VWIRE_STATE_DISCONNECTED)) in
    let* _ := call_connection (_disconnectHandler (vwire w)) in
    call_connection (_vwireAutoDisconnectHandler w)
  else ret tt.

(** [VwireClass::run] on board [b]. *)
Definition run (b : Board) (e : Env) : M unit :=
  if mqtt_connected e then
    let* _ := mqtt_loop b (inbound e) in
    let now := millis e in
    let* w := get in
    if heartbeatInterval (_settings (vwire w))
         <=? ulong_sub now (_lastHeartbeat (vwire w))
    then
      let* _ := modify (with_vwire (set_lastHeartbeat now)) in
      _sendHeartbeat b e
    else ret tt
  else
    let* _ := emit Yield in
    let* _ := ota_hook b in
    if negb (wifi_connected e) then notice_drop
    else
      let* _ := notice_drop in
      let* w := get in
      if autoReconnect (_settings (vwire w)) then
        let now := millis e in
        if reconnectInterval (_settings (vwire w))
             <=? ulong_sub now (_lastReconnectAttempt (vwire w))
        then
          let* _ := modify (with_vwire (set_lastReconnectAttempt now)) in
          let* _ := _connectMQTT e in
          ret tt
        else ret tt
      else ret tt.

(** A run of polls, one [Env] per call of [run]. *)
Fixpoint run_polls (b : Board) (es : list Env) : M unit :=
  match es with
  | [] => ret tt
  | e :: rest => let* _ := run b e in run_polls b rest
  end.

(** ** Vocabulary of the statements *)

(** The registered part of each table, in insertion order. *)
Definition explicit_entries (w : World) : list PinHandlerEntry :=
  take (_pinHandlerCount (vwire w)) (_pinHandlers (vwire w)).

Definition declarative_entries (w : World) : list VwireAutoHandler :=
  take (_vwireAutoWriteCount w) (_vwireAutoWriteHandlers w).

Definition explicit_match (c : Z) (en : PinHandlerEntry) : bool :=
  pe_active en && (pe_pin en =? c).

Definition declarative_match (c : Z) (en : VwireAutoHandler) : bool :=
  ah_pin en =? c.

Definition first_explicit (w : World) (c : Z) : option PinHandlerEntry :=
  List.find (explicit_match c) (explicit_entries w).

Definition first_declarative (w : World) (c : Z) : option VwireAutoHandler :=
  List.find (declarative_match c) (declarative_entries w).

(** The callback slot that first-match-wins selects for channel [c]:
    [None] when no entry matches, [Some None] when the winning entry
    holds a null callback. *)
Definition selected_handler (w : World) (c : Z) : option (option PinHandler) :=
  match first_explicit w c with
  | Some en => Some (pe_handler en)
  | None =>
      match first_declarative w c with
      | Some en => Some (ah_handler en)
      | None => None
      end
  end.

Definition call_events (h : option PinHandler) (param : string) : list Event :=
  match h with
  | Some f => [CallPin f param]
  | None => []
  end.

Definition raw_events (w : World) (topic payloadStr : string) : list Event :=
  match _messageHandler (vwire w) with
  | Some h => [CallRaw h topic payloadStr]
  | None => []
  end.

Definition is_CallPin (ev : Event) : bool :=
  match ev with CallPin _ _ => true | _ => false end.
Definition is_CallConnection (ev : Event) : bool :=
  match ev with CallConnection _ => true | _ => false end.
Definition is_MqttPublish (ev : Event) : bool :=
  match ev with MqttPublish _ _ _ => true | _ => false end.
Definition is_MqttConnect (ev : Event) : bool :=
  match ev with MqttConnect _ _ _ _ _ _ _ => true | _ => false end.
Definition is_callback (ev : Event) : bool :=
  match ev with CallPin _ _ | CallRaw _ _ _ => true | _ => false end.

Definition pin_calls (tr : list Event) : nat :=
  length (List.filter is_CallPin tr).
Definition publishes (tr : list Event) : list Event :=
  List.filter is_MqttPublish tr.
Definition connect_calls (tr : list Event) : nat :=
  length (List.filter is_MqttConnect tr).
Definition notifications (tr : list Event) : list Event :=
  List.filter is_CallConnection tr.

(** What the OTA hook adds to the trace of a poll. *)
Definition ota_events (b : Board) (w : World) : list Event :=
  if VWIRE_HAS_OTA b && _otaEnabled (vwire w) then [OtaHandle] else [].

(** The trace of a poll that has nothing to do while the session is
    down. *)
Definition idle_poll (b : Board) (w : World) : list Event :=
  Yield :: ota_events b w.

(** The range test of [_handleMessage]. *)
Definition in_pin_range (pin : Z) : bool :=
  (0 <=? pin) && (pin <? VWIRE_MAX_VIRTUAL_PINS).

(** Registering a list of declarative handlers, in order. *)
Fixpoint register_all (regs : list (Z * option PinHandler)) : M unit :=
  match regs with
  | [] => ret tt
  | (pin, h) :: rest =>
      let* _ := _vwireRegisterWriteHandler pin h in
      register_all rest
  end.

(** Text after an optional channel letter: what [atoi] is given. *)
Definition numeric_part (pinStr : string) : string :=
  match pinStr with
  | String c rest => if is_V c then rest else pinStr
  | EmptyString => EmptyString
  end.

(** [atoi] finds no digit to read: after white space and a sign the text
    ends or goes on with something that is not a digit. *)
Definition no_leading_number (s : string) : bool :=
  match snd (read_sign (skip_spaces s)) with
  | String c _ => negb (isdigit c)
  | EmptyString => true
  end.

Fixpoint all_digits (s : string) : bool :=
  match s with
  | String c rest => isdigit c && all_digits rest
  | EmptyString => true
  end.

(** One decimal digit or more, and nothing else. *)
Definition is_number (s : string) : bool :=
  match s with
  | EmptyString => false
  | String _ _ => all_digits s
  end.

(** A non-empty suffix that is neither digits nor a channel letter
    followed by digits. *)
Definition malformed_suffix (s : string) : bool :=
  match s with
  | EmptyString => false
  | String c rest => negb (is_number s) && negb (is_V c && is_number rest)
  end.

(** *** The four sentences that the code does not bear out, as written *)

(** Dispatch runs exactly one handler whenever a table has an entry for
    the channel, and none otherwise. *)
Definition dispatch_runs_exactly_one (w : World) (c : Z) (p : string) : Prop :=
  match selected_handler w c with
  | Some _ => pin_calls (trace (dispatch c p w)) = 1%nat
  | None => pin_calls (trace (dispatch c p w)) = 0%nat
  end.

(** [disconnect()] on a live session publishes the offline status without
    the retain flag. *)
Definition disconnect_publishes_unretained (e : Env) (w : World) : Prop :=
  exists topic,
    In (MqttPublish topic (status_payload "offline") false)
       (trace (disconnect e w)).

(** A join attempt without a token fails with NoToken, stays away from
    the transport and leaves the state at Error. *)
Definition no_token_join_sets_error_state (e : Env) (w : World) : Prop :=
  result (_connectMQTT e w) = false
  /\ connect_calls (trace (_connectMQTT e w)) = 0%nat
  /\ _lastError (vwire (world_of (_connectMQTT e w))) = VWIRE_ERR_NO_TOKEN
  /\ _state (vwire (world_of (_connectMQTT e w))) = VWIRE_STATE_ERROR.

(** A malformed suffix is read as channel 0 and reaches the handler of
    channel 0. *)
Definition malformed_suffix_reaches_zero (b : Board) (w : World)
    (topic : string) (payload : list ascii) : Prop :=
  forall cmdPos h,
    strstr topic "/cmd/" = Some cmdPos ->
    malformed_suffix (string_drop 5 cmdPos) = true ->
    selected_handler w 0 = Some (Some h) ->
    parse_pin (string_drop 5 cmdPos) = 0
    /\ In (CallPin h (payload_copy b payload))
          (trace (_handleMessage b topic payload w)).

(** *** Sample configurations *)

Definition sample_env : Env :=
  mkEnv true [] true true 40000 40001 true 200000 (-60).

(** A device configured with token [tok] on the plain port. *)
Definition world_configured : World :=
  world_of (config "tok" "host" 1883 initial_world).

(** The same device after a successful [begin()] at time 40001. *)
Definition world_connected : World :=
  world_of (begin sample_env world_configured).

(** A poll at clock value [t] with the session up and one command
    waiting. *)
Definition poll_at (t : Z) : Env :=
  mkEnv true [("vwire/tok/cmd/V0", ["1"%char])] true true t (t + 1) true
        200000 (-60).

(** A poll at clock value [t] with the session down, the network up and
    a broker that refuses the join. *)
Definition offline_poll_at (t : Z) : Env :=
  mkEnv false [] false true t (t + 1) false 200000 (-60).

(** A null explicit registration and a declarative handler, both for
    channel 5. *)
Definition world_null_explicit : World :=
  world_of (_vwireRegisterWriteHandler 5 (Some 7%nat)
              (world_of (onVirtualWrite 5 None world_configured))).

(** An explicit handler for channel 0 and a raw-message observer. *)
Definition world_channel_zero : World :=
  world_of (onMessage (Some 9%nat)
              (world_of (onVirtualWrite 0 (Some 3%nat) world_configured))).

(** A table with [n] explicit registrations on channels 0, 1, .. *)
Fixpoint world_with_handlers (n : nat) : World :=
  match n with
  | O => world_configured
  | S k => world_of (onVirtualWrite (Z.of_nat k) (Some k)
                       (world_with_handlers k))
  end.

(** The same for the declarative table. *)
Fixpoint world_with_auto_handlers (n : nat) : World :=
  match n with
  | O => world_configured
  | S k => world_of (_vwireRegisterWriteHandler (Z.of_nat k) (Some k)
                       (world_with_auto_handlers k))
  end.
(** ** Settings *)

Definition update_settings (f : VwireSettings -> VwireSettings)
    (v : VwireClass) : VwireClass :=
  set_settings (f (_settings v)) (_deviceId v) v.



(** [VwireClass::setAutoReconnect]. *)
Definition setAutoReconnect (enable : bool) : M unit :=
  modify (with_vwire (update_settings (fun st =>
    mkSettings (authToken st) (server st) (port st) (transport st) enable
               (reconnectInterval st) (heartbeatInterval st) (wifiTimeout st)
               (mqttTimeout st) (dataQoS st) (dataRetain st)))).

(** [VwireClass::setReconnectInterval]. *)
Definition setReconnectInterval (interval : Z) : M unit :=
  modify (with_vwire (update_settings (fun st =>
    mkSettings (authToken st) (server st) (port st) (transport st)
               (autoReconnect st) interval (heartbeatInterval st)
               (wifiTimeout st) (mqttTimeout st) (dataQoS st)
               (dataRetain st)))).

(** [VwireClass::setHeartbeatInterval]. *)
Definition setHeartbeatInterval (interval : Z) : M unit :=
  modify (with_vwire (update_settings (fun st =>
    mkSettings (authToken st) (server st) (port st) (transport st)
               (autoReconnect st) (reconnectInterval st) interval
               (wifiTimeout st) (mqttTimeout st) (dataQoS st)
               (dataRetain st)))).

(** [VwireClass::setDataRetain]. *)
Definition setDataRetain (retain : bool) : M unit :=
  modify (with_vwire (update_settings (fun st =>
    mkSettings (authToken st) (server st) (port st) (transport st)
               (autoReconnect st) (reconnectInterval st)
               (heartbeatInterval st) (wifiTimeout st) (mqttTimeout st)
               (dataQoS st) retain))).

(** ** VirtualPin (Vwire.h) *)

(** A [VirtualPin] holds one Arduino [String]. *)
Definition VirtualPin := string.

(** [VirtualPin(int)]: [String(value)], the decimal text. *)
Definition VirtualPin_int (value : Z) : VirtualPin := pretty value.

(** [VirtualPin(bool)]. *)
Definition VirtualPin_bool (value : bool) : VirtualPin :=
  if value then "1" else "0".

(** [VirtualPin::asInt]: [String::toInt], that is [atol] of the text. *)
Definition asInt (v : VirtualPin) : Z := atoi v.

(** [tolower] of the C library on ASCII. *)
Definition tolower (c : ascii) : ascii :=
  let n := nat_of_ascii c in
  if (65 <=? n)%nat && (n <=? 90)%nat then ascii_of_nat (n + 32) else c.

(** [String::equalsIgnoreCase]. *)
Fixpoint equalsIgnoreCase (a b : string) : bool :=
  match a, b with
  | EmptyString, EmptyString => true
  | String x a', String y b' =>
      Ascii.eqb (tolower x) (tolower y) && equalsIgnoreCase a' b'
  | _, _ => false
  end.

(** [VirtualPin::asBool]. *)
Definition asBool (v : VirtualPin) : bool :=
  String.eqb v "1" || equalsIgnoreCase v "true" || equalsIgnoreCase v "on".

(** The loop of [VirtualPin::getArraySize], over the characters left. *)
Fixpoint getArraySize_loop (rest : string) (count : Z) : Z :=
  match rest with
  | EmptyString => count
  | String c rest' =>
      getArraySize_loop rest' (if Ascii.eqb c "," then count + 1 else count)
  end.

(** [VirtualPin::getArraySize]. *)
Definition getArraySize (v : VirtualPin) : Z :=
  if (String.length v =? 0)%nat then 0 else getArraySize_loop v 1.

(** The loop of [VirtualPin::getArrayElement]: [rest] holds the
    characters from position [i] on, so that [i == length] is the empty
    [rest]; [substring(start, i)] of the source takes the characters from
    [start] up to [i]. *)
Fixpoint getArrayElement_loop (value : string) (index : Z) (rest : string)
    (i start : nat) (count : Z) : string :=
  match rest with
  | EmptyString =>
      if count =? index then substring start (i - start) value
      else EmptyString
  | String c rest' =>
      if Ascii.eqb c "," then
        if count =? index then substring start (i - start) value
        else getArrayElement_loop value index rest' (S i) (S i) (count + 1)
      else getArrayElement_loop value index rest' (S i) start count
  end.

(** [VirtualPin::getArrayElement]. *)
Definition getArrayElement (v : VirtualPin) (index : Z) : string :=
  getArrayElement_loop v index v 0 0 0.

(** [VirtualPin::getArrayInt]. *)
Definition getArrayInt (v : VirtualPin) (index : Z) : Z :=
  atoi (getArrayElement v index).

(** ** Virtual pin operations and notifications *)

Definition VWIRE_JSON_BUFFER_SIZE (b : Board) : nat :=
  match b with
  | BOARD_ESP32 => 1024
  | BOARD_ESP8266 => 512
  | BOARD_RP2040 => 512
  | BOARD_SAMD => 256
  | BOARD_GENERIC => 256
  end%nat.

(** A topic under the device root, written into a 96-byte buffer. *)
Definition device_topic (w : World) (suffix : string) : string :=
  snprintf 96 ("vwire/" +:+ _deviceId (vwire w) +:+ suffix).

(** [VwireClass::_virtualWriteInternal]; [pin] is a [uint8_t]. *)
Definition _virtualWriteInternal (e : Env) (pin : Z) (value : string)
    : M unit :=
  let* up := connected (mqtt_connected e) in
  if negb up then _setError VWIRE_ERR_NOT_CONNECTED
  else
    let* w := get in
    emit (MqttPublish
            (device_topic w ("/pin/V" +:+ pretty (to_uint8 pin)))
            value (dataRetain (_settings (vwire w)))).

(** [VwireClass::virtualWrite<int>]. *)
Definition virtualWrite_int (e : Env) (pin : Z) (value : Z) : M unit :=
  _virtualWriteInternal e pin (VirtualPin_int value).

(** [VwireClass::virtualWrite<bool>]. *)
Definition virtualWrite_bool (e : Env) (pin : Z) (value : bool) : M unit :=
  _virtualWriteInternal e pin (VirtualPin_bool value).

(** The loop of [virtualWriteArray(pin, int*, count)]: [values] lists the
    [count] elements read, [i] is the loop index. *)
Fixpoint virtualWriteArray_loop (values : list Z) (i : nat) (str : string)
    : string :=
  match values with
  | [] => str
  | v :: rest =>
      virtualWriteArray_loop rest (S i)
        ((if (0 <? i)%nat then str +:+ "," else str) +:+ pretty v)
  end.

(** [VwireClass::virtualWriteArray(pin, int* values, int count)]. *)
Definition virtualWriteArray_int (e : Env) (pin : Z) (values : list Z)
    : M unit :=
  _virtualWriteInternal e pin (virtualWriteArray_loop values 0 "").

(** A helper shared by the calls that publish without retaining and stay
    silent when the session is down. *)
Definition publish_if_connected (e : Env) (topic : World -> string)
    (payload : string) : M unit :=
  let* up := connected (mqtt_connected e) in
  if negb up then ret tt
  else
    let* w := get in
    emit (MqttPublish (topic w) payload false).

(** [VwireClass::syncVirtual]. *)
Definition syncVirtual (e : Env) (pin : Z) : M unit :=
  publish_if_connected e
    (fun w => device_topic w ("/sync/V" +:+ pretty (to_uint8 pin))) "".

(** [VwireClass::syncAll]. *)
Definition syncAll (e : Env) : M unit :=
  publish_if_connected e (fun w => device_topic w "/sync") "all".

(** [VwireClass::notify]. *)
Definition notify (e : Env) (message : string) : M unit :=
  publish_if_connected e (fun w => device_topic w "/notify") message.

(** [VwireClass::log]. *)
Definition log (e : Env) (message : string) : M unit :=
  publish_if_connected e (fun w => device_topic w "/log") message.

(** [VwireClass::email]: the JSON text is written into a buffer of
    [VWIRE_JSON_BUFFER_SIZE] bytes, subject and body as they come. *)
Definition email (b : Board) (e : Env) (subject body : string) : M unit :=
  publish_if_connected e (fun w => device_topic w "/email")
    (snprintf (VWIRE_JSON_BUFFER_SIZE b)
       ("{" +:+ quoted "subject" +:+ ":" +:+ quoted subject +:+ ","
        +:+ quoted "body" +:+ ":" +:+ quoted body +:+ "}")).

(** ** Vocabulary of the further statements *)

(** The comma-separated fields of a text, the last one included. *)
Fixpoint fields_from (cur rest : string) : list string :=
  match rest with
  | EmptyString => [cur]
  | String c rest' =>
      if Ascii.eqb c "," then cur :: fields_from EmptyString rest'
      else fields_from (cur +:+ String c EmptyString) rest'
  end.

Definition fields (s : string) : list string := fields_from EmptyString s.

Fixpoint comma_free (s : string) : bool :=
  match s with
  | EmptyString => true
  | String c rest => negb (Ascii.eqb c ",") && comma_free rest
  end.

(** Texts put one after the other with a comma in between. *)
Fixpoint join_commas (l : list string) : string :=
  match l with
  | [] => EmptyString
  | [x] => x
  | x :: rest => x +:+ "," +:+ join_commas rest
  end.

(** One registration call, explicit ([onVirtualWrite]) or declarative
    ([VWIRE_WRITE]). *)
Inductive Registration :=
| RegExplicit (pin : Z) (h : option PinHandler)
| RegDeclarative (pin : Z) (h : option PinHandler).

(** A run of registration calls, in order. *)
Fixpoint register_seq (rs : list Registration) : M unit :=
  match rs with
  | [] => ret tt
  | RegExplicit pin h :: rest =>
      let* _ := onVirtualWrite pin h in register_seq rest
  | RegDeclarative pin h :: rest =>
      let* _ := _vwireRegisterWriteHandler pin h in register_seq rest
  end.

(** The sizes and bounds that the registration functions keep. *)
Definition registry_wf (w : World) : Prop :=
  length (_pinHandlers (vwire w)) = VWIRE_MAX_HANDLERS
  /\ (_pinHandlerCount (vwire w) <= VWIRE_MAX_HANDLERS)%nat
  /\ length (_vwireAutoWriteHandlers w) = VWIRE_MAX_AUTO_HANDLERS
  /\ (_vwireAutoWriteCount w <= VWIRE_MAX_AUTO_HANDLERS)%nat
  /\ Forall (fun en => pe_active en = true) (explicit_entries w).

(** The registered handlers and the configuration, which the scheduler
    and the router only read. *)
Definition same_registry (w w' : World) : Prop :=
  _pinHandlers (vwire w') = _pinHandlers (vwire w)
  /\ _pinHandlerCount (vwire w') = _pinHandlerCount (vwire w)
  /\ _vwireAutoWriteHandlers w' = _vwireAutoWriteHandlers w
  /\ _vwireAutoWriteCount w' = _vwireAutoWriteCount w
  /\ _connectHandler (vwire w') = _connectHandler (vwire w)
  /\ _disconnectHandler (vwire w') = _disconnectHandler (vwire w)
  /\ _messageHandler (vwire w') = _messageHandler (vwire w)
  /\ _vwireAutoConnectHandler w' = _vwireAutoConnectHandler w
  /\ _vwireAutoDisconnectHandler w' = _vwireAutoDisconnectHandler w
  /\ _settings (vwire w') = _settings (vwire w)
  /\ _deviceId (vwire w') = _deviceId (vwire w).

Definition is_Yield (ev : Event) : bool :=
  match ev with Yield => true | _ => false end.

Definition is_unretained_publish (ev : Event) : bool :=
  match ev with MqttPublish _ _ false => true | _ => false end.

(** Every call of the slow path is a yield, an OTA poll, a connection
    callback, a connect, a subscribe or a retained publish. *)
Definition slow_path_event (ev : Event) : bool :=
  match ev with
  | Yield | OtaHandle | CallConnection _ | MqttSubscribe _
  | MqttConnect _ _ _ _ _ _ _ | MqttPublish _ _ true => true
  | _ => false
  end.

(** Every call of the fast path is a message callback or a publish
    without the retain flag. *)
Definition fast_path_event (ev : Event) : bool :=
  match ev with
  | CallPin _ _ | CallRaw _ _ _ | MqttPublish _ _ false => true
  | _ => false
  end.

(** The calls a poll makes for the host: the yield and the OTA poll. *)
Definition is_host_call (ev : Event) : bool :=
  match ev with Yield | OtaHandle => true | _ => false end.

(** The two disconnect callbacks, the explicit one first. *)
Definition disconnect_notifications (w : World) : list Event :=
  match _disconnectHandler (vwire w) with
  | Some f => [CallConnection f]
  | None => []
  end
  ++ match _vwireAutoDisconnectHandler w with
     | Some f => [CallConnection f]
     | None => []
     end.

(** The two connect callbacks, the explicit one first. *)
Definition connect_notifications (w : World) : list Event :=
  match _connectHandler (vwire w) with
  | Some f => [CallConnection f]
  | None => []
  end
  ++ match _vwireAutoConnectHandler w with
     | Some f => [CallConnection f]
     | None => []
     end.

(** A connected device with both disconnect callbacks and both connect
    callbacks registered. *)
Definition world_with_callbacks : World :=
  world_of (begin sample_env
    (world_of (_vwireRegisterDisconnectHandler (Some 12%nat)
      (world_of (_vwireRegisterConnectHandler (Some 11%nat)
        (world_of (onDisconnect (Some 2%nat)
          (world_of (onConnect (Some 1%nat) world_configured))))))))).

(** A poll at clock value [t] with the session and the network down. *)
Definition network_down_poll_at (t : Z) : Env :=
  mkEnv false [] false false t (t + 1) false 200000 (-60).

(** A poll at clock value [t] with the session down, the network up and
    a broker that accepts the join. *)
Definition rejoin_poll_at (t : Z) : Env :=
  mkEnv false [] false true t (t + 1) true 200000 (-60).

Lemma VwireState_eqb_eq a b : VwireState_eqb a b = true <-> a = b.
Proof. destruct a, b; simpl; split; intros H; congruence. Qed.

(** C1. [connected()] answers true exactly when the state is [Connected]
    and the transport reports connected; any other state gives false
    whatever the transport says, and a transport that reports disconnected
    gives false whatever the state is. *)
Theorem connected_iff (w : World) (t : bool) :
  (result (connected t w) = true <->
     _state (vwire w) = VWIRE_STATE_CONNECTED /\ t = true)
  /\ (_state (vwire w) <> VWIRE_STATE_CONNECTED -> result (connected t w) = false)
  /\ (t = false -> result (connected t w) = false)
  /\ world_of (connected t w) = w /\ trace (connected t w) = [].
Proof.
  unfold connected, bind, get, ret, result, world_of, trace, connected_view; simpl.
  split; [split | split; [|split; [|split; reflexivity]]].
  - intros H. apply andb_true_iff in H. destruct H as [H1 H2].
    apply VwireState_eqb_eq in H1. auto.
  - intros [H1 H2]. rewrite H1, H2. reflexivity.
  - intros Hne. destruct (VwireState_eqb _ _) eqn:E; [|reflexivity].
    apply VwireState_eqb_eq in E. contradiction.
  - intros ->. apply andb_false_r.
Qed.

(** ** Reasoning about the monad *)

Lemma bind_run {A B} (m : M A) (k : A -> M B) (w : World) :
  bind m k w =
    (result (k (result (m w)) (world_of (m w))),
     world_of (k (result (m w)) (world_of (m w))),
     trace (m w) ++ trace (k (result (m w)) (world_of (m w)))).
Proof.
  unfold bind, result, world_of, trace.
  destruct (m w) as [[a w1] t1]; simpl.
  destruct (k a w1) as [[b w2] t2]; reflexivity.
Qed.

Ltac unfold_m :=
  cbv beta iota zeta
      delta [bind get ret modify emit result world_of trace fst snd] in *.

(** ** Handler registry: explicit registration *)

Section ExplicitRegistration.

Variables (pin : Z) (handler : option PinHandler) (w : World).

Let n := _pinHandlerCount (vwire w).
Let w' := world_of (onVirtualWrite pin handler w).

Lemma onVirtualWrite_full :
  (VWIRE_MAX_HANDLERS <= n)%nat ->
  onVirtualWrite pin handler w =
    (tt, with_vwire (set_lastError VWIRE_ERR_HANDLER_FULL) w, []).
Proof.
  intros Hfull. unfold onVirtualWrite, _setError. unfold_m.
  destruct (Nat.leb_spec VWIRE_MAX_HANDLERS (_pinHandlerCount (vwire w)));
    [reflexivity | subst n; lia].
Qed.

Lemma onVirtualWrite_room :
  (n < VWIRE_MAX_HANDLERS)%nat ->
  onVirtualWrite pin handler w =
    (tt,
     with_vwire
       (set_pinHandlers
          (<[n := mkPinEntry (to_uint8 pin) handler true]>
             (_pinHandlers (vwire w))) (S n)) w,
     []).
Proof.
  intros Hroom. unfold onVirtualWrite. unfold_m.
  destruct (Nat.leb_spec VWIRE_MAX_HANDLERS (_pinHandlerCount (vwire w)));
    [subst n; lia | reflexivity].
Qed.

End ExplicitRegistration.

Lemma take_insert_append {A} (l : list A) (n : nat) (x : A) :
  (n < length l)%nat -> take (S n) (<[n := x]> l) = take n l ++ [x].
Proof.
  intros Hlt.
  rewrite (take_S_r _ _ x) by (apply list_lookup_insert_eq; exact Hlt).
  rewrite take_insert_ge by lia. reflexivity.
Qed.

(** C7. With the explicit table at its capacity of 32, a registration
    records the RegistryFull classification and leaves the table exactly
    as it was: same entries, same flags, same count.  Below capacity it
    appends the entry, marked active, and the count grows by one. *)
Theorem onVirtualWrite_capacity (pin : Z) (handler : option PinHandler)
    (w : World) :
  let w' := world_of (onVirtualWrite pin handler w) in
  ((VWIRE_MAX_HANDLERS <= _pinHandlerCount (vwire w))%nat ->
     _lastError (vwire w') = VWIRE_ERR_HANDLER_FULL
     /\ _pinHandlers (vwire w') = _pinHandlers (vwire w)
     /\ _pinHandlerCount (vwire w') = _pinHandlerCount (vwire w)
     /\ explicit_entries w' = explicit_entries w
     /\ w' = with_vwire (set_lastError VWIRE_ERR_HANDLER_FULL) w)
  /\ ((_pinHandlerCount (vwire w) < VWIRE_MAX_HANDLERS)%nat ->
      length (_pinHandlers (vwire w)) = VWIRE_MAX_HANDLERS ->
        explicit_entries w' =
          explicit_entries w ++ [mkPinEntry (to_uint8 pin) handler true]
        /\ _pinHandlerCount (vwire w') = S (_pinHandlerCount (vwire w))
        /\ _lastError (vwire w') = _lastError (vwire w))
  /\ trace (onVirtualWrite pin handler w) = [].
Proof.
  intros w'. split; [|split].
  - intros Hfull. subst w'.
    rewrite (onVirtualWrite_full pin handler w Hfull).
    unfold world_of, explicit_entries; simpl. repeat split; reflexivity.
  - intros Hroom Hlen. subst w'.
    rewrite (onVirtualWrite_room pin handler w Hroom).
    unfold world_of, explicit_entries; simpl. repeat split.
    apply take_insert_append. rewrite Hlen. exact Hroom.
  - unfold onVirtualWrite, _setError. unfold_m.
    destruct (VWIRE_MAX_HANDLERS <=? _pinHandlerCount (vwire w))%nat;
      reflexivity.
Qed.

Lemma onVirtualWrite_capacity_witness :
  ((VWIRE_MAX_HANDLERS <= _pinHandlerCount (vwire (world_with_handlers 32)))%nat
   /\ _lastError (vwire (world_of (onVirtualWrite 40 (Some 99%nat)
                                     (world_with_handlers 32))))
      = VWIRE_ERR_HANDLER_FULL
   /\ explicit_entries (world_of (onVirtualWrite 40 (Some 99%nat)
                                    (world_with_handlers 32)))
      = explicit_entries (world_with_handlers 32))
  /\ ((_pinHandlerCount (vwire (world_with_handlers 2)) < VWIRE_MAX_HANDLERS)%nat
      /\ explicit_entries (world_of (onVirtualWrite 40 (Some 99%nat)
                                       (world_with_handlers 2)))
         = [mkPinEntry 0 (Some 0%nat) true; mkPinEntry 1 (Some 1%nat) true;
            mkPinEntry 40 (Some 99%nat) true]).
Proof.
  split.
  - assert (Hfull : (VWIRE_MAX_HANDLERS
                     <= _pinHandlerCount (vwire (world_with_handlers 32)))%nat)
      by (vm_compute; lia).
    split; [exact Hfull|].
    destruct (proj1 (onVirtualWrite_capacity 40 (Some 99%nat)
                       (world_with_handlers 32)) Hfull)
      as (He & _ & _ & Ht & _).
    split; [exact He | exact Ht].
  - assert (Hroom : (_pinHandlerCount (vwire (world_with_handlers 2))
                     < VWIRE_MAX_HANDLERS)%nat) by (vm_compute; lia).
    split; [exact Hroom|].
    destruct (proj1 (proj2 (onVirtualWrite_capacity 40 (Some 99%nat)
                              (world_with_handlers 2))) Hroom eq_refl)
      as (Ht & _).
    exact Ht.
Defined.

(** ** Handler registry: declarative registration *)

Lemma auto_register_full (pin : Z) (handler : option PinHandler) (w : World) :
  (VWIRE_MAX_AUTO_HANDLERS <= _vwireAutoWriteCount w)%nat ->
  _vwireRegisterWriteHandler pin handler w = (tt, w, []).
Proof.
  intros Hfull. unfold _vwireRegisterWriteHandler. unfold_m.
  destruct (Nat.ltb_spec (_vwireAutoWriteCount w) VWIRE_MAX_AUTO_HANDLERS);
    [lia | reflexivity].
Qed.

Lemma auto_register_count (pin : Z) (handler : option PinHandler) (w : World) :
  (_vwireAutoWriteCount w <= VWIRE_MAX_AUTO_HANDLERS)%nat ->
  (_vwireAutoWriteCount (world_of (_vwireRegisterWriteHandler pin handler w))
   <= VWIRE_MAX_AUTO_HANDLERS)%nat.
Proof.
  intros Hle. unfold _vwireRegisterWriteHandler. unfold_m.
  destruct (Nat.ltb_spec (_vwireAutoWriteCount w) VWIRE_MAX_AUTO_HANDLERS)
    as [Hlt | Hge]; cbn [_vwireAutoWriteCount set_auto_table]; [|exact Hle].
  unfold uint8_incr, VWIRE_MAX_AUTO_HANDLERS in *.
  rewrite Nat.mod_small by lia. lia.
Qed.

Lemma register_all_count (regs : list (Z * option PinHandler)) :
  forall w : World,
    (_vwireAutoWriteCount w <= VWIRE_MAX_AUTO_HANDLERS)%nat ->
    (_vwireAutoWriteCount (world_of (register_all regs w))
     <= VWIRE_MAX_AUTO_HANDLERS)%nat.
Proof.
  induction regs as [|[pin h] rest IH]; intros w Hle.
  - exact Hle.
  - cbn [register_all]. rewrite bind_run.
    change (world_of (?a, ?b, ?c)) with b.
    apply IH, auto_register_count, Hle.
Qed.

(** C10. A declarative registration made when the declarative table
    already holds 32 entries changes nothing: no entry is written, the
    count stays, and the error classification of the session is not
    touched.  The count therefore never goes past 32, whatever is
    registered. *)
Theorem declarative_registration_bounded (pin : Z)
    (handler : option PinHandler) (regs : list (Z * option PinHandler))
    (w : World) :
  ((VWIRE_MAX_AUTO_HANDLERS <= _vwireAutoWriteCount w)%nat ->
     _vwireRegisterWriteHandler pin handler w = (tt, w, [])
     /\ _vwireAutoWriteHandlers
          (world_of (_vwireRegisterWriteHandler pin handler w))
        = _vwireAutoWriteHandlers w
     /\ _vwireAutoWriteCount
          (world_of (_vwireRegisterWriteHandler pin handler w))
        = _vwireAutoWriteCount w
     /\ _lastError
          (vwire (world_of (_vwireRegisterWriteHandler pin handler w)))
        = _lastError (vwire w))
  /\ ((_vwireAutoWriteCount w <= VWIRE_MAX_AUTO_HANDLERS)%nat ->
      (_vwireAutoWriteCount (world_of (register_all regs w))
       <= VWIRE_MAX_AUTO_HANDLERS)%nat)
  /\ (_vwireAutoWriteCount (world_of (register_all regs initial_world))
      <= VWIRE_MAX_AUTO_HANDLERS)%nat.
Proof.
  split; [|split].
  - intros Hfull. rewrite (auto_register_full pin handler w Hfull).
    repeat split; reflexivity.
  - apply register_all_count.
  - apply register_all_count. cbn. unfold VWIRE_MAX_AUTO_HANDLERS. lia.
Qed.

Lemma declarative_registration_bounded_witness :
  (VWIRE_MAX_AUTO_HANDLERS
   <= _vwireAutoWriteCount (world_with_auto_handlers 32))%nat
  /\ _vwireRegisterWriteHandler 40 (Some 99%nat) (world_with_auto_handlers 32)
     = (tt, world_with_auto_handlers 32, [])
  /\ (_vwireAutoWriteCount
        (world_of (register_all [(1%Z, Some 1%nat); (2%Z, None)]
                                (world_with_auto_handlers 32)))
      <= VWIRE_MAX_AUTO_HANDLERS)%nat.
Proof.
  assert (Hfull : (VWIRE_MAX_AUTO_HANDLERS
                   <= _vwireAutoWriteCount (world_with_auto_handlers 32))%nat)
    by (vm_compute; lia).
  assert (Hle : (_vwireAutoWriteCount (world_with_auto_handlers 32)
                 <= VWIRE_MAX_AUTO_HANDLERS)%nat) by (vm_compute; lia).
  split; [exact Hfull|]. split.
  - exact (proj1 (proj1 (declarative_registration_bounded
                           40 (Some 99%nat) []
                           (world_with_auto_handlers 32)) Hfull)).
  - exact (proj1 (proj2 (declarative_registration_bounded
                           40 (Some 99%nat) [(1%Z, Some 1%nat); (2%Z, None)]
                           (world_with_auto_handlers 32))) Hle).
Defined.

(** ** Dispatch *)

Lemma scan_pinHandlers_find (tbl : list PinHandlerEntry) (pin : Z) (n : nat) :
  forall i : nat,
    scan_pinHandlers tbl pin i n
    = List.find (explicit_match pin) (take n (drop i tbl)).
Proof.
  induction n as [|n IH]; intros i.
  - reflexivity.
  - cbn [scan_pinHandlers]. destruct (tbl !! i) as [en|] eqn:Hi.
    + rewrite (drop_S _ _ _ Hi). cbn [take List.find].
      rewrite IH. unfold explicit_match.
      destruct (pe_active en && (pe_pin en =? pin)); reflexivity.
    + rewrite IH. apply lookup_ge_None in Hi.
      rewrite !drop_ge by lia. rewrite !take_nil. reflexivity.
Qed.

Lemma scan_autoHandlers_find (tbl : list VwireAutoHandler) (pin : Z) (n : nat) :
  forall i : nat,
    scan_autoHandlers tbl pin i n
    = List.find (declarative_match pin) (take n (drop i tbl)).
Proof.
  induction n as [|n IH]; intros i.
  - reflexivity.
  - cbn [scan_autoHandlers]. destruct (tbl !! i) as [en|] eqn:Hi.
    + rewrite (drop_S _ _ _ Hi). cbn [take List.find].
      rewrite IH. unfold declarative_match.
      destruct (ah_pin en =? pin); reflexivity.
    + rewrite IH. apply lookup_ge_None in Hi.
      rewrite !drop_ge by lia. rewrite !take_nil. reflexivity.
Qed.

Lemma call_pin_run (h : option PinHandler) (p : string) (w : World) :
  call_pin h p w = (tt, w, call_events h p).
Proof. destruct h; reflexivity. Qed.

Lemma dispatch_run (c : Z) (p : string) (w : World) :
  dispatch c p w =
    (tt, w, match selected_handler w c with
            | Some h => call_events h p
            | None => []
            end).
Proof.
  unfold dispatch, selected_handler, first_explicit, first_declarative,
    explicit_entries, declarative_entries.
  unfold_m.
  rewrite scan_pinHandlers_find, scan_autoHandlers_find, !drop_0.
  destruct (List.find (explicit_match c) _) as [en|].
  - rewrite call_pin_run. reflexivity.
  - destruct (List.find (declarative_match c) _) as [en|].
    + rewrite call_pin_run. reflexivity.
    + reflexivity.
Qed.

Lemma registrations_commute (c1 c2 : Z) (h1 h2 : option PinHandler)
    (w : World) :
  world_of (_vwireRegisterWriteHandler c2 h2
              (world_of (onVirtualWrite c1 h1 w)))
  = world_of (onVirtualWrite c1 h1
                (world_of (_vwireRegisterWriteHandler c2 h2 w))).
Proof.
  unfold onVirtualWrite, _vwireRegisterWriteHandler, _setError. unfold_m.
  destruct (VWIRE_MAX_HANDLERS <=? _pinHandlerCount (vwire w))%nat eqn:He;
    destruct (_vwireAutoWriteCount w <? VWIRE_MAX_AUTO_HANDLERS)%nat eqn:Ha;
    cbn [vwire set_auto_table with_vwire _pinHandlerCount
         _vwireAutoWriteCount set_lastError set_pinHandlers];
    rewrite ?He, ?Ha; reflexivity.
Qed.

(** C2 (amended). Dispatch on channel [c] calls at most one handler.  The
    explicit table is scanned first, in insertion order, and its first
    active entry for [c] ends the dispatch; the declarative table is
    scanned, in insertion order, only when the explicit table has no such
    entry; with no entry in either table nothing is called.  The callback
    of the winning entry is called when it is not null, and a null one is
    skipped without looking any further.  So an explicit entry for [c]
    takes precedence over every declarative entry for [c], and the order
    in which the two registrations were made does not matter. *)
Theorem dispatch_first_match (w : World) (c : Z) (p : string) :
  world_of (dispatch c p w) = w
  /\ trace (dispatch c p w) =
       match first_explicit w c with
       | Some en => call_events (pe_handler en) p
       | None =>
           match first_declarative w c with
           | Some en => call_events (ah_handler en) p
           | None => []
           end
       end
  /\ (length (trace (dispatch c p w)) <= 1)%nat
  /\ (forall en h, first_explicit w c = Some en -> pe_handler en = Some h ->
        trace (dispatch c p w) = [CallPin h p])
  /\ (forall h1 h2,
        world_of (_vwireRegisterWriteHandler c h2
                    (world_of (onVirtualWrite c h1 w)))
        = world_of (onVirtualWrite c h1
                      (world_of (_vwireRegisterWriteHandler c h2 w)))).
Proof.
  rewrite dispatch_run. unfold world_of, trace, selected_handler; simpl.
  split; [reflexivity|]. split; [|split; [|split]].
  - destruct (first_explicit w c); [reflexivity|].
    destruct (first_declarative w c); reflexivity.
  - destruct (first_explicit w c) as [en|].
    + destruct (pe_handler en); simpl; lia.
    + destruct (first_declarative w c) as [en|]; [|simpl; lia].
      destruct (ah_handler en); simpl; lia.
  - intros en h -> ->. reflexivity.
  - intros h1 h2. apply registrations_commute.
Qed.

Lemma dispatch_first_match_witness :
  first_explicit
    (world_of (_vwireRegisterWriteHandler 5 (Some 7%nat)
                 (world_of (onVirtualWrite 5 (Some 3%nat) world_configured))))
    5 = Some (mkPinEntry 5 (Some 3%nat) true)
  /\ trace (dispatch 5 "1"
              (world_of (_vwireRegisterWriteHandler 5 (Some 7%nat)
                           (world_of (onVirtualWrite 5 (Some 3%nat)
                                        world_configured)))))
     = [CallPin 3%nat "1"].
Proof.
  split; [reflexivity|].
  exact (proj1 (proj2 (proj2 (proj2
           (dispatch_first_match
              (world_of (_vwireRegisterWriteHandler 5 (Some 7%nat)
                           (world_of (onVirtualWrite 5 (Some 3%nat)
                                        world_configured))))
              5 "1"))))
           (mkPinEntry 5 (Some 3%nat) true) 3%nat eq_refl eq_refl).
Defined.

(** C2, as written, fails: a null explicit registration for channel 5
    ends the dispatch with no call at all, although the declarative table
    holds a handler for channel 5. *)
Lemma dispatch_null_explicit_counterexample :
  selected_handler world_null_explicit 5 = Some None
  /\ first_declarative world_null_explicit 5
     = Some (mkAutoEntry 5 (Some 7%nat))
  /\ trace (dispatch 5 "1" world_null_explicit) = []
  /\ ~ dispatch_runs_exactly_one world_null_explicit 5 "1".
Proof.
  split; [reflexivity|]. split; [reflexivity|]. split; [reflexivity|].
  unfold dispatch_runs_exactly_one.
  change (selected_handler world_null_explicit 5) with (Some (@None PinHandler)).
  change (pin_calls (trace (dispatch 5 "1" world_null_explicit))) with 0%nat.
  discriminate.
Qed.

(** ** Message router *)

Lemma raw_observer_run (w : World) (topic p : string) :
  match _messageHandler (vwire w) with
  | Some h => emit (CallRaw h topic p)
  | None => ret tt
  end w = (tt, w, raw_events w topic p).
Proof. unfold raw_events. destruct (_messageHandler (vwire w)); reflexivity. Qed.

(** What [_handleMessage] does, in one equation: the object is left as
    it was, the observer comes first, and a command in range goes to the
    selected handler. *)
Lemma _handleMessage_run (b : Board) (topic : string) (payload : list ascii)
    (w : World) :
  _handleMessage b topic payload w =
    (tt, w,
     raw_events w topic (payload_copy b payload)
     ++ match strstr topic "/cmd/" with
        | None => []
        | Some cmdPos =>
            match string_drop 5 cmdPos with
            | EmptyString => []
            | String c rest =>
                if in_pin_range (parse_pin (String c rest)) then
                  match selected_handler w (parse_pin (String c rest)) with
                  | Some h => call_events h (payload_copy b payload)
                  | None => []
                  end
                else []
            end
        end).
Proof.
  unfold _handleMessage, in_pin_range.
  rewrite bind_run. change (get w) with (w, w, @nil Event).
  cbn [result world_of trace fst snd app].
  rewrite bind_run, (raw_observer_run w topic (payload_copy b payload)).
  cbn [result world_of trace fst snd].
  f_equal; [f_equal|f_equal].
  - destruct (strstr topic "/cmd/") as [cmdPos|]; [|reflexivity].
    destruct (string_drop 5 cmdPos) as [|c rest]; [reflexivity|].
    destruct ((0 <=? parse_pin (String c rest))
              && (parse_pin (String c rest) <? VWIRE_MAX_VIRTUAL_PINS));
      [rewrite dispatch_run|]; reflexivity.
  - destruct (strstr topic "/cmd/") as [cmdPos|]; [|reflexivity].
    destruct (string_drop 5 cmdPos) as [|c rest]; [reflexivity|].
    destruct ((0 <=? parse_pin (String c rest))
              && (parse_pin (String c rest) <? VWIRE_MAX_VIRTUAL_PINS));
      [rewrite dispatch_run|]; reflexivity.
  - destruct (strstr topic "/cmd/") as [cmdPos|]; [|reflexivity].
    destruct (string_drop 5 cmdPos) as [|c rest]; [reflexivity|].
    destruct ((0 <=? parse_pin (String c rest))
              && (parse_pin (String c rest) <? VWIRE_MAX_VIRTUAL_PINS));
      [rewrite dispatch_run|]; reflexivity.
Qed.

Lemma in_pin_range_false (pin : Z) :
  ~ (0 <= pin < VWIRE_MAX_VIRTUAL_PINS) -> in_pin_range pin = false.
Proof.
  intros Hout. unfold in_pin_range.
  destruct (Z.leb_spec 0 pin); destruct (Z.ltb_spec pin VWIRE_MAX_VIRTUAL_PINS);
    simpl; try reflexivity.
  exfalso. apply Hout. lia.
Qed.

Lemma filter_raw_events (w : World) (topic p : string) :
  List.filter is_CallPin (raw_events w topic p) = [].
Proof. unfold raw_events. destruct (_messageHandler (vwire w)); reflexivity. Qed.

(** C8. A message whose topic carries the command marker and whose
    parsed channel number lies outside 0..127 (V999, say) calls no pin
    handler and changes nothing in the object, so no error is recorded;
    the raw-message observer, when there is one, is still called, with the
    whole topic and the bounded copy of the payload. *)
Theorem out_of_range_command_dropped (b : Board) (w : World)
    (topic : string) (payload : list ascii) (cmdPos : string) :
  strstr topic "/cmd/" = Some cmdPos ->
  ~ (0 <= parse_pin (string_drop 5 cmdPos) < VWIRE_MAX_VIRTUAL_PINS) ->
  world_of (_handleMessage b topic payload w) = w
  /\ _lastError (vwire (world_of (_handleMessage b topic payload w)))
     = _lastError (vwire w)
  /\ pin_calls (trace (_handleMessage b topic payload w)) = 0%nat
  /\ trace (_handleMessage b topic payload w)
     = match _messageHandler (vwire w) with
       | Some h => [CallRaw h topic (payload_copy b payload)]
       | None => []
       end.
Proof.
  intros Hcmd Hout. rewrite _handleMessage_run, Hcmd.
  cbn [world_of trace fst snd].
  assert (Hnone : match string_drop 5 cmdPos with
                  | EmptyString => []
                  | String c rest =>
                      if in_pin_range (parse_pin (String c rest)) then
                        match selected_handler w (parse_pin (String c rest)) with
                        | Some h => call_events h (payload_copy b payload)
                        | None => []
                        end
                      else []
                  end = @nil Event).
  { destruct (string_drop 5 cmdPos) as [|c rest]; [reflexivity|].
    rewrite (in_pin_range_false _ Hout). reflexivity. }
  rewrite Hnone, app_nil_r.
  split; [reflexivity|]. split; [reflexivity|]. split.
  - unfold pin_calls. rewrite filter_raw_events. reflexivity.
  - reflexivity.
Qed.

Lemma out_of_range_command_dropped_witness :
  strstr "vwire/tok/cmd/V999" "/cmd/" = Some "/cmd/V999"
  /\ parse_pin "V999" = 999
  /\ world_of (_handleMessage BOARD_ESP8266 "vwire/tok/cmd/V999"
                 ["4"; "2"]%char world_channel_zero) = world_channel_zero
  /\ trace (_handleMessage BOARD_ESP8266 "vwire/tok/cmd/V999"
              ["4"; "2"]%char world_channel_zero)
     = [CallRaw 9%nat "vwire/tok/cmd/V999" "42"].
Proof.
  split; [reflexivity|]. split; [reflexivity|].
  assert (Hout : ~ (0 <= parse_pin (string_drop 5 "/cmd/V999")
                    < VWIRE_MAX_VIRTUAL_PINS))
    by (vm_compute; intros [_ H]; discriminate H).
  destruct (out_of_range_command_dropped BOARD_ESP8266 world_channel_zero
              "vwire/tok/cmd/V999" ["4"; "2"]%char "/cmd/V999" eq_refl Hout)
    as (Hw & _ & _ & Ht).
  split; [exact Hw | exact Ht].
Defined.

Lemma digits_value_no_digit (s : string) :
  match s with String c _ => negb (isdigit c) | EmptyString => true end = true ->
  digits_value 0 s = 0.
Proof.
  destruct s as [|c rest]; [reflexivity|]. cbn [digits_value].
  destruct (isdigit c); [discriminate | reflexivity].
Qed.

Lemma atoi_no_leading_number (s : string) :
  no_leading_number s = true -> atoi s = 0.
Proof.
  unfold no_leading_number, atoi. intros Hno.
  destruct (read_sign (skip_spaces s)) as [neg body]. cbn [snd] in Hno.
  rewrite (digits_value_no_digit body Hno).
  destruct neg; reflexivity.
Qed.

Lemma parse_pin_numeric_part (pinStr : string) :
  parse_pin pinStr = atoi (numeric_part pinStr).
Proof.
  destruct pinStr as [|c rest]; [reflexivity|]. cbn [parse_pin numeric_part].
  destruct (is_V c); reflexivity.
Qed.

(** C9 (amended). When the text after the marker is not empty and its
    numeric part (what follows one optional V or v) holds no number for
    [atoi] to read, that is, after white space and a sign it ends or goes
    on with something that is not a digit, as in /cmd/abc or a bare
    /cmd/V, the channel read is 0; the message is then dispatched as a
    command on channel 0, and a handler registered for channel 0 is
    called with the payload of the message. *)
Theorem unreadable_suffix_is_channel_zero (b : Board) (w : World)
    (topic : string) (payload : list ascii) (cmdPos : string) :
  strstr topic "/cmd/" = Some cmdPos ->
  string_drop 5 cmdPos <> EmptyString ->
  no_leading_number (numeric_part (string_drop 5 cmdPos)) = true ->
  parse_pin (string_drop 5 cmdPos) = 0
  /\ trace (_handleMessage b topic payload w)
     = raw_events w topic (payload_copy b payload)
       ++ match selected_handler w 0 with
          | Some h => call_events h (payload_copy b payload)
          | None => []
          end
  /\ (forall h, selected_handler w 0 = Some (Some h) ->
        In (CallPin h (payload_copy b payload))
           (trace (_handleMessage b topic payload w))).
Proof.
  intros Hcmd Hne Hno.
  assert (Hzero : parse_pin (string_drop 5 cmdPos) = 0)
    by (rewrite parse_pin_numeric_part; apply atoi_no_leading_number, Hno).
  assert (Htrace : trace (_handleMessage b topic payload w)
     = raw_events w topic (payload_copy b payload)
       ++ match selected_handler w 0 with
          | Some h => call_events h (payload_copy b payload)
          | None => []
          end).
  { rewrite _handleMessage_run, Hcmd. cbn [trace snd].
    destruct (string_drop 5 cmdPos) as [|c rest]; [contradiction|].
    rewrite Hzero. reflexivity. }
  split; [exact Hzero|]. split; [exact Htrace|].
  intros h Hsel. rewrite Htrace, Hsel. apply in_or_app. right. left.
  reflexivity.
Qed.

Lemma unreadable_suffix_is_channel_zero_witness :
  (parse_pin "abc" = 0
   /\ trace (_handleMessage BOARD_ESP32 "vwire/tok/cmd/abc" ["1"]%char
               world_channel_zero)
      = [CallRaw 9%nat "vwire/tok/cmd/abc" "1"; CallPin 3%nat "1"])
  /\ (parse_pin "V" = 0
      /\ In (CallPin 3%nat "1")
            (trace (_handleMessage BOARD_ESP32 "vwire/tok/cmd/V" ["1"]%char
                      world_channel_zero))).
Proof.
  split.
  - destruct (unreadable_suffix_is_channel_zero BOARD_ESP32 world_channel_zero
                "vwire/tok/cmd/abc" ["1"]%char "/cmd/abc" eq_refl
                ltac:(discriminate) eq_refl) as (Hz & Ht & _).
    split; [exact Hz | exact Ht].
  - destruct (unreadable_suffix_is_channel_zero BOARD_ESP32 world_channel_zero
                "vwire/tok/cmd/V" ["1"]%char "/cmd/V" eq_refl
                ltac:(discriminate) eq_refl) as (Hz & _ & Hin).
    split; [exact Hz | exact (Hin 3%nat eq_refl)].
Defined.

(** C9, as written, fails: the suffix -5 is neither digits nor a channel
    letter followed by digits, yet it is read as -5, which is out of
    range, and the handler of channel 0 is not called. *)
Lemma malformed_suffix_counterexample :
  malformed_suffix "-5" = true
  /\ parse_pin "-5" = -5
  /\ selected_handler world_channel_zero 0 = Some (Some 3%nat)
  /\ trace (_handleMessage BOARD_ESP32 "vwire/tok/cmd/-5" ["1"]%char
              world_channel_zero)
     = [CallRaw 9%nat "vwire/tok/cmd/-5" "1"]
  /\ ~ malformed_suffix_reaches_zero BOARD_ESP32 world_channel_zero
         "vwire/tok/cmd/-5" ["1"]%char.
Proof.
  split; [reflexivity|]. split; [reflexivity|]. split; [reflexivity|].
  split; [reflexivity|].
  intros Hclaim.
  destruct (Hclaim "/cmd/-5" 3%nat eq_refl eq_refl eq_refl) as [Hzero _].
  vm_compute in Hzero. discriminate Hzero.
Qed.

(** ** Connection: requested disconnect and join without a token *)

(** C3 (amended). [disconnect()] on a live session publishes the offline
    status with the retain flag set, then closes the transport; whether or
    not a session was live the state becomes [Disconnected], and neither
    disconnect callback is called. *)
Theorem disconnect_live_session (e : Env) (w : World) :
  (mqtt_connected e = true ->
     trace (disconnect e w)
     = [MqttPublish
          (snprintf 96 ("vwire/" +:+ _deviceId (vwire w) +:+ "/status"))
          (status_payload "offline") true;
        MqttDisconnect])
  /\ world_of (disconnect e w)
     = with_vwire (set_state VWIRE_STATE_DISCONNECTED) w
  /\ _state (vwire (world_of (disconnect e w))) = VWIRE_STATE_DISCONNECTED
  /\ notifications (trace (disconnect e w)) = [].
Proof.
  unfold disconnect. unfold_m.
  destruct (mqtt_connected e); cbn.
  - repeat split; reflexivity.
  - repeat split. intros H; discriminate H.
Qed.

Lemma disconnect_live_session_witness :
  mqtt_connected sample_env = true
  /\ _state (vwire world_connected) = VWIRE_STATE_CONNECTED
  /\ trace (disconnect sample_env world_connected)
     = [MqttPublish "vwire/tok/status" (status_payload "offline") true;
        MqttDisconnect].
Proof.
  split; [reflexivity|]. split; [reflexivity|].
  exact (proj1 (disconnect_live_session sample_env world_connected) eq_refl).
Defined.

(** C3, as written, fails: the offline status that [disconnect()]
    publishes on a live session carries the retain flag. *)
Lemma disconnect_retained_counterexample :
  mqtt_connected sample_env = true
  /\ _state (vwire world_connected) = VWIRE_STATE_CONNECTED
  /\ publishes (trace (disconnect sample_env world_connected))
     = [MqttPublish "vwire/tok/status" (status_payload "offline") true]
  /\ ~ disconnect_publishes_unretained sample_env world_connected.
Proof.
  split; [reflexivity|]. split; [reflexivity|]. split; [reflexivity|].
  intros [topic Hin].
  change (trace (disconnect sample_env world_connected))
    with [MqttPublish "vwire/tok/status" (status_payload "offline") true;
          MqttDisconnect] in Hin.
  destruct Hin as [Heq | [Heq | []]]; discriminate Heq.
Qed.

Lemma length_zero_empty (s : string) :
  (String.length s =? 0)%nat = true <-> s = EmptyString.
Proof.
  destruct s as [|c rest]; cbn; split; intros H;
    try reflexivity; discriminate H.
Qed.

Lemma _connectMQTT_no_token (e : Env) (w : World) :
  authToken (_settings (vwire w)) = EmptyString ->
  _connectMQTT e w
  = (false, with_vwire (set_lastError VWIRE_ERR_NO_TOKEN) w, []).
Proof.
  intros Htok. unfold _connectMQTT, _setError. unfold_m.
  rewrite Htok. reflexivity.
Qed.

(** C4 (amended). With an empty token a broker join fails with NoToken:
    it answers false, never calls the session-connect primitive of the
    transport (it makes no call at all), records NoToken as the last
    error, and leaves the connection state as it found it. *)
Theorem join_without_token (e : Env) (w : World) :
  authToken (_settings (vwire w)) = EmptyString ->
  result (_connectMQTT e w) = false
  /\ trace (_connectMQTT e w) = []
  /\ connect_calls (trace (_connectMQTT e w)) = 0%nat
  /\ _lastError (vwire (world_of (_connectMQTT e w))) = VWIRE_ERR_NO_TOKEN
  /\ _state (vwire (world_of (_connectMQTT e w))) = _state (vwire w)
  /\ world_of (_connectMQTT e w)
     = with_vwire (set_lastError VWIRE_ERR_NO_TOKEN) w.
Proof.
  intros Htok. rewrite (_connectMQTT_no_token e w Htok).
  repeat split; reflexivity.
Qed.

Lemma join_without_token_witness :
  authToken (_settings (vwire initial_world)) = EmptyString
  /\ result (_connectMQTT sample_env initial_world) = false
  /\ _lastError (vwire (world_of (_connectMQTT sample_env initial_world)))
     = VWIRE_ERR_NO_TOKEN
  /\ _state (vwire (world_of (_connectMQTT sample_env initial_world)))
     = VWIRE_STATE_IDLE.
Proof.
  split; [reflexivity|].
  destruct (join_without_token sample_env initial_world eq_refl)
    as (Hr & _ & _ & He & Hs & _).
  split; [exact Hr|]. split; [exact He | exact Hs].
Defined.

(** C4, as written, fails: a join without a token on a freshly built
    object leaves the state at [Idle], not at [Error]. *)
Lemma join_without_token_counterexample :
  authToken (_settings (vwire initial_world)) = EmptyString
  /\ _state (vwire (world_of (_connectMQTT sample_env initial_world)))
     = VWIRE_STATE_IDLE
  /\ ~ no_token_join_sets_error_state sample_env initial_world.
Proof.
  split; [reflexivity|]. split; [reflexivity|].
  intros (_ & _ & _ & Hstate).
  change (_state (vwire (world_of (_connectMQTT sample_env initial_world))))
    with VWIRE_STATE_IDLE in Hstate.
  discriminate Hstate.
Qed.

(** ** Scheduler: message pumping *)

Lemma _handleMessage_callbacks (b : Board) (topic : string)
    (payload : list ascii) (w : World) :
  world_of (_handleMessage b topic payload w) = w
  /\ forallb is_callback (trace (_handleMessage b topic payload w)) = true.
Proof.
  rewrite _handleMessage_run. cbn [world_of trace fst snd].
  split; [reflexivity|].
  rewrite forallb_app. apply andb_true_iff. split.
  - unfold raw_events. destruct (_messageHandler (vwire w)); reflexivity.
  - destruct (strstr topic "/cmd/") as [cmdPos|]; [|reflexivity].
    destruct (string_drop 5 cmdPos) as [|c rest]; [reflexivity|].
    destruct (in_pin_range _); [|reflexivity].
    destruct (selected_handler w _) as [[h|]|]; reflexivity.
Qed.

Lemma mqtt_loop_callbacks (b : Board) (msgs : list (string * list ascii)) :
  forall w : World,
    world_of (mqtt_loop b msgs w) = w
    /\ forallb is_callback (trace (mqtt_loop b msgs w)) = true.
Proof.
  induction msgs as [|[topic payload] rest IH]; intros w.
  - split; reflexivity.
  - cbn [mqtt_loop]. rewrite bind_run. cbn [world_of trace fst snd].
    destruct (_handleMessage_callbacks b topic payload w) as [Hw Ht].
    fold (world_of (_handleMessage b topic payload w)).
    fold (trace (_handleMessage b topic payload w)).
    rewrite Hw. destruct (IH w) as [Hw' Ht'].
    fold (world_of (mqtt_loop b rest w)). fold (trace (mqtt_loop b rest w)).
    split; [exact Hw'|].
    rewrite forallb_app, Ht, Ht'. reflexivity.
Qed.

Lemma callbacks_no_publish (tr : list Event) :
  forallb is_callback tr = true -> publishes tr = [].
Proof.
  induction tr as [|ev tr IH]; [reflexivity|]. cbn [forallb].
  intros H. apply andb_true_iff in H. destruct H as [Hev Htr].
  unfold publishes in *. cbn [List.filter].
  destruct ev; try discriminate Hev; cbn; apply IH, Htr.
Qed.

Lemma publishes_app (t1 t2 : list Event) :
  publishes (t1 ++ t2) = publishes t1 ++ publishes t2.
Proof. unfold publishes. apply List.filter_app. Qed.

(** ** Scheduler: heartbeat *)

Section Heartbeat.

Variables (b : Board) (e : Env) (w : World).
Hypothesis Hup : mqtt_connected e = true.

Let elapsed := ulong_sub (millis e) (_lastHeartbeat (vwire w)).
Let interval := heartbeatInterval (_settings (vwire w)).

Lemma run_connected_early :
  elapsed < interval ->
  run b e w = (tt, w, trace (mqtt_loop b (inbound e) w)).
Proof.
  intros Hearly. unfold run. rewrite Hup, bind_run.
  destruct (mqtt_loop_callbacks b (inbound e) w) as [Hw _]. rewrite Hw.
  rewrite bind_run. change (get w) with (w, w, @nil Event).
  cbn [result world_of trace fst snd app].
  destruct (Z.leb_spec (heartbeatInterval (_settings (vwire w)))
              (ulong_sub (millis e) (_lastHeartbeat (vwire w))))
    as [Hle | Hlt]; [subst elapsed interval; lia|].
  cbn [ret fst snd]. rewrite app_nil_r. reflexivity.
Qed.

Lemma run_connected_due :
  interval <= elapsed ->
  _state (vwire w) = VWIRE_STATE_CONNECTED ->
  mqtt_connected_after e = true ->
  run b e w
  = (tt, with_vwire (set_lastHeartbeat (millis e)) w,
     trace (mqtt_loop b (inbound e) w)
     ++ [MqttPublish (heartbeat_topic w) (heartbeat_payload b e w) false]).
Proof.
  intros Hdue Hstate Hafter. unfold run. rewrite Hup, bind_run.
  destruct (mqtt_loop_callbacks b (inbound e) w) as [Hw _]. rewrite Hw.
  rewrite bind_run. change (get w) with (w, w, @nil Event).
  cbn [result world_of trace fst snd app].
  destruct (Z.leb_spec (heartbeatInterval (_settings (vwire w)))
              (ulong_sub (millis e) (_lastHeartbeat (vwire w))))
    as [Hle | Hlt]; [|subst elapsed interval; lia].
  unfold _sendHeartbeat, connected, connected_view. unfold_m.
  cbn [vwire with_vwire set_lastHeartbeat _state].
  rewrite Hstate, Hafter. reflexivity.
Qed.

End Heartbeat.

Lemma run_polls_connected_early (b : Board) (w : World) (quiet : list Env) :
  Forall (fun p => mqtt_connected p = true
                   /\ ulong_sub (millis p) (_lastHeartbeat (vwire w))
                      < heartbeatInterval (_settings (vwire w))) quiet ->
  world_of (run_polls b quiet w) = w
  /\ publishes (trace (run_polls b quiet w)) = [].
Proof.
  induction 1 as [|p rest [Hup Hearly] _ IH].
  - split; reflexivity.
  - cbn [run_polls]. rewrite bind_run.
    rewrite (run_connected_early b p w Hup Hearly).
    cbn [result world_of trace fst snd].
    destruct IH as [Hw Ht].
    fold (world_of (run_polls b rest w)). fold (trace (run_polls b rest w)).
    split; [exact Hw|].
    rewrite publishes_app, Ht, app_nil_r.
    apply callbacks_no_publish, mqtt_loop_callbacks.
Qed.

(** C5. While the session is connected, the polls made before the
    heartbeat interval has elapsed since the last heartbeat publish
    nothing and leave the time stamp alone, however many they are; the
    first poll at or after the interval publishes exactly one heartbeat
    and sets the time stamp to the clock value of that poll. *)
Theorem heartbeat_schedule (b : Board) (w : World) (early : list Env)
    (e : Env) :
  _state (vwire w) = VWIRE_STATE_CONNECTED ->
  Forall (fun p => mqtt_connected p = true
                   /\ ulong_sub (millis p) (_lastHeartbeat (vwire w))
                      < heartbeatInterval (_settings (vwire w))) early ->
  mqtt_connected e = true ->
  mqtt_connected_after e = true ->
  heartbeatInterval (_settings (vwire w))
    <= ulong_sub (millis e) (_lastHeartbeat (vwire w)) ->
  publishes (trace (run_polls b early w)) = []
  /\ _lastHeartbeat (vwire (world_of (run_polls b early w)))
     = _lastHeartbeat (vwire w)
  /\ publishes (trace (run b e (world_of (run_polls b early w))))
     = [MqttPublish (heartbeat_topic w) (heartbeat_payload b e w) false]
  /\ _lastHeartbeat
       (vwire (world_of (run b e (world_of (run_polls b early w)))))
     = millis e
  /\ _state (vwire (world_of (run b e (world_of (run_polls b early w)))))
     = VWIRE_STATE_CONNECTED.
Proof.
  intros Hstate Hearly Hup Hafter Hdue.
  destruct (run_polls_connected_early b w early Hearly) as [Hw Ht].
  rewrite Hw, Ht, (run_connected_due b e w Hup Hdue Hstate Hafter).
  cbn [world_of trace fst snd vwire with_vwire set_lastHeartbeat
       _lastHeartbeat _state].
  split; [reflexivity|]. split; [reflexivity|]. split; [|split].
  - rewrite publishes_app.
    rewrite (callbacks_no_publish _
               (proj2 (mqtt_loop_callbacks b (inbound e) w))).
    reflexivity.
  - reflexivity.
  - exact Hstate.
Qed.

Lemma heartbeat_schedule_witness :
  publishes (trace (run_polls BOARD_ESP32 [poll_at 100; poll_at 29999]
                      world_connected)) = []
  /\ publishes
       (trace (run BOARD_ESP32 (poll_at 30000)
                 (world_of (run_polls BOARD_ESP32 [poll_at 100; poll_at 29999]
                              world_connected))))
     = [MqttPublish "vwire/tok/heartbeat"
          (heartbeat_payload BOARD_ESP32 (poll_at 30000) world_connected) false]
  /\ _lastHeartbeat
       (vwire (world_of
                 (run BOARD_ESP32 (poll_at 30000)
                    (world_of (run_polls BOARD_ESP32
                                 [poll_at 100; poll_at 29999]
                                 world_connected)))))
     = 30000.
Proof.
  assert (Hearly :
    Forall (fun p => mqtt_connected p = true
                     /\ ulong_sub (millis p)
                          (_lastHeartbeat (vwire world_connected))
                        < heartbeatInterval (_settings (vwire world_connected)))
           [poll_at 100; poll_at 29999]).
  { repeat constructor. }
  assert (Hdue : heartbeatInterval (_settings (vwire world_connected))
                 <= ulong_sub (millis (poll_at 30000))
                      (_lastHeartbeat (vwire world_connected))).
  { vm_compute. discriminate. }
  destruct (heartbeat_schedule BOARD_ESP32 world_connected
              [poll_at 100; poll_at 29999] (poll_at 30000)
              eq_refl Hearly eq_refl eq_refl Hdue)
    as (Hquiet & _ & Hbeat & Hstamp & _).
  split; [exact Hquiet|]. split; [exact Hbeat | exact Hstamp].
Defined.

(** ** Scheduler: reconnection *)

Lemma notice_drop_run (w : World) :
  notice_drop w
  = if VwireState_eqb (_state (vwire w)) VWIRE_STATE_CONNECTED
    then (tt, with_vwire (set_state VWIRE_STATE_DISCONNECTED) w,
          match _disconnectHandler (vwire w) with
          | Some f => [CallConnection f]
          | None => []
          end
          ++ match _vwireAutoDisconnectHandler w with
             | Some f => [CallConnection f]
             | None => []
             end)
    else (tt, w, []).
Proof.
  unfold notice_drop. unfold_m.
  destruct (VwireState_eqb (_state (vwire w)) VWIRE_STATE_CONNECTED);
    [|reflexivity].
  destruct (_disconnectHandler (vwire w));
    destruct (_vwireAutoDisconnectHandler w); reflexivity.
Qed.

Lemma notice_drop_facts (w : World) :
  _state (vwire (world_of (notice_drop w))) <> VWIRE_STATE_CONNECTED
  /\ _settings (vwire (world_of (notice_drop w))) = _settings (vwire w)
  /\ _lastReconnectAttempt (vwire (world_of (notice_drop w)))
     = _lastReconnectAttempt (vwire w)
  /\ connect_calls (trace (notice_drop w)) = 0%nat.
Proof.
  rewrite notice_drop_run.
  destruct (VwireState_eqb (_state (vwire w)) VWIRE_STATE_CONNECTED) eqn:E;
    cbn [world_of trace fst snd].
  - repeat split; try discriminate.
    destruct (_disconnectHandler (vwire w));
      destruct (_vwireAutoDisconnectHandler w); reflexivity.
  - repeat split. intros Hc. apply VwireState_eqb_eq in Hc. congruence.
Qed.

Lemma notice_drop_idle (w : World) :
  _state (vwire w) <> VWIRE_STATE_CONNECTED -> notice_drop w = (tt, w, []).
Proof.
  intros Hne. rewrite notice_drop_run.
  destruct (VwireState_eqb (_state (vwire w)) VWIRE_STATE_CONNECTED) eqn:E;
    [|reflexivity].
  apply VwireState_eqb_eq in E. contradiction.
Qed.

(** What one join attempt leaves behind. *)
Lemma _connectMQTT_facts (e : Env) (w : World) :
  _settings (vwire (world_of (_connectMQTT e w))) = _settings (vwire w)
  /\ _lastReconnectAttempt (vwire (world_of (_connectMQTT e w)))
     = _lastReconnectAttempt (vwire w)
  /\ connect_calls (trace (_connectMQTT e w))
     = (if (String.length (authToken (_settings (vwire w))) =? 0)%nat
        then 0 else 1)%nat
  /\ (_state (vwire w) <> VWIRE_STATE_CONNECTED ->
      connect_result e = false
      \/ authToken (_settings (vwire w)) = EmptyString ->
      _state (vwire (world_of (_connectMQTT e w))) <> VWIRE_STATE_CONNECTED).
Proof.
  unfold _connectMQTT, _setError. unfold_m.
  destruct (String.length (authToken (_settings (vwire w))) =? 0)%nat eqn:Etok.
  - repeat split. intros Hne _. exact Hne.
  - destruct (connect_result e) eqn:Eres.
    + destruct (_connectHandler (vwire w));
        destruct (_vwireAutoConnectHandler w); cbn;
        (repeat split; intros _ [Hf | Hempty];
         [discriminate Hf
         | apply length_zero_empty in Hempty; congruence]).
    + cbn. repeat split. intros _ _. discriminate.
Qed.

Lemma ota_hook_run (b : Board) (w : World) :
  ota_hook b w = (tt, w, ota_events b w).
Proof.
  unfold ota_hook, ota_events. unfold_m.
  destruct (VWIRE_HAS_OTA b && _otaEnabled (vwire w)); reflexivity.
Qed.

Lemma connect_calls_ota (b : Board) (w : World) :
  connect_calls (ota_events b w) = 0%nat.
Proof.
  unfold ota_events. destruct (VWIRE_HAS_OTA b && _otaEnabled (vwire w));
    reflexivity.
Qed.

Section Reconnect.

Variables (b : Board) (e : Env) (w : World).
Hypothesis Hdown : mqtt_connected e = false.
Hypothesis Hwifi : wifi_connected e = true.
Hypothesis Hauto : autoReconnect (_settings (vwire w)) = true.

Let elapsed := ulong_sub (millis e) (_lastReconnectAttempt (vwire w)).
Let interval := reconnectInterval (_settings (vwire w)).

Lemma run_disconnected_early :
  _state (vwire w) <> VWIRE_STATE_CONNECTED ->
  elapsed < interval ->
  run b e w = (tt, w, idle_poll b w).
Proof.
  intros Hstate Hearly. unfold run, idle_poll. rewrite Hdown, Hwifi.
  cbn [negb].
  rewrite bind_run. change (emit Yield w) with (tt, w, [Yield]).
  cbn [result world_of trace fst snd].
  rewrite bind_run, ota_hook_run. cbn [result world_of trace fst snd].
  rewrite bind_run, (notice_drop_idle w Hstate).
  cbn [result world_of trace fst snd].
  rewrite bind_run. change (get w) with (w, w, @nil Event).
  cbn [result world_of trace fst snd]. rewrite Hauto.
  destruct (Z.leb_spec (reconnectInterval (_settings (vwire w)))
              (ulong_sub (millis e) (_lastReconnectAttempt (vwire w))));
    [subst elapsed interval; lia|].
  cbn [ret fst snd app]. rewrite app_nil_r. reflexivity.
Qed.

(** The object as the join attempt of this poll finds it. *)
Let w_attempt :=
  with_vwire (set_lastReconnectAttempt (millis e)) (world_of (notice_drop w)).

Lemma run_disconnected_due :
  interval <= elapsed ->
  run b e w
  = (tt, world_of (_connectMQTT e w_attempt),
     idle_poll b w ++ trace (notice_drop w)
     ++ trace (_connectMQTT e w_attempt)).
Proof.
  intros Hdue. unfold run, idle_poll. rewrite Hdown, Hwifi. cbn [negb].
  rewrite bind_run. change (emit Yield w) with (tt, w, [Yield]).
  cbn [result world_of trace fst snd].
  rewrite bind_run, ota_hook_run. cbn [result world_of trace fst snd].
  destruct (notice_drop_facts w) as (_ & Hset & Hlast & _).
  rewrite bind_run.
  set (w1 := world_of (notice_drop w)) in *.
  rewrite bind_run. change (get w1) with (w1, w1, @nil Event).
  cbn [result world_of trace fst snd].
  rewrite Hset, Hlast, Hauto.
  destruct (Z.leb_spec (reconnectInterval (_settings (vwire w)))
              (ulong_sub (millis e) (_lastReconnectAttempt (vwire w))));
    [|subst elapsed interval; lia].
  rewrite !bind_run. unfold modify at 1 2 3. unfold ret.
  cbn [result world_of trace fst snd app].
  rewrite app_nil_r. reflexivity.
Qed.

End Reconnect.

Lemma run_polls_disconnected_early (b : Board) (w : World) (t0 : Z)
    (early : list Env) :
  autoReconnect (_settings (vwire w)) = true ->
  _state (vwire w) <> VWIRE_STATE_CONNECTED ->
  _lastReconnectAttempt (vwire w) = t0 ->
  Forall (fun p => mqtt_connected p = false /\ wifi_connected p = true
                   /\ ulong_sub (millis p) t0
                      < reconnectInterval (_settings (vwire w))) early ->
  run_polls b early w
  = (tt, w, concat (repeat (idle_poll b w) (length early))).
Proof.
  intros Hauto Hstate Hlast. induction 1 as [|p rest (Hd & Hw & He) _ IH].
  - reflexivity.
  - cbn [run_polls]. rewrite bind_run.
    rewrite (run_disconnected_early b p w Hd Hw Hauto Hstate)
      by (rewrite Hlast; exact He).
    cbn [result world_of trace fst snd]. rewrite IH. reflexivity.
Qed.

Lemma connect_calls_app (t1 t2 : list Event) :
  connect_calls (t1 ++ t2) = (connect_calls t1 + connect_calls t2)%nat.
Proof. unfold connect_calls. rewrite List.filter_app. apply length_app. Qed.

Lemma connect_calls_idle_poll (b : Board) (w : World) :
  connect_calls (idle_poll b w) = 0%nat.
Proof.
  unfold idle_poll. change (Yield :: ota_events b w)
    with ([Yield] ++ ota_events b w).
  rewrite connect_calls_app, connect_calls_ota. reflexivity.
Qed.

Lemma connect_calls_idle (b : Board) (w : World) (n : nat) :
  connect_calls (concat (repeat (idle_poll b w) n)) = 0%nat.
Proof.
  induction n as [|n IH]; [reflexivity|].
  cbn [repeat concat].
  rewrite connect_calls_app, IH, connect_calls_idle_poll. reflexivity.
Qed.

(** C6. With the broker session down, the network joined and
    auto-reconnect on: a poll that finds the reconnect interval elapsed
    stamps the time of the attempt and then makes one join attempt; when
    that attempt fails, every later poll inside the interval, however
    many there are, makes no attempt and changes nothing, and the next
    join attempt, again exactly one, is made by the first poll that comes
    a full interval after the stamped time.  The stamp is the clock value
    read before the attempt, and the attempt does not touch it. *)
Theorem reconnect_schedule (b : Board) (w : World) (e0 : Env)
    (early : list Env) (e1 : Env) :
  autoReconnect (_settings (vwire w)) = true ->
  mqtt_connected e0 = false -> wifi_connected e0 = true ->
  reconnectInterval (_settings (vwire w))
    <= ulong_sub (millis e0) (_lastReconnectAttempt (vwire w)) ->
  connect_result e0 = false
  \/ authToken (_settings (vwire w)) = EmptyString ->
  Forall (fun p => mqtt_connected p = false /\ wifi_connected p = true
                   /\ ulong_sub (millis p) (millis e0)
                      < reconnectInterval (_settings (vwire w))) early ->
  mqtt_connected e1 = false -> wifi_connected e1 = true ->
  reconnectInterval (_settings (vwire w))
    <= ulong_sub (millis e1) (millis e0) ->
  let token_set :=
    negb (String.length (authToken (_settings (vwire w))) =? 0)%nat in
  let r0 := run b e0 w in
  let r1 := run_polls b early (world_of r0) in
  let r2 := run b e1 (world_of r1) in
  let w_attempt :=
    with_vwire (set_lastReconnectAttempt (millis e1)) (world_of r0) in
  connect_calls (trace r0) = (if token_set then 1 else 0)%nat
  /\ _lastReconnectAttempt (vwire (world_of r0)) = millis e0
  /\ r1 = (tt, world_of r0,
           concat (repeat (idle_poll b (world_of r0)) (length early)))
  /\ connect_calls (trace r1) = 0%nat
  /\ r2 = (tt, world_of (_connectMQTT e1 w_attempt),
           idle_poll b (world_of r0) ++ trace (_connectMQTT e1 w_attempt))
  /\ connect_calls (trace r2) = (if token_set then 1 else 0)%nat
  /\ _lastReconnectAttempt (vwire (world_of r2)) = millis e1.
Proof.
  intros Hauto Hd0 Hw0 Hdue0 Hfail Hearly Hd1 Hw1 Hdue1.
  intros token_set r0 r1 r2 w_attempt.
  destruct (notice_drop_facts w) as (Hnc & Hset & Hlast & Hcalls).
  set (wa := with_vwire (set_lastReconnectAttempt (millis e0))
               (world_of (notice_drop w))).
  assert (Hr0 : r0 = (tt, world_of (_connectMQTT e0 wa),
                      idle_poll b w ++ trace (notice_drop w)
                      ++ trace (_connectMQTT e0 wa)))
    by (apply run_disconnected_due; assumption).
  destruct (_connectMQTT_facts e0 wa) as (Hset0 & Hlast0 & Hcalls0 & Hstate0).
  assert (Hsetw : _settings (vwire (world_of r0)) = _settings (vwire w))
    by (rewrite Hr0; cbn [world_of fst snd]; rewrite Hset0; exact Hset).
  assert (Hstamp : _lastReconnectAttempt (vwire (world_of r0)) = millis e0)
    by (rewrite Hr0; cbn [world_of fst snd]; rewrite Hlast0; reflexivity).
  assert (Hdownstate : _state (vwire (world_of r0)) <> VWIRE_STATE_CONNECTED).
  { rewrite Hr0. cbn [world_of fst snd]. apply Hstate0.
    - exact Hnc.
    - destruct Hfail as [Hf | Hempty]; [left; exact Hf | right].
      change (_settings (vwire wa))
        with (_settings (vwire (world_of (notice_drop w)))).
      rewrite Hset. exact Hempty. }
  assert (Hr1 : r1 = (tt, world_of r0,
                      concat (repeat (idle_poll b (world_of r0))
                                     (length early)))).
  { apply (run_polls_disconnected_early b (world_of r0) (millis e0)).
    - rewrite Hsetw. exact Hauto.
    - exact Hdownstate.
    - exact Hstamp.
    - rewrite Hsetw. exact Hearly. }
  assert (Hr2 : r2 = (tt, world_of (_connectMQTT e1 w_attempt),
                      idle_poll b (world_of r0)
                      ++ trace (_connectMQTT e1 w_attempt))).
  { subst r2. rewrite Hr1. cbn [world_of fst snd].
    rewrite (run_disconnected_due b e1 (world_of r0) Hd1 Hw1)
      by (rewrite ?Hsetw, ?Hstamp; assumption).
    rewrite (notice_drop_idle _ Hdownstate). reflexivity. }
  destruct (_connectMQTT_facts e1 w_attempt) as (_ & Hlast1 & Hcalls1 & _).
  assert (Htok : forall v : World,
             _settings (vwire v) = _settings (vwire w) ->
             (if (String.length (authToken (_settings (vwire v))) =? 0)%nat
              then 0 else 1)%nat
             = (if token_set then 1 else 0)%nat).
  { intros v ->. subst token_set.
    destruct (String.length (authToken (_settings (vwire w))) =? 0)%nat;
      reflexivity. }
  assert (Hidle : forall v : World, connect_calls (idle_poll b v) = 0%nat).
  { intros v. apply connect_calls_idle_poll. }
  split; [|split; [exact Hstamp | split; [exact Hr1 | split; [|split;
    [exact Hr2|]]]]].
  - rewrite Hr0. cbn [trace snd].
    rewrite !connect_calls_app, Hidle, Hcalls, Hcalls0. apply Htok.
    exact Hset.
  - rewrite Hr1. cbn [trace snd]. apply connect_calls_idle.
  - rewrite Hr2. cbn [trace world_of fst snd]. split.
    + rewrite connect_calls_app, Hidle, Hcalls1. apply Htok. exact Hsetw.
    + rewrite Hlast1. reflexivity.
Qed.

Lemma reconnect_schedule_witness :
  run_polls BOARD_ESP32
    [offline_poll_at 50001; offline_poll_at 52000; offline_poll_at 54999]
    (world_of (run BOARD_ESP32 (offline_poll_at 50000) world_connected))
  = (tt, world_of (run BOARD_ESP32 (offline_poll_at 50000) world_connected),
     [Yield; Yield; Yield])
  /\ connect_calls
       (trace (run BOARD_ESP32 (offline_poll_at 55000)
                 (world_of
                    (run_polls BOARD_ESP32
                       [offline_poll_at 50001; offline_poll_at 52000;
                        offline_poll_at 54999]
                       (world_of (run BOARD_ESP32 (offline_poll_at 50000)
                                    world_connected))))))
     = 1%nat
  /\ _lastReconnectAttempt
       (vwire (world_of
                 (run BOARD_ESP32 (offline_poll_at 55000)
                    (world_of
                       (run_polls BOARD_ESP32
                          [offline_poll_at 50001; offline_poll_at 52000;
                           offline_poll_at 54999]
                          (world_of (run BOARD_ESP32 (offline_poll_at 50000)
                                       world_connected)))))))
     = 55000.
Proof.
  assert (Hdue0 : reconnectInterval (_settings (vwire world_connected))
                  <= ulong_sub (millis (offline_poll_at 50000))
                       (_lastReconnectAttempt (vwire world_connected))).
  { vm_compute. discriminate. }
  assert (Hearly :
    Forall (fun p => mqtt_connected p = false /\ wifi_connected p = true
                     /\ ulong_sub (millis p) (millis (offline_poll_at 50000))
                        < reconnectInterval (_settings (vwire world_connected)))
           [offline_poll_at 50001; offline_poll_at 52000;
            offline_poll_at 54999]).
  { repeat constructor. }
  assert (Hdue1 : reconnectInterval (_settings (vwire world_connected))
                  <= ulong_sub (millis (offline_poll_at 55000))
                       (millis (offline_poll_at 50000))).
  { vm_compute. discriminate. }
  destruct (reconnect_schedule BOARD_ESP32 world_connected
              (offline_poll_at 50000)
              [offline_poll_at 50001; offline_poll_at 52000;
               offline_poll_at 54999]
              (offline_poll_at 55000)
              eq_refl eq_refl eq_refl Hdue0 (or_introl eq_refl) Hearly
              eq_refl eq_refl Hdue1)
    as (_ & _ & Hquiet & _ & _ & Hone & Hstamp).
  split; [exact Hquiet|]. split; [exact Hone | exact Hstamp].
Defined.

Lemma connected_iff_witness :
  _state (vwire world_connected) = VWIRE_STATE_CONNECTED
  /\ result (connected true world_connected) = true
  /\ result (connected false world_connected) = false
  /\ result (connected true world_configured) = false.
Proof.
  split; [reflexivity|]. split; [|split].
  - exact (proj2 (proj1 (connected_iff world_connected true))
             (conj eq_refl eq_refl)).
  - exact (proj1 (proj2 (proj2 (connected_iff world_connected false)))
             eq_refl).
  - exact (proj1 (proj2 (connected_iff world_configured true))
             ltac:(discriminate)).
Defined.

(** ** Bounded copies *)

Lemma substring_0_length (n : nat) (s : string) :
  (String.length (substring 0 n s) <= n)%nat.
Proof.
  revert s. induction n as [|n IH]; intros [|c s]; cbn; try lia.
  specialize (IH s). lia.
Qed.

Lemma substring_0_all (n : nat) (s : string) :
  (String.length s <= n)%nat -> substring 0 n s = s.
Proof.
  revert s. induction n as [|n IH]; intros [|c s] Hlen; cbn in *;
    try reflexivity; try lia.
  rewrite IH by lia. reflexivity.
Qed.

Lemma append_length (a b : string) :
  String.length (a +:+ b) = (String.length a + String.length b)%nat.
Proof.
  induction a as [|c a IH]; [reflexivity|].
  change (S (String.length (a +:+ b))
          = S (String.length a + String.length b)).
  f_equal. exact IH.
Qed.

(** ** Decimal text and [atoi] *)

Lemma pretty_N_char_facts (d : N) :
  (d < 10)%N ->
  isdigit (pretty_N_char d) = true
  /\ digit_value (pretty_N_char d) = Z.of_N d
  /\ isspace (pretty_N_char d) = false
  /\ Ascii.eqb (pretty_N_char d) "-" = false
  /\ Ascii.eqb (pretty_N_char d) "+" = false
  /\ Ascii.eqb (pretty_N_char d) "," = false
  /\ is_V (pretty_N_char d) = false.
Proof.
  intros Hd.
  assert (Hcases : (d = 0 \/ d = 1 \/ d = 2 \/ d = 3 \/ d = 4 \/ d = 5
                    \/ d = 6 \/ d = 7 \/ d = 8 \/ d = 9)%N) by lia.
  repeat (destruct Hcases as [-> | Hcases]; [repeat split; reflexivity|]).
  subst d. repeat split; reflexivity.
Qed.

Lemma pretty_N_go_value (x : N) :
  exists k : Z,
    0 <= k
    /\ forall (acc : Z) (s : string),
         digits_value acc (pretty_N_go x s)
         = digits_value (acc * 10 ^ k + Z.of_N x) s.
Proof.
  induction (N.lt_wf_0 x) as [x _ IH].
  destruct (N.eq_dec x 0%N) as [-> | Hpos].
  - exists 0. split; [lia|]. intros acc s. rewrite pretty_N_go_0.
    f_equal. lia.
  - assert (Hlt : (x `div` 10 < x)%N) by (apply N.div_lt; lia).
    destruct (IH _ Hlt) as (k & Hk & Hval).
    exists (k + 1). split; [lia|]. intros acc s.
    rewrite pretty_N_go_step by lia. rewrite Hval.
    assert (Hmod : (x `mod` 10 < 10)%N) by (apply N.mod_lt; lia).
    destruct (pretty_N_char_facts _ Hmod) as (Hdig & Hv & _).
    cbn [digits_value]. rewrite Hdig, Hv. f_equal.
    rewrite Z.pow_add_r by lia.
    rewrite N2Z.inj_mod, N2Z.inj_div. change (Z.of_N 10) with 10.
    pose proof (Z.div_mod (Z.of_N x) 10 ltac:(lia)). lia.
Qed.

Lemma pretty_N_go_head (x : N) (s : string) :
  (0 < x)%N ->
  exists (d : N) (s' : string),
    (d < 10)%N /\ pretty_N_go x s = String (pretty_N_char d) s'.
Proof.
  revert s. induction (N.lt_wf_0 x) as [x _ IH]; intros s Hpos.
  rewrite pretty_N_go_step by exact Hpos.
  destruct (N.eq_dec (x `div` 10)%N 0%N) as [Hz | Hnz].
  - rewrite Hz, pretty_N_go_0. exists (x `mod` 10)%N, s.
    split; [apply N.mod_lt; lia | reflexivity].
  - apply IH; [apply N.div_lt; lia | apply N.neq_0_lt_0; exact Hnz].
Qed.

Lemma pretty_positive_text (p : positive) :
  exists (d : N) (s' : string),
    (d < 10)%N
    /\ pretty (Zpos p) = String (pretty_N_char d) s'
    /\ digits_value 0 (pretty (Zpos p)) = Zpos p.
Proof.
  assert (Htext : pretty (Zpos p) = pretty_N_go (Npos p) EmptyString)
    by reflexivity.
  destruct (pretty_N_go_head (Npos p) EmptyString ltac:(lia))
    as (d & s' & Hd & Hhead).
  destruct (pretty_N_go_value (Npos p)) as (k & _ & Hval).
  exists d, s'. split; [exact Hd|]. split.
  - rewrite Htext. exact Hhead.
  - rewrite Htext, Hval. cbn [digits_value]. lia.
Qed.

Lemma atoi_digits (d : N) (s' : string) :
  (d < 10)%N ->
  atoi (String (pretty_N_char d) s')
  = Z.max LONG_MIN
      (Z.min LONG_MAX (digits_value 0 (String (pretty_N_char d) s'))).
Proof.
  intros Hd. destruct (pretty_N_char_facts d Hd)
    as (_ & _ & Hsp & Hm & Hp & _).
  unfold atoi. cbn [skip_spaces]. rewrite Hsp.
  unfold read_sign. rewrite Hm, Hp. reflexivity.
Qed.

(** The decimal text of a number that fits an [int] reads back as that
    number. *)
Lemma atoi_pretty (z : Z) :
  LONG_MIN <= z <= LONG_MAX -> atoi (pretty z) = z.
Proof.
  intros Hrange. destruct z as [|p|p].
  - reflexivity.
  - destruct (pretty_positive_text p) as (d & s' & Hd & Hhead & Hval).
    rewrite Hhead, (atoi_digits d s' Hd), <- Hhead, Hval. lia.
  - destruct (pretty_positive_text p) as (d & s' & Hd & Hhead & Hval).
    change (pretty (Zneg p)) with (String "-" (pretty (Zpos p))).
    unfold atoi. cbn [skip_spaces]. change (isspace "-") with false.
    cbn iota. unfold read_sign. change (Ascii.eqb "-" "-") with true.
    cbn iota. rewrite Hval. lia.
Qed.

(** ** VirtualPin *)

Lemma append_assoc (a b c : string) : (a +:+ b) +:+ c = a +:+ (b +:+ c).
Proof.
  induction a as [|x a IH]; [reflexivity|].
  change (String x ((a +:+ b) +:+ c) = String x (a +:+ (b +:+ c))).
  f_equal. exact IH.
Qed.

Lemma append_empty_r (a : string) : a +:+ EmptyString = a.
Proof.
  induction a as [|x a IH]; [reflexivity|].
  change (String x (a +:+ EmptyString) = String x a). f_equal. exact IH.
Qed.

Lemma substring_middle (a cur rest : string) :
  substring (String.length a) (String.length cur) (a +:+ cur +:+ rest) = cur.
Proof.
  induction a as [|x a IH].
  - change (substring 0 (String.length cur) (cur +:+ rest) = cur).
    induction cur as [|y cur IHc]; [destruct rest; reflexivity|].
    change (String y (substring 0 (String.length cur) (cur +:+ rest))
            = String y cur).
    f_equal. exact IHc.
  - exact IH.
Qed.

Lemma getArrayElement_loop_past (value : string) (index : Z) (rest : string) :
  forall (i start : nat) (count : Z),
    index < count ->
    getArrayElement_loop value index rest i start count = EmptyString.
Proof.
  induction rest as [|c rest IH]; intros i start count Hlt;
    cbn [getArrayElement_loop].
  - destruct (Z.eqb_spec count index); [lia | reflexivity].
  - destruct (Ascii.eqb c ","); [|apply IH; exact Hlt].
    destruct (Z.eqb_spec count index); [lia | apply IH; lia].
Qed.

Lemma getArrayElement_loop_fields (value : string) (index : Z) (rest : string) :
  forall (a cur : string) (count : Z),
    value = a +:+ cur +:+ rest ->
    count <= index ->
    getArrayElement_loop value index rest
      (String.length a + String.length cur) (String.length a) count
    = nth (Z.to_nat (index - count)) (fields_from cur rest) EmptyString.
Proof.
  induction rest as [|c rest IH]; intros a cur count Hval Hle;
    cbn [getArrayElement_loop fields_from].
  - replace (String.length a + String.length cur - String.length a)%nat
      with (String.length cur) by lia.
    destruct (Z.eqb_spec count index) as [-> | Hne].
    + rewrite Z.sub_diag. cbn [Z.to_nat nth]. rewrite Hval.
      apply substring_middle.
    + destruct (Z.to_nat (index - count)) as [|[|k]] eqn:Ek;
        [lia | reflexivity | reflexivity].
  - replace (String.length a + String.length cur - String.length a)%nat
      with (String.length cur) by lia.
    destruct (Ascii.eqb c ",") eqn:Ec.
    + apply Ascii.eqb_eq in Ec. subst c.
      destruct (Z.eqb_spec count index) as [-> | Hne].
      * rewrite Z.sub_diag. cbn [Z.to_nat nth]. rewrite Hval.
        apply substring_middle.
      * replace (Z.to_nat (index - count))
          with (S (Z.to_nat (index - (count + 1)))) by lia.
        cbn [nth].
        specialize (IH (a +:+ cur +:+ String "," EmptyString) EmptyString
                       (count + 1)).
        rewrite !append_length in IH. cbn [String.length] in IH.
        replace (String.length a + (String.length cur + 1) + 0)%nat
          with (S (String.length a + String.length cur)) in IH by lia.
        replace (String.length a + (String.length cur + 1))%nat
          with (S (String.length a + String.length cur)) in IH by lia.
        apply IH; [|lia].
        rewrite Hval, !append_assoc. reflexivity.
    + specialize (IH a (cur +:+ String c EmptyString) count).
      rewrite append_length in IH. cbn [String.length] in IH.
      replace (String.length a + (String.length cur + 1))%nat
        with (S (String.length a + String.length cur)) in IH by lia.
      apply IH; [|exact Hle].
      rewrite Hval, !append_assoc. reflexivity.
Qed.

Lemma getArraySize_loop_fields (rest : string) :
  forall (cur : string) (count : Z),
    getArraySize_loop rest count
    = count + Z.of_nat (length (fields_from cur rest)) - 1.
Proof.
  induction rest as [|c rest IH]; intros cur count;
    cbn [getArraySize_loop fields_from].
  - cbn. lia.
  - destruct (Ascii.eqb c ",").
    + rewrite (IH EmptyString). cbn [length]. lia.
    + apply IH.
Qed.

Lemma getArrayElement_nth (v : VirtualPin) (index : Z) :
  0 <= index ->
  getArrayElement v index = nth (Z.to_nat index) (fields v) EmptyString.
Proof.
  intros Hpos. unfold getArrayElement, fields.
  pose proof (getArrayElement_loop_fields v index v EmptyString
                EmptyString 0 eq_refl Hpos) as H.
  cbn [String.length Nat.add] in H. rewrite Z.sub_0_r in H. exact H.
Qed.

Lemma getArraySize_length (v : VirtualPin) :
  v <> EmptyString -> getArraySize v = Z.of_nat (length (fields v)).
Proof.
  intros Hne. unfold getArraySize, fields.
  destruct v as [|c v]; [contradiction|]. cbn [String.length Nat.eqb].
  rewrite (getArraySize_loop_fields _ EmptyString). lia.
Qed.

(** X1. [getArrayElement] hands out the comma-separated fields of the
    value, counted from 0, and the empty text for a negative index or one
    past the last field; [getArraySize] is the number of fields, with 0
    for the empty value. *)
Theorem getArrayElement_fields (v : VirtualPin) (index : Z) :
  (0 <= index ->
     getArrayElement v index
     = nth (Z.to_nat index) (fields v) EmptyString)
  /\ (index < 0 -> getArrayElement v index = EmptyString)
  /\ (v <> EmptyString -> getArraySize v = Z.of_nat (length (fields v)))
  /\ getArraySize EmptyString = 0
  /\ (v <> EmptyString -> getArraySize v <= index ->
        getArrayElement v index = EmptyString).
Proof.
  split; [apply getArrayElement_nth|].
  split; [|split; [apply getArraySize_length|split; [reflexivity|]]].
  - intros Hneg. apply getArrayElement_loop_past. exact Hneg.
  - intros Hne Hge. rewrite getArraySize_length in Hge by exact Hne.
    rewrite getArrayElement_nth by lia. apply nth_overflow. lia.
Qed.

Lemma getArrayElement_fields_witness :
  getArrayElement "10,-3,,x" 1 = "-3"
  /\ getArrayElement "10,-3,,x" (-1) = EmptyString
  /\ getArraySize "10,-3,,x" = 4
  /\ getArrayElement "10,-3,,x" 4 = EmptyString.
Proof.
  destruct (getArrayElement_fields "10,-3,,x" 1) as (H1 & _).
  destruct (getArrayElement_fields "10,-3,,x" (-1)) as (_ & H2 & _).
  destruct (getArrayElement_fields "10,-3,,x" 4) as (_ & _ & H3 & _ & H4).
  split; [exact (H1 ltac:(lia))|]. split; [exact (H2 ltac:(lia))|].
  split; [exact (H3 ltac:(discriminate))|].
  apply H4; [discriminate | vm_compute; discriminate].
Defined.

Lemma comma_free_app (a b : string) :
  comma_free (a +:+ b) = comma_free a && comma_free b.
Proof.
  induction a as [|c a IH]; [reflexivity|].
  change (negb (Ascii.eqb c ",") && comma_free (a +:+ b)
          = negb (Ascii.eqb c ",") && comma_free a && comma_free b).
  rewrite IH. apply andb_assoc.
Qed.

Lemma pretty_N_go_comma_free (x : N) :
  forall s : string,
    comma_free s = true -> comma_free (pretty_N_go x s) = true.
Proof.
  induction (N.lt_wf_0 x) as [x _ IH]; intros s Hs.
  destruct (N.eq_dec x 0%N) as [-> | Hpos].
  - rewrite pretty_N_go_0. exact Hs.
  - rewrite pretty_N_go_step by lia.
    apply IH; [apply N.div_lt; lia|].
    destruct (pretty_N_char_facts (x `mod` 10)%N
                ltac:(apply N.mod_lt; lia)) as (_ & _ & _ & _ & _ & Hc & _).
    cbn [comma_free]. rewrite Hc, Hs. reflexivity.
Qed.

Lemma pretty_comma_free (z : Z) :
  comma_free (pretty z) = true /\ pretty z <> EmptyString.
Proof.
  assert (Hpos : forall p : positive,
             comma_free (pretty (Zpos p)) = true
             /\ pretty (Zpos p) <> EmptyString).
  { intros p. split.
    - change (pretty (Zpos p)) with (pretty_N_go (Npos p) EmptyString).
      apply pretty_N_go_comma_free. reflexivity.
    - destruct (pretty_positive_text p) as (d & s' & _ & Hhead & _).
      rewrite Hhead. discriminate. }
  destruct z as [|p|p].
  - split; [reflexivity | discriminate].
  - apply Hpos.
  - change (pretty (Zneg p)) with (String "-" (pretty (Zpos p))).
    split; [|discriminate]. cbn [comma_free].
    rewrite (proj1 (Hpos p)). reflexivity.
Qed.

Lemma pretty_all_comma_free (values : list Z) :
  Forall (fun x => comma_free x = true) (map pretty values).
Proof.
  induction values as [|v rest IH]; cbn [map]; constructor;
    [apply pretty_comma_free | exact IH].
Qed.

Lemma fields_from_comma_free (s : string) :
  forall cur rest : string,
    comma_free s = true ->
    fields_from cur (s +:+ rest) = fields_from (cur +:+ s) rest.
Proof.
  induction s as [|c s IH]; intros cur rest Hs.
  - rewrite append_empty_r. reflexivity.
  - cbn [comma_free] in Hs. apply andb_true_iff in Hs.
    destruct Hs as [Hc Hs]. apply negb_true_iff in Hc.
    change (String c s +:+ rest) with (String c (s +:+ rest)).
    cbn [fields_from]. rewrite Hc, IH by exact Hs.
    rewrite append_assoc. reflexivity.
Qed.

Lemma fields_join_commas (l : list string) :
  l <> [] ->
  Forall (fun x => comma_free x = true) l ->
  fields (join_commas l) = l.
Proof.
  unfold fields. induction l as [|x l IH]; intros Hne Hall; [contradiction|].
  inversion Hall as [|? ? Hx Hl]; subst.
  destruct l as [|y l].
  - cbn [join_commas].
    rewrite <- (append_empty_r x) at 1.
    rewrite fields_from_comma_free by exact Hx. reflexivity.
  - change (join_commas (x :: y :: l))
      with (x +:+ String "," (join_commas (y :: l))).
    rewrite fields_from_comma_free by exact Hx.
    cbn [fields_from]. change (Ascii.eqb "," ",") with true. cbn iota.
    rewrite IH; [reflexivity | discriminate | exact Hl].
Qed.

Lemma virtualWriteArray_loop_join (values : list Z) :
  forall (i : nat) (str : string),
    values <> [] ->
    virtualWriteArray_loop values i str
    = (if (0 <? i)%nat then str +:+ "," else str)
      +:+ join_commas (map pretty values).
Proof.
  induction values as [|v rest IH]; intros i str Hne; [contradiction|].
  cbn [virtualWriteArray_loop]. destruct rest as [|v' rest].
  - reflexivity.
  - rewrite IH by discriminate. change (0 <? S i)%nat with true. cbn iota.
    change (join_commas (map pretty (v :: v' :: rest)))
      with (pretty v +:+ String "," (join_commas (map pretty (v' :: rest)))).
    rewrite !append_assoc. reflexivity.
Qed.

(** X2. The text that [virtualWriteArray] builds from a non-empty array
    of [int] values reads back through [VirtualPin]: [getArraySize] is the
    number of values and [getArrayInt] at position [i] is the [i]-th value.
    For no values the text is empty and the size is 0. *)
Theorem virtualWriteArray_round_trip (values : list Z) :
  (values <> [] ->
   Forall (fun v => LONG_MIN <= v <= LONG_MAX) values ->
     getArraySize (virtualWriteArray_loop values 0 EmptyString)
     = Z.of_nat (length values)
     /\ forall (i : nat) (v : Z),
          values !! i = Some v ->
          getArrayInt (virtualWriteArray_loop values 0 EmptyString)
                      (Z.of_nat i) = v)
  /\ getArraySize (virtualWriteArray_loop [] 0 EmptyString) = 0
  /\ (forall (e : Env) (pin : Z) (w : World),
        connected_view (_state (vwire w)) (mqtt_connected e) = true ->
        trace (virtualWriteArray_int e pin values w)
        = [MqttPublish (device_topic w ("/pin/V" +:+ pretty (to_uint8 pin)))
                       (virtualWriteArray_loop values 0 EmptyString)
                       (dataRetain (_settings (vwire w)))]).
Proof.
  split; [|split; [reflexivity|]];
    [|intros e pin w Hup; unfold virtualWriteArray_int, _virtualWriteInternal;
      rewrite bind_run; change (connected (mqtt_connected e) w)
        with (connected_view (_state (vwire w)) (mqtt_connected e), w,
              @nil Event);
      cbn [result world_of trace fst snd]; rewrite Hup; reflexivity].
  intros Hne Hrange.
  rewrite (virtualWriteArray_loop_join values 0 EmptyString Hne).
  change ((if (0 <? 0)%nat then EmptyString +:+ "," else EmptyString)
          +:+ join_commas (map pretty values))
    with (join_commas (map pretty values)).
  assert (Hfields : fields (join_commas (map pretty values))
                    = map pretty values).
  { apply fields_join_commas.
    - destruct values; [contradiction | discriminate].
    - apply pretty_all_comma_free. }
  assert (Hnonempty : join_commas (map pretty values) <> EmptyString).
  { destruct values as [|v [|v' rest]]; [contradiction| |].
    - apply pretty_comma_free.
    - cbn [map join_commas].
      destruct (pretty v) eqn:Ev; [|discriminate].
      destruct (pretty_comma_free v) as [_ Hp]. contradiction. }
  split.
  - rewrite (getArraySize_length _ Hnonempty), Hfields, length_map.
    reflexivity.
  - intros i v Hi. unfold getArrayInt.
    rewrite getArrayElement_nth by lia. rewrite Hfields, Nat2Z.id.
    rewrite (nth_lookup_Some (map pretty values) i EmptyString (pretty v)).
    + apply atoi_pretty. exact (Forall_lookup_1 _ _ _ _ Hrange Hi).
    + rewrite list_lookup_fmap, Hi. reflexivity.
Qed.

Lemma virtualWriteArray_round_trip_witness :
  virtualWriteArray_loop [12; -7; 0] 0 EmptyString = "12,-7,0"
  /\ getArraySize (virtualWriteArray_loop [12; -7; 0] 0 EmptyString) = 3
  /\ getArrayInt (virtualWriteArray_loop [12; -7; 0] 0 EmptyString) 1 = -7.
Proof.
  split; [reflexivity|].
  assert (Hrange : Forall (fun v => LONG_MIN <= v <= LONG_MAX) [12; -7; 0]).
  { repeat constructor; vm_compute; discriminate. }
  destruct (proj1 (virtualWriteArray_round_trip [12; -7; 0])
              ltac:(discriminate) Hrange) as (Hsize & Hget).
  split; [exact Hsize | exact (Hget 1%nat (-7) eq_refl)].
Defined.

(** X3. A value wrapped from an [int] reads back as that [int], and one
    wrapped from a [bool] reads back as that [bool] and as 1 or 0. *)
Theorem VirtualPin_round_trip (n : Z) (flag : bool) :
  (LONG_MIN <= n <= LONG_MAX -> asInt (VirtualPin_int n) = n)
  /\ asBool (VirtualPin_bool flag) = flag
  /\ asInt (VirtualPin_bool flag) = (if flag then 1 else 0).
Proof.
  split; [apply atoi_pretty|]. destruct flag; split; reflexivity.
Qed.

Lemma VirtualPin_round_trip_witness :
  VirtualPin_int (-2147483648) = "-2147483648"
  /\ asInt (VirtualPin_int (-2147483648)) = -2147483648.
Proof.
  split; [reflexivity|].
  apply (proj1 (VirtualPin_round_trip (-2147483648) true)).
  vm_compute. split; discriminate.
Defined.

(** ** Configuration and topic buffers *)






Lemma pretty_uint8_length (pin : Z) :
  (String.length (pretty (to_uint8 pin)) <= 3)%nat.
Proof.
  assert (Hall : forallb (fun n => (String.length (pretty (Z.of_nat n)) <=? 3)%nat)
                         (seq 0 256) = true) by (vm_compute; reflexivity).
  assert (Hrange : 0 <= to_uint8 pin < 256)
    by (unfold to_uint8; apply Z.mod_pos_bound; lia).
  pose proof (proj1 (forallb_forall _ _) Hall (Z.to_nat (to_uint8 pin))) as H.
  cbv beta in H. rewrite Z2Nat.id in H by lia.
  apply Nat.leb_le, H, in_seq. lia.
Qed.

Lemma device_topic_exact (w : World) (suffix : string) :
  (String.length (_deviceId (vwire w)) <= 63)%nat ->
  (String.length suffix <= 26)%nat ->
  device_topic w suffix = "vwire/" +:+ _deviceId (vwire w) +:+ suffix.
Proof.
  intros Hid Hsuf. unfold device_topic, snprintf.
  apply substring_0_all.
  change ("vwire/" +:+ _deviceId (vwire w) +:+ suffix)
    with ("vwire/" +:+ (_deviceId (vwire w) +:+ suffix)).
  rewrite !append_length. cbn [String.length]. lia.
Qed.

(** X5. For a device identity of at most 63 characters, which is what
    [config] stores, none of the 96-byte topic buffers cuts its topic:
    the status topic of [disconnect] is the last-will topic of the join,
    and the heartbeat, pin and sync topics are the whole text, for every
    [uint8_t] pin. *)
Theorem topics_not_truncated (w : World) (pin : Z) :
  (String.length (_deviceId (vwire w)) <= 63)%nat ->
  device_topic w "/status" = _buildTopic w "status"
  /\ heartbeat_topic w = "vwire/" +:+ _deviceId (vwire w) +:+ "/heartbeat"
  /\ device_topic w ("/pin/V" +:+ pretty (to_uint8 pin))
     = "vwire/" +:+ _deviceId (vwire w) +:+ "/pin/V"
       +:+ pretty (to_uint8 pin)
  /\ device_topic w ("/sync/V" +:+ pretty (to_uint8 pin))
     = "vwire/" +:+ _deviceId (vwire w) +:+ "/sync/V"
       +:+ pretty (to_uint8 pin).
Proof.
  intros Hid. pose proof (pretty_uint8_length pin) as Hpin.
  split; [|split; [|split]].
  - rewrite device_topic_exact by (cbn; lia). reflexivity.
  - apply (device_topic_exact w "/heartbeat"); cbn; lia.
  - apply device_topic_exact; [exact Hid|].
    change ("/pin/V" +:+ pretty (to_uint8 pin))
      with ("/pin/V" +:+ (pretty (to_uint8 pin))).
    rewrite append_length. cbn [String.length]. lia.
  - apply device_topic_exact; [exact Hid|].
    rewrite append_length. cbn [String.length]. lia.
Qed.

Lemma topics_not_truncated_witness :
  (String.length (_deviceId (vwire world_connected)) <= 63)%nat
  /\ device_topic world_connected "/status" = "vwire/tok/status"
  /\ device_topic world_connected ("/pin/V" +:+ pretty (to_uint8 255))
     = "vwire/tok/pin/V255".
Proof.
  assert (Hid : (String.length (_deviceId (vwire world_connected)) <= 63)%nat)
    by (vm_compute; lia).
  destruct (topics_not_truncated world_connected 255 Hid)
    as (Hstatus & _ & Hpin & _).
  split; [exact Hid|]. split; [exact Hstatus | exact Hpin].
Defined.

(** ** Publishing operations *)

Lemma connected_run (t : bool) (w : World) :
  connected t w = (connected_view (_state (vwire w)) t, w, []).
Proof. reflexivity. Qed.

Lemma publish_if_connected_run (e : Env) (topic : World -> string)
    (payload : string) (w : World) :
  publish_if_connected e topic payload w
  = (tt, w,
     if connected_view (_state (vwire w)) (mqtt_connected e)
     then [MqttPublish (topic w) payload false] else []).
Proof.
  unfold publish_if_connected. rewrite bind_run, connected_run.
  cbn [result world_of trace fst snd app].
  destruct (connected_view (_state (vwire w)) (mqtt_connected e));
    reflexivity.
Qed.

Lemma _virtualWriteInternal_run (e : Env) (pin : Z) (value : string)
    (w : World) :
  _virtualWriteInternal e pin value w
  = if connected_view (_state (vwire w)) (mqtt_connected e)
    then (tt, w,
          [MqttPublish (device_topic w ("/pin/V" +:+ pretty (to_uint8 pin)))
                       value (dataRetain (_settings (vwire w)))])
    else (tt, with_vwire (set_lastError VWIRE_ERR_NOT_CONNECTED) w, []).
Proof.
  unfold _virtualWriteInternal. rewrite bind_run, connected_run.
  cbn [result world_of trace fst snd app].
  destruct (connected_view (_state (vwire w)) (mqtt_connected e));
    reflexivity.
Qed.

(** X6. While [connected()] is false nothing is published by any of the
    sending operations.  A virtual write records NotConnected as the last
    error and changes nothing else; sync, notify, log and email leave the
    whole object, the last error included, as it was. *)
Theorem sending_while_down (b : Board) (e : Env) (w : World) (pin : Z)
    (value subject body : string) :
  connected_view (_state (vwire w)) (mqtt_connected e) = false ->
  _virtualWriteInternal e pin value w
  = (tt, with_vwire (set_lastError VWIRE_ERR_NOT_CONNECTED) w, [])
  /\ syncVirtual e pin w = (tt, w, [])
  /\ syncAll e w = (tt, w, [])
  /\ notify e value w = (tt, w, [])
  /\ log e value w = (tt, w, [])
  /\ email b e subject body w = (tt, w, []).
Proof.
  intros Hdown. rewrite _virtualWriteInternal_run.
  unfold syncVirtual, syncAll, notify, log, email.
  rewrite !publish_if_connected_run, Hdown. repeat split; reflexivity.
Qed.

Lemma sending_while_down_witness :
  _lastError (vwire (world_of (_virtualWriteInternal (offline_poll_at 5) 3 "1"
                                 world_connected)))
  = VWIRE_ERR_NOT_CONNECTED
  /\ notify (offline_poll_at 5) "hello" world_connected
     = (tt, world_connected, []).
Proof.
  destruct (sending_while_down BOARD_ESP32 (offline_poll_at 5) world_connected
              3 "1" "s" "b" eq_refl) as (Hw & _ & _ & _ & _ & _).
  destruct (sending_while_down BOARD_ESP32 (offline_poll_at 5) world_connected
              3 "hello" "s" "b" eq_refl) as (_ & _ & _ & Hn & _).
  split; [rewrite Hw; reflexivity | exact Hn].
Defined.

(** X7. While [connected()] is true, [virtualWrite] of an [int] makes one
    publish, on the pin topic of the [uint8_t] pin, with the retain flag
    of the settings, and leaves the object as it was; the payload is the
    decimal text, which a [VirtualPin] on the other side reads back as the
    same number. *)
Theorem virtualWrite_int_publishes (e : Env) (w : World) (pin n : Z) :
  connected_view (_state (vwire w)) (mqtt_connected e) = true ->
  LONG_MIN <= n <= LONG_MAX ->
  virtualWrite_int e pin n w
  = (tt, w,
     [MqttPublish (device_topic w ("/pin/V" +:+ pretty (to_uint8 pin)))
                  (VirtualPin_int n) (dataRetain (_settings (vwire w)))])
  /\ asInt (VirtualPin_int n) = n.
Proof.
  intros Hup Hrange. split.
  - unfold virtualWrite_int. rewrite _virtualWriteInternal_run, Hup.
    reflexivity.
  - apply atoi_pretty. exact Hrange.
Qed.

Lemma virtualWrite_int_publishes_witness :
  virtualWrite_int sample_env 300 (-42) world_connected
  = (tt, world_connected, [MqttPublish "vwire/tok/pin/V44" "-42" false]).
Proof.
  exact (proj1 (virtualWrite_int_publishes sample_env world_connected 300
                  (-42) eq_refl ltac:(vm_compute; split; discriminate))).
Defined.

(** X8. The JSON text that [email] publishes is never longer than the
    JSON buffer of the board allows, however long subject and body are. *)
Theorem email_payload_bounded (b : Board) (e : Env) (w : World)
    (subject body : string) :
  Forall (fun ev =>
            match ev with
            | MqttPublish _ payload retained =>
                (String.length payload < VWIRE_JSON_BUFFER_SIZE b)%nat
                /\ retained = false
            | _ => False
            end)
         (trace (email b e subject body w))
  /\ (length (trace (email b e subject body w)) <= 1)%nat.
Proof.
  unfold email. rewrite publish_if_connected_run. cbn [trace snd].
  destruct (connected_view (_state (vwire w)) (mqtt_connected e)).
  - split; [|cbn; lia]. constructor; [|constructor]. split; [|reflexivity].
    unfold snprintf.
    pose proof (substring_0_length (VWIRE_JSON_BUFFER_SIZE b - 1)
                  ("{" +:+ quoted "subject" +:+ ":" +:+ quoted subject +:+ ","
                   +:+ quoted "body" +:+ ":" +:+ quoted body +:+ "}")) as H.
    assert (0 < VWIRE_JSON_BUFFER_SIZE b)%nat by (destruct b; cbn; lia).
    lia.
  - split; [constructor | cbn; lia].
Qed.

(** ** Broker join *)

Lemma _connectMQTT_accepted (e : Env) (w : World) :
  authToken (_settings (vwire w)) <> EmptyString ->
  connect_result e = true ->
  _connectMQTT e w
  = (true,
     with_vwire (set_startTime (millis_later e))
       (with_vwire (set_state VWIRE_STATE_CONNECTED)
          (with_vwire (set_state VWIRE_STATE_CONNECTING_MQTT) w)),
     [MqttConnect ("vwire-" +:+ _deviceId (vwire w))
                  (authToken (_settings (vwire w)))
                  (authToken (_settings (vwire w)))
                  (_buildTopic w "status") 1 true (status_payload "offline");
      MqttPublish (_buildTopic w "status") (status_payload "online") true;
      MqttSubscribe (_buildTopic w "cmd" +:+ "/#")]
     ++ connect_notifications w).
Proof.
  intros Htok Hres. unfold _connectMQTT, connect_notifications. unfold_m.
  destruct (String.length (authToken (_settings (vwire w))) =? 0)%nat eqn:E.
  - apply length_zero_empty in E. contradiction.
  - rewrite Hres.
    destruct (_connectHandler (vwire w));
      destruct (_vwireAutoConnectHandler w); reflexivity.
Qed.

Lemma _connectMQTT_refused (e : Env) (w : World) :
  authToken (_settings (vwire w)) <> EmptyString ->
  connect_result e = false ->
  _connectMQTT e w
  = (false,
     with_vwire (set_state VWIRE_STATE_ERROR)
       (with_vwire (set_lastError VWIRE_ERR_MQTT_FAILED)
          (with_vwire (set_state VWIRE_STATE_CONNECTING_MQTT) w)),
     [MqttConnect ("vwire-" +:+ _deviceId (vwire w))
                  (authToken (_settings (vwire w)))
                  (authToken (_settings (vwire w)))
                  (_buildTopic w "status") 1 true
                  (status_payload "offline")]).
Proof.
  intros Htok Hres. unfold _connectMQTT, _setError. unfold_m.
  destruct (String.length (authToken (_settings (vwire w))) =? 0)%nat eqn:E.
  - apply length_zero_empty in E. contradiction.
  - rewrite Hres. reflexivity.
Qed.

(** X9. A join that the broker accepts answers true and leaves the state
    at [Connected] and the last error as it was.  It registers the
    retained offline last will on the status topic, then publishes the
    retained online status on that same topic, then subscribes to the
    command wildcard, and only then calls the connect callbacks: the
    explicit one first, the declarative one second, each once. *)
Theorem join_accepted (e : Env) (w : World) :
  authToken (_settings (vwire w)) <> EmptyString ->
  connect_result e = true ->
  result (_connectMQTT e w) = true
  /\ _state (vwire (world_of (_connectMQTT e w))) = VWIRE_STATE_CONNECTED
  /\ _lastError (vwire (world_of (_connectMQTT e w))) = _lastError (vwire w)
  /\ _startTime (vwire (world_of (_connectMQTT e w))) = millis_later e
  /\ trace (_connectMQTT e w)
     = [MqttConnect ("vwire-" +:+ _deviceId (vwire w))
                    (authToken (_settings (vwire w)))
                    (authToken (_settings (vwire w)))
                    ("vwire/" +:+ _deviceId (vwire w) +:+ "/status")
                    1 true (status_payload "offline");
        MqttPublish ("vwire/" +:+ _deviceId (vwire w) +:+ "/status")
                    (status_payload "online") true;
        MqttSubscribe ("vwire/" +:+ _deviceId (vwire w) +:+ "/cmd/#")]
       ++ connect_notifications w
  /\ notifications (trace (_connectMQTT e w)) = connect_notifications w.
Proof.
  intros Htok Hres. rewrite (_connectMQTT_accepted e w Htok Hres).
  cbn [result world_of trace fst snd].
  split; [reflexivity|]. split; [reflexivity|]. split; [reflexivity|].
  split; [reflexivity|]. split.
  - unfold _buildTopic. rewrite !append_assoc. reflexivity.
  - unfold connect_notifications.
    destruct (_connectHandler (vwire w));
      destruct (_vwireAutoConnectHandler w); reflexivity.
Qed.

Lemma join_accepted_witness :
  trace (_connectMQTT sample_env
           (world_of (disconnect sample_env world_with_callbacks)))
  = [MqttConnect "vwire-tok" "tok" "tok" "vwire/tok/status" 1 true
       (status_payload "offline");
     MqttPublish "vwire/tok/status" (status_payload "online") true;
     MqttSubscribe "vwire/tok/cmd/#";
     CallConnection 1%nat; CallConnection 11%nat].
Proof.
  destruct (join_accepted sample_env
              (world_of (disconnect sample_env world_with_callbacks))
              ltac:(discriminate) eq_refl) as (_ & _ & _ & _ & Ht & _).
  exact Ht.
Defined.

(** X10. A join that the broker refuses answers false, leaves the state
    at [Error] and MqttFailed as the last error, and after the one
    connect call it makes no other call: nothing is published, nothing is
    subscribed, no callback runs. *)
Theorem join_refused (e : Env) (w : World) :
  authToken (_settings (vwire w)) <> EmptyString ->
  connect_result e = false ->
  result (_connectMQTT e w) = false
  /\ _state (vwire (world_of (_connectMQTT e w))) = VWIRE_STATE_ERROR
  /\ _lastError (vwire (world_of (_connectMQTT e w))) = VWIRE_ERR_MQTT_FAILED
  /\ _startTime (vwire (world_of (_connectMQTT e w))) = _startTime (vwire w)
  /\ connect_calls (trace (_connectMQTT e w)) = 1%nat
  /\ length (trace (_connectMQTT e w)) = 1%nat
  /\ notifications (trace (_connectMQTT e w)) = []
  /\ publishes (trace (_connectMQTT e w)) = [].
Proof.
  intros Htok Hres. rewrite (_connectMQTT_refused e w Htok Hres).
  repeat split; reflexivity.
Qed.

Lemma join_refused_witness :
  _state (vwire (world_of (_connectMQTT (offline_poll_at 7)
                             world_with_callbacks)))
  = VWIRE_STATE_ERROR
  /\ notifications (trace (_connectMQTT (offline_poll_at 7)
                             world_with_callbacks)) = [].
Proof.
  destruct (join_refused (offline_poll_at 7) world_with_callbacks
              ltac:(discriminate) eq_refl)
    as (_ & Hs & _ & _ & _ & _ & Hn & _).
  split; [exact Hs | exact Hn].
Defined.

(** X11. [begin()] called while the network is not joined fails with
    WifiFailed without any call to the transport and without changing the
    state; with the network joined it is exactly one broker join. *)
Theorem begin_requires_network (e : Env) (w : World) :
  (wifi_connected e = false ->
     begin e w = (false, with_vwire (set_lastError VWIRE_ERR_WIFI_FAILED) w, [])
     /\ _state (vwire (world_of (begin e w))) = _state (vwire w))
  /\ (wifi_connected e = true -> begin e w = _connectMQTT e w).
Proof.
  unfold begin, _setError. split; intros ->; cbn [negb].
  - split; reflexivity.
  - reflexivity.
Qed.

Lemma begin_requires_network_witness :
  begin (network_down_poll_at 3) world_configured
  = (false, with_vwire (set_lastError VWIRE_ERR_WIFI_FAILED) world_configured,
     []).
Proof.
  exact (proj1 (proj1 (begin_requires_network (network_down_poll_at 3)
                         world_configured) eq_refl)).
Defined.

(** ** Scheduler: what a poll reads and what it writes *)

Lemma same_registry_refl (w : World) : same_registry w w.
Proof. repeat split. Qed.

Lemma same_registry_trans (w1 w2 w3 : World) :
  same_registry w1 w2 -> same_registry w2 w3 -> same_registry w1 w3.
Proof.
  unfold same_registry.
  intros (a1 & a2 & a3 & a4 & a5 & a6 & a7 & a8 & a9 & a10 & a11)
         (b1 & b2 & b3 & b4 & b5 & b6 & b7 & b8 & b9 & b10 & b11).
  repeat split; congruence.
Qed.

Lemma notice_drop_same_registry (w : World) :
  same_registry w (world_of (notice_drop w)).
Proof.
  rewrite notice_drop_run.
  destruct (VwireState_eqb (_state (vwire w)) VWIRE_STATE_CONNECTED);
    repeat split.
Qed.

Lemma _connectMQTT_same_registry (e : Env) (w : World) :
  same_registry w (world_of (_connectMQTT e w)).
Proof.
  unfold _connectMQTT, _setError. unfold_m.
  destruct (String.length (authToken (_settings (vwire w))) =? 0)%nat;
    [repeat split|].
  destruct (connect_result e); [|repeat split].
  destruct (_connectHandler (vwire w));
    destruct (_vwireAutoConnectHandler w); repeat split.
Qed.

Lemma _sendHeartbeat_world (b : Board) (e : Env) (w : World) :
  world_of (_sendHeartbeat b e w) = w.
Proof.
  unfold _sendHeartbeat. rewrite bind_run, connected_run.
  cbn [result world_of trace fst snd].
  destruct (connected_view (_state (vwire w)) (mqtt_connected_after e));
    reflexivity.
Qed.

(** The fast path: the object after the poll and the trace of the poll. *)
Lemma run_connected (b : Board) (e : Env) (w : World) :
  mqtt_connected e = true ->
  run b e w
  = if heartbeatInterval (_settings (vwire w))
         <=? ulong_sub (millis e) (_lastHeartbeat (vwire w))
    then (tt, with_vwire (set_lastHeartbeat (millis e)) w,
          trace (mqtt_loop b (inbound e) w)
          ++ if connected_view (_state (vwire w)) (mqtt_connected_after e)
             then [MqttPublish (heartbeat_topic w) (heartbeat_payload b e w)
                               false]
             else [])
    else (tt, w, trace (mqtt_loop b (inbound e) w)).
Proof.
  intros Hup. unfold run. rewrite Hup, bind_run.
  destruct (mqtt_loop_callbacks b (inbound e) w) as [Hw _]. rewrite Hw.
  rewrite bind_run. change (get w) with (w, w, @nil Event).
  cbn [result world_of trace fst snd app].
  destruct (heartbeatInterval (_settings (vwire w))
            <=? ulong_sub (millis e) (_lastHeartbeat (vwire w))).
  - unfold _sendHeartbeat, connected, connected_view. unfold_m.
    cbn [vwire with_vwire set_lastHeartbeat _state].
    destruct (VwireState_eqb (_state (vwire w)) VWIRE_STATE_CONNECTED
              && mqtt_connected_after e); reflexivity.
  - cbn [ret fst snd]. rewrite app_nil_r. reflexivity.
Qed.

(** The slow path with the network down. *)
Lemma run_network_down (b : Board) (e : Env) (w : World) :
  mqtt_connected e = false -> wifi_connected e = false ->
  run b e w
  = (tt, world_of (notice_drop w), idle_poll b w ++ trace (notice_drop w)).
Proof.
  intros Hd Hw. unfold run, idle_poll. rewrite Hd, Hw. cbn [negb].
  rewrite bind_run. change (emit Yield w) with (tt, w, [Yield]).
  cbn [result world_of trace fst snd].
  rewrite bind_run, ota_hook_run. cbn [result world_of trace fst snd].
  destruct (notice_drop w) as [[[] w1] t1]. reflexivity.
Qed.

(** The slow path with the network up. *)
Lemma run_session_down (b : Board) (e : Env) (w : World) :
  mqtt_connected e = false -> wifi_connected e = true ->
  run b e w
  = if autoReconnect (_settings (vwire w))
       && (reconnectInterval (_settings (vwire w))
           <=? ulong_sub (millis e) (_lastReconnectAttempt (vwire w)))
    then
      (tt,
       world_of (_connectMQTT e
                   (with_vwire (set_lastReconnectAttempt (millis e))
                               (world_of (notice_drop w)))),
       idle_poll b w ++ trace (notice_drop w)
       ++ trace (_connectMQTT e
                   (with_vwire (set_lastReconnectAttempt (millis e))
                               (world_of (notice_drop w)))))
    else
      (tt, world_of (notice_drop w), idle_poll b w ++ trace (notice_drop w)).
Proof.
  intros Hd Hw. unfold run, idle_poll. rewrite Hd, Hw. cbn [negb].
  rewrite bind_run. change (emit Yield w) with (tt, w, [Yield]).
  cbn [result world_of trace fst snd].
  rewrite bind_run, ota_hook_run. cbn [result world_of trace fst snd].
  destruct (notice_drop_facts w) as (_ & Hset & Hlast & _).
  rewrite bind_run.
  set (w1 := world_of (notice_drop w)) in *.
  rewrite bind_run. change (get w1) with (w1, w1, @nil Event).
  cbn [result world_of trace fst snd]. rewrite Hset, Hlast.
  destruct (autoReconnect (_settings (vwire w))); cbn [andb].
  - destruct (reconnectInterval (_settings (vwire w))
              <=? ulong_sub (millis e) (_lastReconnectAttempt (vwire w))).
    + rewrite !bind_run. unfold modify at 1 2 3. unfold ret.
      cbn [result world_of trace fst snd app].
      rewrite app_nil_r. reflexivity.
    + cbn [ret fst snd app]. rewrite app_nil_r. reflexivity.
  - cbn [ret fst snd app]. rewrite app_nil_r. reflexivity.
Qed.

Lemma run_same_registry (b : Board) (e : Env) (w : World) :
  same_registry w (world_of (run b e w)).
Proof.
  destruct (mqtt_connected e) eqn:Hup.
  - rewrite (run_connected b e w Hup).
    destruct (_ <=? _); repeat split.
  - destruct (wifi_connected e) eqn:Hwifi.
    + rewrite (run_session_down b e w Hup Hwifi).
      destruct (_ && _); cbn [world_of fst snd].
      * eapply same_registry_trans; [apply notice_drop_same_registry|].
        eapply same_registry_trans; [|apply _connectMQTT_same_registry].
        repeat split.
      * apply notice_drop_same_registry.
    + rewrite (run_network_down b e w Hup Hwifi). cbn [world_of fst snd].
      apply notice_drop_same_registry.
Qed.

Lemma run_polls_cons (b : Board) (e : Env) (rest : list Env) (w : World) :
  run_polls b (e :: rest) w
  = (tt, world_of (run_polls b rest (world_of (run b e w))),
     trace (run b e w) ++ trace (run_polls b rest (world_of (run b e w)))).
Proof.
  cbn [run_polls]. rewrite bind_run.
  destruct (run_polls b rest (world_of (run b e w))) as [[[] w2] t2].
  reflexivity.
Qed.

(** X12. Polling never changes what was registered or configured:
    after any run of polls, whatever the collaborators answer, both
    handler tables and their counts, the five callback slots, the
    settings and the device identity are what they were.  The same holds
    across [disconnect()] and across [begin()]. *)
Theorem polling_preserves_registry (b : Board) (polls : list Env)
    (e : Env) (w : World) :
  same_registry w (world_of (run_polls b polls w))
  /\ same_registry w (world_of (disconnect e w))
  /\ same_registry w (world_of (begin e w)).
Proof.
  split; [|split].
  - revert w. induction polls as [|p rest IH]; intros w.
    + apply same_registry_refl.
    + rewrite run_polls_cons. cbn [world_of fst snd].
      eapply same_registry_trans; [apply run_same_registry | apply IH].
  - unfold disconnect. unfold_m. destruct (mqtt_connected e); repeat split.
  - unfold begin, _setError. destruct (wifi_connected e); cbn [negb].
    + apply _connectMQTT_same_registry.
    + repeat split.
Qed.

Lemma filter_callbacks_only (f : Event -> bool) (tr : list Event) :
  (forall ev, is_callback ev = true -> f ev = false) ->
  forallb is_callback tr = true -> List.filter f tr = [].
Proof.
  intros Hf. induction tr as [|ev tr IH]; [reflexivity|].
  cbn [forallb List.filter]. intros H. apply andb_true_iff in H.
  destruct H as [Hev Htr]. rewrite (Hf ev Hev). apply IH, Htr.
Qed.

Lemma filter_no_match (f : Event -> bool) (tr : list Event) :
  forallb (fun ev => negb (f ev)) tr = true -> List.filter f tr = [].
Proof.
  induction tr as [|ev tr IH]; [reflexivity|].
  cbn [forallb List.filter]. intros H. apply andb_true_iff in H.
  destruct H as [Hev Htr]. apply negb_true_iff in Hev. rewrite Hev.
  apply IH, Htr.
Qed.

Lemma forallb_weaken (f g : Event -> bool) (tr : list Event) :
  (forall ev, f ev = true -> g ev = true) ->
  forallb f tr = true -> forallb g tr = true.
Proof.
  intros Hfg. induction tr as [|ev tr IH]; [reflexivity|].
  cbn [forallb]. intros H. apply andb_true_iff in H. destruct H as [H1 H2].
  rewrite (Hfg ev H1), (IH H2). reflexivity.
Qed.

Lemma notice_drop_slow_events (w : World) :
  forallb slow_path_event (trace (notice_drop w)) = true.
Proof.
  rewrite notice_drop_run.
  destruct (VwireState_eqb (_state (vwire w)) VWIRE_STATE_CONNECTED);
    [|reflexivity].
  cbn [trace snd].
  destruct (_disconnectHandler (vwire w));
    destruct (_vwireAutoDisconnectHandler w); reflexivity.
Qed.

Lemma _connectMQTT_slow_events (e : Env) (w : World) :
  forallb slow_path_event (trace (_connectMQTT e w)) = true.
Proof.
  unfold _connectMQTT, _setError. unfold_m.
  destruct (String.length (authToken (_settings (vwire w))) =? 0)%nat;
    [reflexivity|].
  destruct (connect_result e); [|reflexivity].
  destruct (_connectHandler (vwire w));
    destruct (_vwireAutoConnectHandler w); reflexivity.
Qed.

Lemma idle_poll_slow_events (b : Board) (w : World) :
  forallb slow_path_event (idle_poll b w) = true.
Proof.
  unfold idle_poll, ota_events.
  destruct (VWIRE_HAS_OTA b && _otaEnabled (vwire w)); reflexivity.
Qed.

(** X13. One poll takes one of two paths and they do not mix.  With the
    transport up it only pumps messages and may publish a heartbeat: it
    does not yield, makes no join attempt, calls no connection callback,
    and leaves state, last error and reconnect stamp alone.  With the
    transport down it delivers no message and publishes no heartbeat,
    and leaves the heartbeat stamp alone. *)
Theorem poll_paths_exclusive (b : Board) (e : Env) (w : World) :
  (mqtt_connected e = true ->
     forallb fast_path_event (trace (run b e w)) = true
     /\ _state (vwire (world_of (run b e w))) = _state (vwire w)
     /\ _lastError (vwire (world_of (run b e w))) = _lastError (vwire w)
     /\ _lastReconnectAttempt (vwire (world_of (run b e w)))
        = _lastReconnectAttempt (vwire w))
  /\ (mqtt_connected e = false ->
        forallb slow_path_event (trace (run b e w)) = true
        /\ _lastHeartbeat (vwire (world_of (run b e w)))
           = _lastHeartbeat (vwire w))
  /\ (forall ev, fast_path_event ev && slow_path_event ev = false).
Proof.
  split; [|split].
  - intros Hup. rewrite (run_connected b e w Hup).
    assert (Hloop : forallb fast_path_event
                      (trace (mqtt_loop b (inbound e) w)) = true).
    { apply (forallb_weaken is_callback).
      - intros [] H; try discriminate H; reflexivity.
      - apply mqtt_loop_callbacks. }
    destruct (_ <=? _); cbn [world_of trace fst snd].
    + split; [|repeat split]. rewrite forallb_app, Hloop.
      destruct (connected_view _ _); reflexivity.
    + split; [exact Hloop | repeat split].
  - intros Hdown.
    pose proof (idle_poll_slow_events b w) as Hidle.
    pose proof (notice_drop_slow_events w) as Hdrop.
    assert (Hhb : _lastHeartbeat (vwire (world_of (notice_drop w)))
                  = _lastHeartbeat (vwire w)).
    { rewrite notice_drop_run.
      destruct (VwireState_eqb _ _); reflexivity. }
    destruct (wifi_connected e) eqn:Hwifi.
    + rewrite (run_session_down b e w Hdown Hwifi).
      destruct (_ && _); cbn [world_of trace fst snd].
      * split.
        -- rewrite !forallb_app, Hidle, Hdrop, _connectMQTT_slow_events.
           reflexivity.
        -- rewrite <- Hhb.
           set (wa := with_vwire (set_lastReconnectAttempt (millis e))
                        (world_of (notice_drop w))).
           change (_lastHeartbeat (vwire (world_of (notice_drop w))))
             with (_lastHeartbeat (vwire wa)).
           unfold _connectMQTT, _setError. unfold_m.
           destruct (String.length (authToken (_settings (vwire wa))) =? 0)%nat;
             [reflexivity|].
           destruct (connect_result e); [|reflexivity].
           destruct (_connectHandler (vwire wa));
             destruct (_vwireAutoConnectHandler wa); reflexivity.
      * split; [|exact Hhb]. rewrite forallb_app, Hidle, Hdrop. reflexivity.
    + rewrite (run_network_down b e w Hdown Hwifi).
      cbn [world_of trace fst snd].
      split; [|exact Hhb]. rewrite forallb_app, Hidle, Hdrop. reflexivity.
  - intros []; try reflexivity.
    match goal with r : bool |- _ => destruct r end; reflexivity.
Qed.

Lemma poll_paths_exclusive_witness :
  forallb fast_path_event (trace (run BOARD_ESP32 (poll_at 30000)
                                    world_channel_zero)) = true
  /\ forallb slow_path_event (trace (run BOARD_ESP32 (rejoin_poll_at 30000)
                                       world_with_callbacks)) = true.
Proof.
  split.
  - exact (proj1 (proj1 (poll_paths_exclusive BOARD_ESP32 (poll_at 30000)
                           world_channel_zero) eq_refl)).
  - exact (proj1 (proj1 (proj2 (poll_paths_exclusive BOARD_ESP32
                                  (rejoin_poll_at 30000)
                                  world_with_callbacks)) eq_refl)).
Defined.

(** ** Scheduler: detected drops *)

Lemma notifications_app (t1 t2 : list Event) :
  notifications (t1 ++ t2) = notifications t1 ++ notifications t2.
Proof. unfold notifications. apply List.filter_app. Qed.

Lemma notifications_idle_poll (b : Board) (w : World) :
  notifications (idle_poll b w) = [].
Proof.
  unfold idle_poll, ota_events.
  destruct (VWIRE_HAS_OTA b && _otaEnabled (vwire w)); reflexivity.
Qed.

Lemma notice_drop_connected (w : World) :
  _state (vwire w) = VWIRE_STATE_CONNECTED ->
  notice_drop w
  = (tt, with_vwire (set_state VWIRE_STATE_DISCONNECTED) w,
     disconnect_notifications w).
Proof.
  intros Hstate. rewrite notice_drop_run, Hstate. reflexivity.
Qed.

Lemma notifications_disconnect_notifications (w : World) :
  notifications (disconnect_notifications w) = disconnect_notifications w.
Proof.
  unfold disconnect_notifications.
  destruct (_disconnectHandler (vwire w));
    destruct (_vwireAutoDisconnectHandler w); reflexivity.
Qed.

Lemma run_polls_network_down_idle (b : Board) (w : World) (polls : list Env) :
  _state (vwire w) <> VWIRE_STATE_CONNECTED ->
  Forall (fun p => mqtt_connected p = false /\ wifi_connected p = false)
         polls ->
  run_polls b polls w
  = (tt, w, concat (repeat (idle_poll b w) (length polls))).
Proof.
  intros Hstate. induction 1 as [|p rest [Hd Hw] _ IH]; [reflexivity|].
  rewrite run_polls_cons, (run_network_down b p w Hd Hw).
  rewrite (notice_drop_idle w Hstate). cbn [world_of trace fst snd].
  rewrite IH. cbn [world_of trace fst snd repeat concat length].
  rewrite app_nil_r. reflexivity.
Qed.

Lemma notifications_idle_polls (b : Board) (w : World) (n : nat) :
  notifications (concat (repeat (idle_poll b w) n)) = [].
Proof.
  induction n as [|n IH]; [reflexivity|]. cbn [repeat concat].
  rewrite notifications_app, notifications_idle_poll, IH. reflexivity.
Qed.

(** X14. A drop is announced once.  When the session was [Connected] and
    a poll finds transport and network down, that poll sets the state to
    [Disconnected] and calls the disconnect callbacks, the explicit one
    first; the polls that follow while the network stays down call
    nothing and change nothing, and no poll of the run makes a join
    attempt. *)
Theorem drop_announced_once (b : Board) (w : World) (e : Env)
    (later : list Env) :
  _state (vwire w) = VWIRE_STATE_CONNECTED ->
  mqtt_connected e = false -> wifi_connected e = false ->
  Forall (fun p => mqtt_connected p = false /\ wifi_connected p = false)
         later ->
  notifications (trace (run b e w)) = disconnect_notifications w
  /\ world_of (run b e w) = with_vwire (set_state VWIRE_STATE_DISCONNECTED) w
  /\ world_of (run_polls b later (world_of (run b e w))) = world_of (run b e w)
  /\ notifications (trace (run_polls b later (world_of (run b e w)))) = []
  /\ notifications (trace (run_polls b (e :: later) w))
     = disconnect_notifications w
  /\ connect_calls (trace (run_polls b (e :: later) w)) = 0%nat.
Proof.
  intros Hstate Hd Hw Hlater.
  assert (Hrun : run b e w
                 = (tt, with_vwire (set_state VWIRE_STATE_DISCONNECTED) w,
                    idle_poll b w ++ disconnect_notifications w)).
  { rewrite (run_network_down b e w Hd Hw), (notice_drop_connected w Hstate).
    reflexivity. }
  set (w1 := with_vwire (set_state VWIRE_STATE_DISCONNECTED) w) in *.
  assert (Hrest : run_polls b later w1
                  = (tt, w1, concat (repeat (idle_poll b w1) (length later)))).
  { apply run_polls_network_down_idle; [discriminate | exact Hlater]. }
  assert (Hfirst : notifications (trace (run b e w))
                   = disconnect_notifications w).
  { rewrite Hrun. cbn [trace snd].
    rewrite notifications_app, notifications_idle_poll,
      notifications_disconnect_notifications. reflexivity. }
  rewrite run_polls_cons. rewrite Hrun in *. cbn [world_of trace fst snd] in *.
  rewrite Hrest. cbn [world_of trace fst snd].
  split; [exact Hfirst|]. split; [reflexivity|]. split; [reflexivity|].
  split; [apply notifications_idle_polls|]. split.
  - rewrite notifications_app, Hfirst, notifications_idle_polls.
    apply app_nil_r.
  - rewrite !connect_calls_app, connect_calls_idle_poll, connect_calls_idle.
    unfold disconnect_notifications.
    destruct (_disconnectHandler (vwire w));
      destruct (_vwireAutoDisconnectHandler w); reflexivity.
Qed.

Lemma drop_announced_once_witness :
  notifications
    (trace (run_polls BOARD_ESP32
              [network_down_poll_at 100; network_down_poll_at 200;
               network_down_poll_at 9000]
              world_with_callbacks))
  = [CallConnection 2%nat; CallConnection 12%nat]
  /\ connect_calls
       (trace (run_polls BOARD_ESP32
                 [network_down_poll_at 100; network_down_poll_at 200;
                  network_down_poll_at 9000]
                 world_with_callbacks))
     = 0%nat.
Proof.
  assert (Hlater : Forall (fun p => mqtt_connected p = false
                                    /\ wifi_connected p = false)
                     [network_down_poll_at 200; network_down_poll_at 9000]).
  { repeat constructor. }
  destruct (drop_announced_once BOARD_ESP32 world_with_callbacks
              (network_down_poll_at 100)
              [network_down_poll_at 200; network_down_poll_at 9000]
              eq_refl eq_refl eq_refl Hlater)
    as (_ & _ & _ & _ & Hn & Hc).
  split; [exact Hn | exact Hc].
Defined.

Lemma notice_drop_timing (w : World) :
  _lastReconnectAttempt (vwire (world_of (notice_drop w)))
  = _lastReconnectAttempt (vwire w)
  /\ _lastError (vwire (world_of (notice_drop w))) = _lastError (vwire w).
Proof.
  rewrite notice_drop_run. destruct (VwireState_eqb _ _); split; reflexivity.
Qed.

(** X15. With auto-reconnect switched off the scheduler never tries to
    join: over any run of polls that find the transport down, whatever
    the state of the network, there is no connect call, and the reconnect
    stamp and the last error stay as they were. *)
Theorem no_reconnect_when_disabled (b : Board) (polls : list Env) :
  forall w : World,
    autoReconnect (_settings (vwire w)) = false ->
    Forall (fun p => mqtt_connected p = false) polls ->
    connect_calls (trace (run_polls b polls w)) = 0%nat
    /\ _lastReconnectAttempt (vwire (world_of (run_polls b polls w)))
       = _lastReconnectAttempt (vwire w)
    /\ _lastError (vwire (world_of (run_polls b polls w)))
       = _lastError (vwire w).
Proof.
  induction polls as [|p rest IH]; intros w Hoff Hdown.
  - repeat split.
  - inversion Hdown as [|? ? Hp Hrest]; subst.
    assert (Hrun : run b p w
                   = (tt, world_of (notice_drop w),
                      idle_poll b w ++ trace (notice_drop w))).
    { destruct (wifi_connected p) eqn:Hwifi.
      - rewrite (run_session_down b p w Hp Hwifi), Hoff. reflexivity.
      - apply run_network_down; assumption. }
    destruct (notice_drop_facts w) as (_ & Hset & _ & Hcalls).
    destruct (notice_drop_timing w) as (Hlast & Herr).
    rewrite run_polls_cons, Hrun. cbn [world_of trace fst snd].
    destruct (IH (world_of (notice_drop w))
                 ltac:(rewrite Hset; exact Hoff) Hrest)
      as (IHc & IHl & IHe).
    split; [|split].
    + rewrite !connect_calls_app, connect_calls_idle_poll, Hcalls, IHc.
      reflexivity.
    + rewrite IHl. exact Hlast.
    + rewrite IHe. exact Herr.
Qed.

Lemma no_reconnect_when_disabled_witness :
  connect_calls
    (trace (run_polls BOARD_ESP32
              [offline_poll_at 100000; network_down_poll_at 200000;
               rejoin_poll_at 300000]
              (world_of (setAutoReconnect false world_connected))))
  = 0%nat.
Proof.
  assert (Hdown : Forall (fun p => mqtt_connected p = false)
                    [offline_poll_at 100000; network_down_poll_at 200000;
                     rejoin_poll_at 300000]).
  { repeat constructor. }
  exact (proj1 (no_reconnect_when_disabled BOARD_ESP32 _
                  (world_of (setAutoReconnect false world_connected))
                  eq_refl Hdown)).
Defined.

(** ** Scheduler: clock roll-over *)

Lemma ulong_sub_rollover (t d : Z) :
  0 <= t < ULONG_MODULUS -> 0 <= d < ULONG_MODULUS ->
  ulong_sub ((t + d) mod ULONG_MODULUS) t = d.
Proof.
  intros Ht Hd. unfold ulong_sub.
  rewrite Zminus_mod_idemp_l.
  replace (t + d - t) with d by lia. apply Z.mod_small. exact Hd.
Qed.

(** X16. The schedule survives the roll-over of the 32-bit millisecond
    clock.  If the last heartbeat was stamped at [t] and a poll reads the
    clock [d] milliseconds later, wrapped or not, the poll publishes the
    heartbeat exactly when [d] has reached the interval; and the uptime
    reported [d] milliseconds after the session start is [d / 1000]. *)
Theorem heartbeat_survives_rollover (b : Board) (e : Env) (w : World)
    (d : Z) :
  _state (vwire w) = VWIRE_STATE_CONNECTED ->
  mqtt_connected e = true -> mqtt_connected_after e = true ->
  0 <= _lastHeartbeat (vwire w) < ULONG_MODULUS ->
  0 <= d < ULONG_MODULUS ->
  millis e = (_lastHeartbeat (vwire w) + d) mod ULONG_MODULUS ->
  (heartbeatInterval (_settings (vwire w)) <= d ->
     publishes (trace (run b e w))
     = [MqttPublish (heartbeat_topic w) (heartbeat_payload b e w) false]
     /\ _lastHeartbeat (vwire (world_of (run b e w))) = millis e)
  /\ (d < heartbeatInterval (_settings (vwire w)) ->
        publishes (trace (run b e w)) = []
        /\ world_of (run b e w) = w)
  /\ (0 <= _startTime (vwire w) < ULONG_MODULUS ->
      getUptime w ((_startTime (vwire w) + d) mod ULONG_MODULUS) = d / 1000).
Proof.
  intros Hstate Hup Hafter Hlast Hd Hnow.
  assert (Hel : ulong_sub (millis e) (_lastHeartbeat (vwire w)) = d)
    by (rewrite Hnow; apply ulong_sub_rollover; assumption).
  pose proof (callbacks_no_publish _
                (proj2 (mqtt_loop_callbacks b (inbound e) w))) as Hloop.
  split; [|split].
  - intros Hdue.
    rewrite (run_connected_due b e w Hup) by (rewrite ?Hel; assumption).
    cbn [world_of trace fst snd]. split; [|reflexivity].
    rewrite publishes_app, Hloop. reflexivity.
  - intros Hearly.
    rewrite (run_connected_early b e w Hup) by (rewrite Hel; exact Hearly).
    cbn [world_of trace fst snd]. split; [exact Hloop | reflexivity].
  - intros Hstart. unfold getUptime.
    rewrite ulong_sub_rollover by assumption. reflexivity.
Qed.

Lemma heartbeat_survives_rollover_witness :
  publishes
    (trace (run BOARD_ESP32 (poll_at 10000)
              (with_vwire (set_lastHeartbeat 4294947296) world_connected)))
  = [MqttPublish "vwire/tok/heartbeat"
       (heartbeat_payload BOARD_ESP32 (poll_at 10000) world_connected) false]
  /\ publishes
       (trace (run BOARD_ESP32 (poll_at 9999)
                 (with_vwire (set_lastHeartbeat 4294947296) world_connected)))
     = [].
Proof.
  split.
  - refine (proj1 (proj1 (heartbeat_survives_rollover BOARD_ESP32
                            (poll_at 10000)
                            (with_vwire (set_lastHeartbeat 4294947296)
                                        world_connected)
                            30000 eq_refl eq_refl eq_refl _ _ eq_refl) _));
      vm_compute; repeat split; first [discriminate | reflexivity].
  - refine (proj1 (proj1 (proj2 (heartbeat_survives_rollover BOARD_ESP32
                            (poll_at 9999)
                            (with_vwire (set_lastHeartbeat 4294947296)
                                        world_connected)
                            29999 eq_refl eq_refl eq_refl _ _ eq_refl)) _));
      vm_compute; repeat split; first [discriminate | reflexivity].
Defined.

(** ** Scheduler: after a requested disconnect, and rejoining *)

Lemma disconnect_run (e : Env) (w : World) :
  world_of (disconnect e w) = with_vwire (set_state VWIRE_STATE_DISCONNECTED) w.
Proof. unfold disconnect. unfold_m. destruct (mqtt_connected e); reflexivity. Qed.

Lemma notifications_connect_notifications (w : World) :
  notifications (connect_notifications w) = connect_notifications w.
Proof.
  unfold connect_notifications.
  destruct (_connectHandler (vwire w));
    destruct (_vwireAutoConnectHandler w); reflexivity.
Qed.

Lemma run_rejoin (b : Board) (e : Env) (w : World) :
  mqtt_connected e = false -> wifi_connected e = true ->
  autoReconnect (_settings (vwire w)) = true ->
  reconnectInterval (_settings (vwire w))
    <= ulong_sub (millis e) (_lastReconnectAttempt (vwire w)) ->
  authToken (_settings (vwire w)) <> EmptyString ->
  connect_result e = true ->
  _state (vwire (world_of (run b e w))) = VWIRE_STATE_CONNECTED
  /\ notifications (trace (run b e w))
     = notifications (trace (notice_drop w)) ++ connect_notifications w
  /\ connect_calls (trace (run b e w)) = 1%nat
  /\ _lastHeartbeat (vwire (world_of (run b e w))) = _lastHeartbeat (vwire w)
  /\ _startTime (vwire (world_of (run b e w))) = millis_later e.
Proof.
  intros Hd Hw Hauto Hdue Htok Hres.
  rewrite (run_session_down b e w Hd Hw), Hauto.
  destruct (Z.leb_spec (reconnectInterval (_settings (vwire w)))
              (ulong_sub (millis e) (_lastReconnectAttempt (vwire w))));
    [|lia].
  cbn [andb world_of trace fst snd].
  set (wa := with_vwire (set_lastReconnectAttempt (millis e))
               (world_of (notice_drop w))).
  destruct (notice_drop_facts w) as (_ & Hset & _ & Hcalls).
  pose proof (notice_drop_same_registry w)
    as (_ & _ & _ & _ & Hch & _ & _ & Hach & _).
  assert (Htok' : authToken (_settings (vwire wa)) <> EmptyString).
  { change (_settings (vwire wa))
      with (_settings (vwire (world_of (notice_drop w)))).
    rewrite Hset. exact Htok. }
  rewrite (_connectMQTT_accepted e wa Htok' Hres).
  cbn [world_of trace fst snd].
  assert (Hcn : connect_notifications wa = connect_notifications w).
  { unfold connect_notifications.
    change (_connectHandler (vwire wa))
      with (_connectHandler (vwire (world_of (notice_drop w)))).
    change (_vwireAutoConnectHandler wa)
      with (_vwireAutoConnectHandler (world_of (notice_drop w))).
    rewrite Hch, Hach. reflexivity. }
  split; [reflexivity|]. split; [|split; [|split]].
  - rewrite !notifications_app, notifications_idle_poll, Hcn.
    change (notifications (_ :: _ :: _ :: connect_notifications w))
      with (notifications (connect_notifications w)).
    rewrite notifications_connect_notifications. reflexivity.
  - rewrite !connect_calls_app, connect_calls_idle_poll, Hcalls, Hcn.
    unfold connect_notifications.
    destruct (_connectHandler (vwire w));
      destruct (_vwireAutoConnectHandler w); reflexivity.
  - subst wa. rewrite notice_drop_run.
    destruct (VwireState_eqb _ _); reflexivity.
  - reflexivity.
Qed.

(** X17. A requested disconnect is never announced and does not switch
    the scheduler off.  After [disconnect()] a poll that finds the network
    down does nothing; a poll that finds the network up with the reconnect
    interval elapsed joins again, and when the broker accepts, the session
    is [Connected] once more and the only callbacks of that poll are the
    connect callbacks. *)
Theorem poll_after_disconnect (b : Board) (e0 e : Env) (w : World) :
  mqtt_connected e = false ->
  (wifi_connected e = false ->
     run b e (world_of (disconnect e0 w))
     = (tt, world_of (disconnect e0 w),
        idle_poll b (world_of (disconnect e0 w))))
  /\ (wifi_connected e = true ->
      autoReconnect (_settings (vwire w)) = true ->
      reconnectInterval (_settings (vwire w))
        <= ulong_sub (millis e) (_lastReconnectAttempt (vwire w)) ->
      authToken (_settings (vwire w)) <> EmptyString ->
      connect_result e = true ->
        _state (vwire (world_of (run b e (world_of (disconnect e0 w)))))
        = VWIRE_STATE_CONNECTED
        /\ notifications (trace (run b e (world_of (disconnect e0 w))))
           = connect_notifications w).
Proof.
  intros Hd. rewrite disconnect_run.
  set (w1 := with_vwire (set_state VWIRE_STATE_DISCONNECTED) w).
  assert (Hidle : notice_drop w1 = (tt, w1, []))
    by (apply notice_drop_idle; discriminate).
  split.
  - intros Hw. rewrite (run_network_down b e w1 Hd Hw), Hidle.
    cbn [world_of trace fst snd]. rewrite app_nil_r. reflexivity.
  - intros Hw Hauto Hdue Htok Hres.
    destruct (run_rejoin b e w1 Hd Hw Hauto Hdue Htok Hres)
      as (Hs & Hn & _).
    split; [exact Hs|]. rewrite Hn, Hidle. reflexivity.
Qed.

Lemma poll_after_disconnect_witness :
  notifications
    (trace (run BOARD_ESP32 (rejoin_poll_at 60000)
              (world_of (disconnect sample_env world_with_callbacks))))
  = [CallConnection 1%nat; CallConnection 11%nat]
  /\ _state (vwire (world_of
                      (run BOARD_ESP32 (rejoin_poll_at 60000)
                         (world_of (disconnect sample_env
                                      world_with_callbacks)))))
     = VWIRE_STATE_CONNECTED.
Proof.
  destruct (proj2 (poll_after_disconnect BOARD_ESP32 sample_env
                     (rejoin_poll_at 60000) world_with_callbacks eq_refl)
              eq_refl eq_refl ltac:(vm_compute; discriminate)
              ltac:(discriminate) eq_refl) as (Hs & Hn).
  split; [exact Hn | exact Hs].
Defined.

(** X18. A drop and the rejoin can fall into one poll.  When the session
    was [Connected], the transport is down, the network is up, the
    reconnect interval has elapsed and the broker accepts, that single
    poll calls the disconnect callbacks and then the connect callbacks,
    makes exactly one connect call, ends in [Connected], records the
    session start, and leaves the heartbeat stamp as it was. *)
Theorem drop_and_rejoin_in_one_poll (b : Board) (e : Env) (w : World) :
  _state (vwire w) = VWIRE_STATE_CONNECTED ->
  mqtt_connected e = false -> wifi_connected e = true ->
  autoReconnect (_settings (vwire w)) = true ->
  reconnectInterval (_settings (vwire w))
    <= ulong_sub (millis e) (_lastReconnectAttempt (vwire w)) ->
  authToken (_settings (vwire w)) <> EmptyString ->
  connect_result e = true ->
  notifications (trace (run b e w))
  = disconnect_notifications w ++ connect_notifications w
  /\ connect_calls (trace (run b e w)) = 1%nat
  /\ _state (vwire (world_of (run b e w))) = VWIRE_STATE_CONNECTED
  /\ _startTime (vwire (world_of (run b e w))) = millis_later e
  /\ _lastHeartbeat (vwire (world_of (run b e w))) = _lastHeartbeat (vwire w)
  /\ _lastReconnectAttempt (vwire (world_of (run b e w))) = millis e.
Proof.
  intros Hstate Hd Hw Hauto Hdue Htok Hres.
  destruct (run_rejoin b e w Hd Hw Hauto Hdue Htok Hres)
    as (Hs & Hn & Hc & Hhb & Hst).
  split; [|split; [exact Hc|split; [exact Hs|split; [exact Hst|split;
    [exact Hhb|]]]]].
  - rewrite Hn, (notice_drop_connected w Hstate). cbn [trace snd].
    rewrite notifications_disconnect_notifications. reflexivity.
  - rewrite (run_session_down b e w Hd Hw), Hauto.
    destruct (Z.leb_spec (reconnectInterval (_settings (vwire w)))
                (ulong_sub (millis e) (_lastReconnectAttempt (vwire w))));
      [|lia].
    cbn [andb world_of fst snd].
    destruct (_connectMQTT_facts e
                (with_vwire (set_lastReconnectAttempt (millis e))
                            (world_of (notice_drop w))))
      as (_ & Hlast & _).
    rewrite Hlast. reflexivity.
Qed.

Lemma drop_and_rejoin_in_one_poll_witness :
  notifications (trace (run BOARD_ESP32 (rejoin_poll_at 60000)
                          world_with_callbacks))
  = [CallConnection 2%nat; CallConnection 12%nat;
     CallConnection 1%nat; CallConnection 11%nat].
Proof.
  exact (proj1 (drop_and_rejoin_in_one_poll BOARD_ESP32 (rejoin_poll_at 60000)
                  world_with_callbacks eq_refl eq_refl eq_refl eq_refl
                  ltac:(vm_compute; discriminate) ltac:(discriminate)
                  eq_refl)).
Defined.

(** ** Router: what is not a command, and the bounded payload *)

(** X19. A message whose topic has no command marker, or has nothing
    after the marker, is shown to the raw-message observer and to nobody
    else; the object is left as it was. *)
Theorem non_command_message (b : Board) (w : World) (topic : string)
    (payload : list ascii) :
  strstr topic "/cmd/" = None
  \/ (exists cmdPos, strstr topic "/cmd/" = Some cmdPos
                     /\ string_drop 5 cmdPos = EmptyString) ->
  _handleMessage b topic payload w
  = (tt, w, raw_events w topic (payload_copy b payload)).
Proof.
  intros Hnot. rewrite _handleMessage_run.
  destruct Hnot as [Hnone | (cmdPos & Hcmd & Hempty)].
  - rewrite Hnone, app_nil_r. reflexivity.
  - rewrite Hcmd, Hempty, app_nil_r. reflexivity.
Qed.

Lemma non_command_message_witness :
  _handleMessage BOARD_SAMD "vwire/tok/heartbeat" ["7"]%char
                 world_channel_zero
  = (tt, world_channel_zero, [CallRaw 9%nat "vwire/tok/heartbeat" "7"])
  /\ _handleMessage BOARD_SAMD "vwire/tok/cmd/" ["7"]%char world_channel_zero
     = (tt, world_channel_zero, [CallRaw 9%nat "vwire/tok/cmd/" "7"]).
Proof.
  split.
  - exact (non_command_message BOARD_SAMD world_channel_zero
             "vwire/tok/heartbeat" ["7"]%char (or_introl eq_refl)).
  - exact (non_command_message BOARD_SAMD world_channel_zero
             "vwire/tok/cmd/" ["7"]%char
             (or_intror (ex_intro _ "/cmd/" (conj eq_refl eq_refl)))).
Defined.

Lemma c_string_length (bytes : list ascii) :
  (String.length (c_string bytes) <= length bytes)%nat.
Proof.
  induction bytes as [|c rest IH]; [cbn; lia|]. cbn [c_string].
  destruct (Ascii.eqb c zero); cbn [String.length length]; lia.
Qed.

Lemma c_string_no_nul (bytes : list ascii) :
  Forall (fun c => c <> zero) bytes ->
  c_string bytes = string_of_list_ascii bytes.
Proof.
  induction 1 as [|c rest Hc _ IH]; [reflexivity|].
  cbn [c_string string_of_list_ascii].
  destruct (Ascii.eqb_spec c zero); [contradiction|]. rewrite IH.
  reflexivity.
Qed.

(** X20. The copy of the payload that the observer and the handlers get
    always fits the payload buffer of the board with its terminator; it
    depends only on the first bytes that fit; and a payload that fits and
    holds no NUL byte arrives whole. *)
Theorem payload_copy_bounded (b : Board) (payload : list ascii) :
  (String.length (payload_copy b payload) < VWIRE_MAX_PAYLOAD_LENGTH b)%nat
  /\ payload_copy b payload
     = payload_copy b (take (VWIRE_MAX_PAYLOAD_LENGTH b - 1) payload)
  /\ ((length payload < VWIRE_MAX_PAYLOAD_LENGTH b)%nat ->
      Forall (fun c => c <> zero) payload ->
      payload_copy b payload = string_of_list_ascii payload).
Proof.
  assert (Hpos : (0 < VWIRE_MAX_PAYLOAD_LENGTH b)%nat) by (destruct b; cbn; lia).
  unfold payload_copy. split; [|split].
  - pose proof (c_string_length
                  (take (Nat.min (VWIRE_MAX_PAYLOAD_LENGTH b - 1)
                                 (length payload)) payload)) as H.
    rewrite length_take in H. lia.
  - rewrite length_take, take_take. f_equal. f_equal. lia.
  - intros Hfit Hnul.
    rewrite Nat.min_r by lia. rewrite take_ge by lia.
    apply c_string_no_nul. exact Hnul.
Qed.

Lemma payload_copy_bounded_witness :
  payload_copy BOARD_SAMD ["4"; "2"]%char = "42".
Proof.
  apply (proj2 (proj2 (payload_copy_bounded BOARD_SAMD ["4"; "2"]%char))).
  - vm_compute. lia.
  - repeat constructor; discriminate.
Defined.

(** ** Router: addressing a channel *)

Lemma prefix_app (n x y : string) :
  (String.length n <= String.length x)%nat ->
  String.prefix n (x +:+ y) = String.prefix n x.
Proof.
  revert x. induction n as [|c n IH]; intros x Hlen.
  - destruct x; destruct y; reflexivity.
  - destruct x as [|d x]; [cbn in Hlen; lia|].
    change (String d x +:+ y) with (String d (x +:+ y)).
    cbn [String.prefix]. destruct (ascii_dec c d); [|reflexivity].
    apply IH. cbn in Hlen. lia.
Qed.

Lemma strstr_first_marker (pre suf : string) :
  strstr (pre +:+ "/cmd") "/cmd/" = None ->
  strstr (pre +:+ "/cmd/" +:+ suf) "/cmd/" = Some ("/cmd/" +:+ suf).
Proof.
  induction pre as [|c pre IH]; intros Hnone.
  - destruct suf; reflexivity.
  - change (String c pre +:+ "/cmd") with (String c (pre +:+ "/cmd")) in Hnone.
    change (String c pre +:+ "/cmd/" +:+ suf)
      with (String c (pre +:+ "/cmd/" +:+ suf)).
    cbn [strstr] in Hnone |- *.
    destruct (String.prefix "/cmd/" (String c (pre +:+ "/cmd"))) eqn:Hp;
      [discriminate Hnone|].
    assert (Hp' : String.prefix "/cmd/" (String c (pre +:+ "/cmd/" +:+ suf))
                  = false).
    { etransitivity; [|exact Hp].
      change (String c (pre +:+ "/cmd/" +:+ suf))
        with (String c pre +:+ ("/cmd/" +:+ suf)).
      change ("/cmd/" +:+ suf) with ("/cmd" +:+ String "/" suf).
      rewrite <- append_assoc.
      change (String c (pre +:+ "/cmd")) with (String c pre +:+ "/cmd").
      apply prefix_app. rewrite append_length. cbn [String.length]. lia. }
    rewrite Hp'. apply IH. exact Hnone.
Qed.

Lemma parse_pin_decimal (n : Z) :
  0 <= n <= LONG_MAX ->
  parse_pin (pretty n) = n
  /\ parse_pin (String "V" (pretty n)) = n
  /\ parse_pin (String "v" (pretty n)) = n
  /\ pretty n <> EmptyString.
Proof.
  intros Hn.
  assert (Hat : atoi (pretty n) = n)
    by (apply atoi_pretty; unfold LONG_MIN, LONG_MAX in *; lia).
  split; [|split; [exact Hat | split; [exact Hat|apply pretty_comma_free]]].
  destruct n as [|p|p]; [reflexivity| |lia].
  destruct (pretty_positive_text p) as (d & s' & Hd & Hhead & _).
  rewrite <- Hat at 2. rewrite Hhead. cbn [parse_pin].
  destruct (pretty_N_char_facts d Hd) as (_ & _ & _ & _ & _ & _ & HV).
  rewrite HV. reflexivity.
Qed.

(** X21. The three spellings of a channel address the same channel.
    For a channel [n] in 0..127 and a topic that ends in the command
    marker followed by V and the decimal [n], by v and the decimal [n],
    or by the decimal [n] alone, with no marker earlier in the topic, the
    message goes to the observer and then to the one handler that
    first-match-wins selects for [n] (none when [n] has no entry). *)
Theorem command_channel_addressing (b : Board) (w : World) (pre : string)
    (n : Z) (payload : list ascii) (letter : string) :
  strstr (pre +:+ "/cmd") "/cmd/" = None ->
  0 <= n < VWIRE_MAX_VIRTUAL_PINS ->
  letter = "V" \/ letter = "v" \/ letter = EmptyString ->
  _handleMessage b (pre +:+ "/cmd/" +:+ letter +:+ pretty n) payload w
  = (tt, w,
     raw_events w (pre +:+ "/cmd/" +:+ letter +:+ pretty n)
                (payload_copy b payload)
     ++ match selected_handler w n with
        | Some h => call_events h (payload_copy b payload)
        | None => []
        end).
Proof.
  intros Hpre Hn Hletter.
  destruct (parse_pin_decimal n
              ltac:(unfold VWIRE_MAX_VIRTUAL_PINS, LONG_MAX in *; lia))
    as (Hplain & HV & Hv & Hne).
  rewrite _handleMessage_run.
  rewrite (strstr_first_marker pre (letter +:+ pretty n) Hpre).
  change (string_drop 5 ("/cmd/" +:+ letter +:+ pretty n))
    with (letter +:+ pretty n).
  assert (Hparse : parse_pin (letter +:+ pretty n) = n).
  { destruct Hletter as [-> | [-> | ->]]; assumption. }
  assert (Hin : in_pin_range n = true).
  { unfold in_pin_range.
    destruct (Z.leb_spec 0 n); [|lia].
    destruct (Z.ltb_spec n VWIRE_MAX_VIRTUAL_PINS); [reflexivity | lia]. }
  destruct (letter +:+ pretty n) as [|c rest] eqn:Etext.
  - destruct Hletter as [-> | [-> | ->]]; try discriminate Etext.
    contradiction.
  - rewrite Hparse, Hin. reflexivity.
Qed.

Lemma command_channel_addressing_witness :
  trace (_handleMessage BOARD_ESP32 "vwire/tok/cmd/v0" ["o"; "n"]%char
           world_channel_zero)
  = [CallRaw 9%nat "vwire/tok/cmd/v0" "on"; CallPin 3%nat "on"]
  /\ trace (_handleMessage BOARD_ESP32 "vwire/tok/cmd/0" ["o"; "n"]%char
              world_channel_zero)
     = [CallRaw 9%nat "vwire/tok/cmd/0" "on"; CallPin 3%nat "on"].
Proof.
  split.
  - pose proof (command_channel_addressing BOARD_ESP32 world_channel_zero
                  "vwire/tok" 0 ["o"; "n"]%char "v" eq_refl
                  ltac:(vm_compute; split; [discriminate | reflexivity])
                  (or_intror (or_introl eq_refl))) as H.
    exact (f_equal snd H).
  - pose proof (command_channel_addressing BOARD_ESP32 world_channel_zero
                  "vwire/tok" 0 ["o"; "n"]%char EmptyString eq_refl
                  ltac:(vm_compute; split; [discriminate | reflexivity])
                  (or_intror (or_intror eq_refl))) as H.
    exact (f_equal snd H).
Defined.

(** ** Registry: what a registration adds and what it leaves *)

Lemma find_app {A} (f : A -> bool) (l1 l2 : list A) :
  List.find f (l1 ++ l2)
  = match List.find f l1 with
    | Some x => Some x
    | None => List.find f l2
    end.
Proof.
  induction l1 as [|x l1 IH]; [reflexivity|]. cbn [app List.find].
  destruct (f x); [reflexivity | exact IH].
Qed.

Lemma to_uint8_small (c : Z) : 0 <= c < 256 -> to_uint8 c = c.
Proof. intros Hc. unfold to_uint8. apply Z.mod_small. exact Hc. Qed.

Lemma onVirtualWrite_entries (pin : Z) (h : option PinHandler) (w : World) :
  length (_pinHandlers (vwire w)) = VWIRE_MAX_HANDLERS ->
  explicit_entries (world_of (onVirtualWrite pin h w))
  = (if (VWIRE_MAX_HANDLERS <=? _pinHandlerCount (vwire w))%nat
     then explicit_entries w
     else explicit_entries w ++ [mkPinEntry (to_uint8 pin) h true])
  /\ declarative_entries (world_of (onVirtualWrite pin h w))
     = declarative_entries w
  /\ length (_pinHandlers (vwire (world_of (onVirtualWrite pin h w))))
     = VWIRE_MAX_HANDLERS
  /\ (_pinHandlerCount (vwire w) <= VWIRE_MAX_HANDLERS ->
      _pinHandlerCount (vwire (world_of (onVirtualWrite pin h w)))
      <= VWIRE_MAX_HANDLERS)%nat
  /\ _vwireAutoWriteHandlers (world_of (onVirtualWrite pin h w))
     = _vwireAutoWriteHandlers w
  /\ _vwireAutoWriteCount (world_of (onVirtualWrite pin h w))
     = _vwireAutoWriteCount w.
Proof.
  intros Hlen.
  destruct (Nat.leb_spec VWIRE_MAX_HANDLERS (_pinHandlerCount (vwire w)))
    as [Hfull | Hroom].
  - rewrite (onVirtualWrite_full pin h w Hfull).
    cbn [world_of fst snd].
    repeat split; try reflexivity; try assumption. intros H; exact H.
  - rewrite (onVirtualWrite_room pin h w Hroom).
    unfold explicit_entries, declarative_entries.
    cbn [world_of fst snd vwire with_vwire set_pinHandlers _pinHandlers
         _pinHandlerCount _vwireAutoWriteHandlers _vwireAutoWriteCount].
    split; [apply take_insert_append; lia|]. split; [reflexivity|].
    split; [rewrite length_insert; exact Hlen|].
    split; [intros _; lia|]. split; reflexivity.
Qed.

Lemma auto_register_entries (pin : Z) (h : option PinHandler) (w : World) :
  length (_vwireAutoWriteHandlers w) = VWIRE_MAX_AUTO_HANDLERS ->
  declarative_entries (world_of (_vwireRegisterWriteHandler pin h w))
  = (if (_vwireAutoWriteCount w <? VWIRE_MAX_AUTO_HANDLERS)%nat
     then declarative_entries w ++ [mkAutoEntry (to_uint8 pin) h]
     else declarative_entries w)
  /\ vwire (world_of (_vwireRegisterWriteHandler pin h w)) = vwire w
  /\ length (_vwireAutoWriteHandlers
               (world_of (_vwireRegisterWriteHandler pin h w)))
     = VWIRE_MAX_AUTO_HANDLERS.
Proof.
  intros Hlen. unfold _vwireRegisterWriteHandler. unfold_m.
  destruct (Nat.ltb_spec (_vwireAutoWriteCount w) VWIRE_MAX_AUTO_HANDLERS)
    as [Hroom | Hfull].
  - unfold declarative_entries.
    cbn [set_auto_table vwire _vwireAutoWriteHandlers _vwireAutoWriteCount].
    assert (Hincr : uint8_incr (_vwireAutoWriteCount w)
                    = S (_vwireAutoWriteCount w)).
    { unfold uint8_incr, VWIRE_MAX_AUTO_HANDLERS in *.
      rewrite Nat.mod_small by lia. lia. }
    rewrite Hincr. split; [apply take_insert_append; lia|].
    split; [reflexivity|]. rewrite length_insert. exact Hlen.
  - repeat split. exact Hlen.
Qed.

Lemma first_explicit_entries (w w' : World) (c : Z) :
  explicit_entries w' = explicit_entries w ->
  first_explicit w' c = first_explicit w c.
Proof. unfold first_explicit. intros ->. reflexivity. Qed.

Lemma first_declarative_entries (w w' : World) (c : Z) :
  declarative_entries w' = declarative_entries w ->
  first_declarative w' c = first_declarative w c.
Proof. unfold first_declarative. intros ->. reflexivity. Qed.

(** X22. Registering and then dispatching finds the handler.  When the
    explicit table has room and holds no active entry for channel [c]
    yet, [onVirtualWrite(c, h)] makes a later dispatch on [c] call [h] and
    nothing else, whatever the declarative table holds, and the handler
    selected for every other channel stays the same. *)
Theorem explicit_registration_reachable (c : Z) (h : PinHandler)
    (w : World) (p : string) :
  0 <= c < 256 ->
  length (_pinHandlers (vwire w)) = VWIRE_MAX_HANDLERS ->
  (_pinHandlerCount (vwire w) < VWIRE_MAX_HANDLERS)%nat ->
  first_explicit w c = None ->
  trace (dispatch c p (world_of (onVirtualWrite c (Some h) w)))
  = [CallPin h p]
  /\ (forall c', c' <> c ->
        selected_handler (world_of (onVirtualWrite c (Some h) w)) c'
        = selected_handler w c').
Proof.
  intros Hc Hlen Hroom Hnone.
  destruct (onVirtualWrite_entries c (Some h) w Hlen)
    as (Hex & Hde & _).
  destruct (Nat.leb_spec VWIRE_MAX_HANDLERS (_pinHandlerCount (vwire w)));
    [lia|].
  rewrite (to_uint8_small c Hc) in Hex.
  assert (Hfirst : forall c',
             first_explicit (world_of (onVirtualWrite c (Some h) w)) c'
             = match first_explicit w c' with
               | Some x => Some x
               | None => if c =? c' then Some (mkPinEntry c (Some h) true)
                         else None
               end).
  { intros c'. unfold first_explicit at 1. rewrite Hex, find_app.
    fold (first_explicit w c'). cbn [List.find]. unfold explicit_match.
    cbn [pe_active pe_pin andb].
    destruct (c =? c'); reflexivity. }
  split.
  - rewrite dispatch_run. cbn [trace snd]. unfold selected_handler.
    rewrite Hfirst, Hnone, Z.eqb_refl. reflexivity.
  - intros c' Hne. unfold selected_handler.
    rewrite Hfirst, (first_declarative_entries _ _ c' Hde).
    destruct (Z.eqb_spec c c'); [congruence|].
    destruct (first_explicit w c'); reflexivity.
Qed.

Lemma explicit_registration_reachable_witness :
  trace (dispatch 7 "42"
           (world_of (onVirtualWrite 7 (Some 5%nat) world_null_explicit)))
  = [CallPin 5%nat "42"]
  /\ selected_handler
       (world_of (onVirtualWrite 7 (Some 5%nat) world_null_explicit)) 5
     = Some None.
Proof.
  destruct (explicit_registration_reachable 7 5%nat world_null_explicit "42"
              ltac:(lia) eq_refl ltac:(vm_compute; lia) eq_refl)
    as (Ht & Hother).
  split; [exact Ht|].
  exact (eq_trans (Hother 5 ltac:(discriminate)) eq_refl).
Defined.

(** X23. The same for a declarative registration: when neither table
    holds an entry for channel [c] and the declarative table has room,
    a handler registered through the macro is the one that a later
    dispatch on [c] calls, once. *)
Theorem declarative_registration_reachable (c : Z) (h : PinHandler)
    (w : World) (p : string) :
  0 <= c < 256 ->
  length (_vwireAutoWriteHandlers w) = VWIRE_MAX_AUTO_HANDLERS ->
  (_vwireAutoWriteCount w < VWIRE_MAX_AUTO_HANDLERS)%nat ->
  first_explicit w c = None ->
  first_declarative w c = None ->
  trace (dispatch c p (world_of (_vwireRegisterWriteHandler c (Some h) w)))
  = [CallPin h p].
Proof.
  intros Hc Hlen Hroom Hex Hde.
  destruct (auto_register_entries c (Some h) w Hlen) as (Hentries & Hvw & _).
  destruct (Nat.ltb_spec (_vwireAutoWriteCount w) VWIRE_MAX_AUTO_HANDLERS);
    [|lia].
  rewrite (to_uint8_small c Hc) in Hentries.
  rewrite dispatch_run. cbn [trace snd]. unfold selected_handler.
  assert (Hsame : first_explicit
                    (world_of (_vwireRegisterWriteHandler c (Some h) w)) c
                  = first_explicit w c).
  { unfold first_explicit, explicit_entries. rewrite Hvw. reflexivity. }
  rewrite Hsame, Hex. unfold first_declarative at 1.
  rewrite Hentries, find_app. fold (first_declarative w c). rewrite Hde.
  cbn [List.find]. unfold declarative_match. cbn [ah_pin].
  rewrite Z.eqb_refl. reflexivity.
Qed.

Lemma declarative_registration_reachable_witness :
  trace (dispatch 9 "1"
           (world_of (_vwireRegisterWriteHandler 9 (Some 4%nat)
                        world_null_explicit)))
  = [CallPin 4%nat "1"].
Proof.
  exact (declarative_registration_reachable 9 4%nat world_null_explicit "1"
           ltac:(lia) eq_refl ltac:(vm_compute; lia) eq_refl eq_refl).
Defined.

Lemma registry_wf_explicit (pin : Z) (h : option PinHandler) (w : World) :
  registry_wf w -> registry_wf (world_of (onVirtualWrite pin h w)).
Proof.
  intros (Hlen & Hcnt & Halen & Hacnt & Hact).
  destruct (onVirtualWrite_entries pin h w Hlen)
    as (Hex & _ & Hlen' & Hcnt' & Hat & Hac).
  unfold registry_wf. rewrite Hat, Hac, Hex.
  split; [exact Hlen'|]. split; [apply Hcnt', Hcnt|].
  split; [exact Halen|]. split; [exact Hacnt|].
  destruct (VWIRE_MAX_HANDLERS <=? _pinHandlerCount (vwire w))%nat;
    [exact Hact|].
  apply Forall_app. split; [exact Hact|]. constructor; [reflexivity|].
  constructor.
Qed.

Lemma registry_wf_declarative (pin : Z) (h : option PinHandler) (w : World) :
  registry_wf w -> registry_wf (world_of (_vwireRegisterWriteHandler pin h w)).
Proof.
  intros (Hlen & Hcnt & Halen & Hacnt & Hact).
  destruct (auto_register_entries pin h w Halen) as (_ & Hvw & Halen').
  unfold registry_wf, explicit_entries. rewrite Hvw.
  split; [exact Hlen|]. split; [exact Hcnt|]. split; [exact Halen'|].
  split; [apply auto_register_count, Hacnt | exact Hact].
Qed.

Lemma register_seq_cons (r : Registration) (rest : list Registration)
    (w : World) :
  world_of (register_seq (r :: rest) w)
  = world_of (register_seq rest
                (world_of (match r with
                           | RegExplicit pin h => onVirtualWrite pin h w
                           | RegDeclarative pin h =>
                               _vwireRegisterWriteHandler pin h w
                           end))).
Proof.
  destruct r; cbn [register_seq]; rewrite bind_run; reflexivity.
Qed.

(** X24. The earliest explicit registration for a channel stays the one
    that is called.  Once the explicit table holds an active entry for
    channel [c], no run of later registrations, explicit or declarative,
    for [c] or for any other channel, changes the entry that wins for [c]
    or what a dispatch on [c] calls. *)
Theorem earliest_registration_wins (rs : list Registration) (c : Z)
    (en : PinHandlerEntry) (p : string) :
  forall w : World,
    registry_wf w ->
    first_explicit w c = Some en ->
    first_explicit (world_of (register_seq rs w)) c = Some en
    /\ trace (dispatch c p (world_of (register_seq rs w)))
       = call_events (pe_handler en) p.
Proof.
  assert (Hdisp : forall v : World,
             first_explicit v c = Some en ->
             trace (dispatch c p v) = call_events (pe_handler en) p).
  { intros v Hv. rewrite dispatch_run. cbn [trace snd].
    unfold selected_handler. rewrite Hv. reflexivity. }
  induction rs as [|r rest IH]; intros w Hwf Hfirst.
  - split; [exact Hfirst | apply Hdisp, Hfirst].
  - rewrite register_seq_cons. destruct r as [pin h | pin h].
    + apply IH; [apply registry_wf_explicit, Hwf|].
      destruct Hwf as (Hlen & _).
      destruct (onVirtualWrite_entries pin h w Hlen) as (Hex & _).
      unfold first_explicit. rewrite Hex.
      destruct (VWIRE_MAX_HANDLERS <=? _pinHandlerCount (vwire w))%nat;
        [exact Hfirst|].
      rewrite find_app. fold (first_explicit w c). rewrite Hfirst.
      reflexivity.
    + apply IH; [apply registry_wf_declarative, Hwf|].
      destruct Hwf as (_ & _ & Halen & _).
      destruct (auto_register_entries pin h w Halen) as (_ & Hvw & _).
      unfold first_explicit, explicit_entries. rewrite Hvw. exact Hfirst.
Qed.

Lemma registry_wf_initial : registry_wf initial_world.
Proof.
  unfold registry_wf. cbn. repeat split; try reflexivity; try lia.
  constructor.
Qed.

Lemma earliest_registration_wins_witness :
  trace (dispatch 0 "1"
           (world_of (register_seq
                        [RegExplicit 0 (Some 8%nat);
                         RegDeclarative 0 (Some 6%nat);
                         RegExplicit 0 None]
                        (world_of (onVirtualWrite 0 (Some 3%nat)
                                     initial_world)))))
  = [CallPin 3%nat "1"].
Proof.
  assert (Hwf : registry_wf (world_of (onVirtualWrite 0 (Some 3%nat)
                                         initial_world))).
  { unfold registry_wf.
    repeat split; try reflexivity; try (vm_compute; lia).
    vm_compute. repeat constructor. }
  exact (proj2 (earliest_registration_wins
                  [RegExplicit 0 (Some 8%nat); RegDeclarative 0 (Some 6%nat);
                   RegExplicit 0 None]
                  0 (mkPinEntry 0 (Some 3%nat) true) "1"
                  (world_of (onVirtualWrite 0 (Some 3%nat) initial_world))
                  Hwf eq_refl)).
Defined.

Lemma registry_wf_same (w w' : World) :
  same_registry w w' -> registry_wf w -> registry_wf w'.
Proof.
  intros (H1 & H2 & H3 & H4 & _) (Hlen & Hcnt & Halen & Hacnt & Hact).
  unfold registry_wf, explicit_entries in *. rewrite H1, H2, H3, H4.
  repeat split; assumption.
Qed.

(** X25. The tables stay well formed.  From construction on, through
    any run of registrations followed by any run of polls, both arrays
    keep their 32 slots, both counts stay within 32, and every registered
    explicit entry is active; so each index that a dispatch scan reads
    lies inside its array, and the active test of the scan never turns an
    entry down. *)
Theorem registry_stays_well_formed (b : Board) (rs : list Registration)
    (polls : list Env) (c : Z) :
  let w := world_of (run_polls b polls
                       (world_of (register_seq rs initial_world))) in
  registry_wf w
  /\ (forall i, (i < _pinHandlerCount (vwire w))%nat ->
        is_Some (_pinHandlers (vwire w) !! i))
  /\ (forall i, (i < _vwireAutoWriteCount w)%nat ->
        is_Some (_vwireAutoWriteHandlers w !! i))
  /\ first_explicit w c
     = List.find (fun en => pe_pin en =? c) (explicit_entries w).
Proof.
  intros w.
  assert (Hregs : forall (l : list Registration) (v : World),
             registry_wf v -> registry_wf (world_of (register_seq l v))).
  { induction l as [|r rest IH]; intros v Hv; [exact Hv|].
    rewrite register_seq_cons. apply IH. destruct r.
    - apply registry_wf_explicit, Hv.
    - apply registry_wf_declarative, Hv. }
  assert (Hpolls : forall (l : list Env) (v : World),
             same_registry v (world_of (run_polls b l v))).
  { induction l as [|p rest IH]; intros v; [apply same_registry_refl|].
    rewrite run_polls_cons. cbn [world_of fst snd].
    eapply same_registry_trans; [apply run_same_registry | apply IH]. }
  assert (Hwf : registry_wf w).
  { subst w. eapply registry_wf_same; [apply Hpolls|].
    apply Hregs, registry_wf_initial. }
  split; [exact Hwf|]. destruct Hwf as (Hlen & Hcnt & Halen & Hacnt & Hact).
  split; [|split].
  - intros i Hi. apply lookup_lt_is_Some. lia.
  - intros i Hi. apply lookup_lt_is_Some. lia.
  - unfold first_explicit. induction Hact as [|en l Hen _ IH];
      [reflexivity|].
    cbn [List.find]. unfold explicit_match at 1. rewrite Hen, IH.
    reflexivity.
Qed.

(** ** Scheduler: cooperation with the host *)

Lemma notice_drop_no_host_call (w : World) :
  List.filter is_host_call (trace (notice_drop w)) = [].
Proof.
  rewrite notice_drop_run.
  destruct (VwireState_eqb (_state (vwire w)) VWIRE_STATE_CONNECTED);
    [|reflexivity].
  cbn [trace snd].
  destruct (_disconnectHandler (vwire w));
    destruct (_vwireAutoDisconnectHandler w); reflexivity.
Qed.

Lemma _connectMQTT_no_host_call (e : Env) (w : World) :
  List.filter is_host_call (trace (_connectMQTT e w)) = [].
Proof.
  unfold _connectMQTT, _setError. unfold_m.
  destruct (String.length (authToken (_settings (vwire w))) =? 0)%nat;
    [reflexivity|].
  destruct (connect_result e); [|reflexivity].
  destruct (_connectHandler (vwire w));
    destruct (_vwireAutoConnectHandler w); reflexivity.
Qed.

(** X26. With the transport down every poll hands control to the host
    exactly once and first: its trace starts with the yield, followed by
    one OTA poll exactly when the board has OTA support and OTA was
    enabled, and whatever else the poll does contains neither. *)
Theorem slow_poll_yields_first (b : Board) (e : Env) (w : World) :
  mqtt_connected e = false ->
  exists rest : list Event,
    trace (run b e w)
    = Yield
      :: (if VWIRE_HAS_OTA b && _otaEnabled (vwire w) then [OtaHandle] else [])
      ++ rest
    /\ List.filter is_host_call rest = [].
Proof.
  intros Hdown. fold (ota_events b w).
  destruct (wifi_connected e) eqn:Hwifi.
  - rewrite (run_session_down b e w Hdown Hwifi).
    destruct (_ && _); cbn [trace snd]; unfold idle_poll.
    + eexists. split; [reflexivity|].
      rewrite List.filter_app, notice_drop_no_host_call,
        _connectMQTT_no_host_call. reflexivity.
    + eexists. split; [reflexivity|]. apply notice_drop_no_host_call.
  - rewrite (run_network_down b e w Hdown Hwifi). cbn [trace snd].
    unfold idle_poll. eexists. split; [reflexivity|].
    apply notice_drop_no_host_call.
Qed.

Lemma slow_poll_yields_first_witness :
  trace (run BOARD_ESP32 (network_down_poll_at 5)
           (world_of (enableOTA None None world_with_callbacks)))
  = [Yield; OtaHandle; CallConnection 2%nat; CallConnection 12%nat]
  /\ exists rest : list Event,
       trace (run BOARD_SAMD (network_down_poll_at 5)
                (world_of (enableOTA None None world_with_callbacks)))
       = Yield :: [] ++ rest
       /\ List.filter is_host_call rest = [].
Proof.
  split; [reflexivity|].
  exact (slow_poll_yields_first BOARD_SAMD (network_down_poll_at 5)
           (world_of (enableOTA None None world_with_callbacks)) eq_refl).
Defined.

Lemma registry_stays_well_formed_witness :
  is_Some
    (_pinHandlers
       (vwire (world_of
                 (run_polls BOARD_ESP32 [poll_at 5; offline_poll_at 9000]
                    (world_of (register_seq
                                 [RegExplicit 4 (Some 1%nat);
                                  RegDeclarative 4 (Some 2%nat)]
                                 initial_world)))))
     !! 0%nat).
Proof.
  apply (proj1 (proj2 (registry_stays_well_formed BOARD_ESP32
                         [RegExplicit 4 (Some 1%nat);
                          RegDeclarative 4 (Some 2%nat)]
                         [poll_at 5; offline_poll_at 9000] 4))).
  vm_compute. lia.
Defined.
